(** * RealDeCuenca: the SOAP adapters of [webapp/servicios]

    A shallow embedding of the request/response adapters that the Django
    views call.  The adapters embedded here have the same skeleton:

    - validate the arguments (some adapters only),
    - interpolate the arguments into a SOAP envelope,
    - [requests.post] the envelope with a timeout,
    - on a status other than 200 return at once,
    - otherwise read the reply (ElementTree, or plain string search) and
      build a dict, a list or [None],
    - the whole body sits in one [try]/[except].

    Five adapters of the repository call the service through a zeep client
    instead; they are not embedded.

    Python values are modelled by [Atom] (arguments) and [Value] (results),
    exceptions by the error monad [sum PyExn], the single outbound POST by
    the two-constructor tree [Call].  A text is the bytes of its UTF-8 form:
    [strip] removes the white space of every script, byte pattern by byte
    pattern, and [int()] is computed on ASCII text.  What needs the
    interpreter's tables of characters ([int()] and [lower()] on text
    outside ASCII, [repr()]) or its floats ([float()], the printing of a
    float), [ET.fromstring] and the clock are fields of [Env].

    Twenty-four adapters are embedded in full, from seven of the eleven
    modules: the ones the specification cites, one of every way of handling
    a failure that the source has, and the adapters of wsHotel,
    wsTipoAlimentacion and wsEspXRes that change a record.  The helper
    functions of the other modules ([safe_int], [safe_bool], [bool_str]) are
    embedded with them, and so are three of the views that call adapters
    ([verificar_disponibilidad], [api_espacios_listar],
    [api_reservas_eliminar]); a view is a [Call] whose result is an
    [HttpResponse].  The facts C1 to C10 come first, the further facts
    after them.

    Not modelled: logging; a text with a lone surrogate, which has no UTF-8
    form; the interpreter's limit on the number of digits that [int()] and
    [str()] convert. *)

From Stdlib Require Import String Ascii List ZArith Bool Lia DecimalString.
From Stdlib Require DecimalPos.
From ExtLib Require Import Structures.Monad Structures.MonadExc Data.Monads.EitherMonad.
Import ListNotations.
Import MonadNotation.

Local Open Scope monad_scope.
Local Open Scope list_scope.
Local Open Scope string_scope.

(** ** Python strings *)

(** A [str] is modelled by the bytes of its UTF-8 form. *)

Module Py.

(** The double quote, which the envelopes need around attribute values. *)
Definition dq : string := String (ascii_of_nat 34) EmptyString.

(** The newline of the triple-quoted templates. *)
Definition nl : string := String (ascii_of_nat 10) EmptyString.

Definition byte (c : ascii) : nat := nat_of_ascii c.

(** All characters of the text are ASCII. *)
Fixpoint is_ascii (s : string) : bool :=
  match s with
  | EmptyString => true
  | String c s' => (byte c <? 128)%nat && is_ascii s'
  end.

Definition lower_ascii (c : ascii) : ascii :=
  let n := nat_of_ascii c in
  if ((65 <=? n) && (n <=? 90))%nat then ascii_of_nat (n + 32) else c.

(** [str.lower()] on ASCII text.  On every text, [lower s] is a given ASCII
    word without the letters i and k exactly when [s.lower()] is: the only
    characters outside ASCII whose lower case has an ASCII letter are U+0130
    and U+212A, which give i and k.  The adapters compare with the words
    true, 1, yes and none. *)
Fixpoint lower (s : string) : string :=
  match s with
  | EmptyString => EmptyString
  | String c s' => String (lower_ascii c) (lower s')
  end.

(** [str.isspace()] on one ASCII character: tab, line feed, vertical tab,
    form feed, carriage return, the four separators 28..31 and the space. *)
Definition is_space (c : ascii) : bool :=
  let n := nat_of_ascii c in
  (((9 <=? n) && (n <=? 13)) || ((28 <=? n) && (n <=? 32)))%nat.

(** The white space of two bytes: U+0085 and U+00A0. *)
Definition is_space_2 (a b : ascii) : bool :=
  ((byte a =? 194) && ((byte b =? 133) || (byte b =? 160)))%nat.

(** The white space of three bytes: U+1680, U+2000 to U+200A, U+2028,
    U+2029, U+202F, U+205F and U+3000. *)
Definition is_space_3 (a b c : ascii) : bool :=
  (((byte a =? 225) && (byte b =? 154) && (byte c =? 128))
   || ((byte a =? 226) && (byte b =? 128)
       && (((128 <=? byte c) && (byte c <=? 138))
           || (byte c =? 168) || (byte c =? 169) || (byte c =? 175)))
   || ((byte a =? 226) && (byte b =? 129) && (byte c =? 159))
   || ((byte a =? 227) && (byte b =? 128) && (byte c =? 128)))%nat.

(** Dropping the characters at the head of [s] that [p1], [p2] or [p3]
    recognise by their one, two or three bytes. *)
Fixpoint drop_while (p1 : ascii -> bool) (p2 : ascii -> ascii -> bool)
    (p3 : ascii -> ascii -> ascii -> bool) (s : string) : string :=
  match s with
  | EmptyString => EmptyString
  | String a s1 =>
      if p1 a then drop_while p1 p2 p3 s1
      else
        match s1 with
        | EmptyString => s
        | String b s2 =>
            if p2 a b then drop_while p1 p2 p3 s2
            else
              match s2 with
              | EmptyString => s
              | String c s3 => if p3 a b c then drop_while p1 p2 p3 s3 else s
              end
        end
  end.

Fixpoint rev (s : string) : string :=
  match s with
  | EmptyString => EmptyString
  | String c s' => rev s' ++ String c EmptyString
  end.

(** [str.lstrip()] *)
Definition lstrip (s : string) : string := drop_while is_space is_space_2 is_space_3 s.

(** [str.rstrip()]: the white space at the end of [s] is at the head of its
    bytes read backwards, each character with its bytes backwards. *)
Definition rstrip (s : string) : string :=
  rev (drop_while is_space (fun a b => is_space_2 b a) (fun a b c => is_space_3 c b a)
         (rev s)).

(** [str.strip()] *)
Definition strip (s : string) : string := lstrip (rstrip s).

(** [prefix p s]: [s.startswith(p)] *)
Fixpoint startswith (p s : string) : bool :=
  match p, s with
  | EmptyString, _ => true
  | String _ _, EmptyString => false
  | String a p', String b s' => Ascii.eqb a b && startswith p' s'
  end.

(** [p in s] for two strings *)
Fixpoint contains (p s : string) : bool :=
  startswith p s ||
  match s with
  | EmptyString => false
  | String _ s' => contains p s'
  end.

Fixpoint drop (n : nat) (s : string) : string :=
  match n, s with
  | O, _ => s
  | S n', String _ s' => drop n' s'
  | S _, EmptyString => EmptyString
  end.

(** [s.partition(sep)] for a non-empty [sep]: the text before the first
    occurrence of [sep] and, when there is one, the text after it. *)
Fixpoint partition (sep s : string) : string * option string :=
  if startswith sep s then (EmptyString, Some (drop (String.length sep) s))
  else
    match s with
    | EmptyString => (EmptyString, None)
    | String c s' =>
        let '(before, after) := partition sep s' in (String c before, after)
    end.

(** [s.split(sep)[0]] *)
Definition split_0 (sep s : string) : string := fst (partition sep s).

(** [s.split(sep)[1]]; [None] is the [IndexError] of a list of one piece. *)
Definition split_1 (sep s : string) : option string :=
  match snd (partition sep s) with
  | None => None
  | Some rest => Some (fst (partition sep rest))
  end.

(** Decimal text of an integer, as [str(n)] prints it. *)
Definition decimal (z : Z) : string := NilZero.string_of_int (Z.to_int z).

Definition digit_of (c : ascii) : option Z :=
  let n := nat_of_ascii c in
  if ((48 <=? n) && (n <=? 57))%nat then Some (Z.of_nat (n - 48)) else None.

(** The digits of an [int()] literal: one or more digits, single
    underscores allowed between two digits. *)
Fixpoint int_digits (acc : Z) (after_digit : bool) (s : string) : option Z :=
  match s with
  | EmptyString => if after_digit then Some acc else None
  | String c s' =>
      match digit_of c with
      | Some d => int_digits (10 * acc + d) true s'
      | None =>
          if Ascii.eqb c "_"%char && after_digit then int_digits acc false s'
          else None
      end
  end.

(** The white space that [int()] skips around an ASCII literal: tab, line
    feed, vertical tab, form feed, carriage return and the space, without
    the separators 28..31 that [str.strip()] removes. *)
Definition int_space (c : ascii) : bool :=
  let n := nat_of_ascii c in
  (((9 <=? n) && (n <=? 13)) || (n =? 32))%nat.

Fixpoint int_lstrip (s : string) : string :=
  match s with
  | EmptyString => EmptyString
  | String c s' => if int_space c then int_lstrip s' else s
  end.

Fixpoint int_rstrip (s : string) : string :=
  match s with
  | EmptyString => EmptyString
  | String c s' =>
      match int_rstrip s' with
      | EmptyString => if int_space c then EmptyString else String c EmptyString
      | r => String c r
      end
  end.

(** [int(s)] on ASCII text, base 10: white space, an optional sign, the
    digits, white space.  [None] stands for [ValueError]. *)
Definition ascii_int (s : string) : option Z :=
  match int_rstrip (int_lstrip s) with
  | String "+"%char r => int_digits 0 false r
  | String "-"%char r => option_map Z.opp (int_digits 0 false r)
  | t => int_digits 0 false t
  end.

(** What depends on the interpreter's tables of Unicode characters. *)
Record Unicode : Type := mkUnicode {
  (** [int(s)] for a text with a character outside ASCII, where the
      decimal digits and the white space of every script count; [None] is
      [ValueError]. *)
  int_non_ascii : string -> option Z;
  (** A text of white space only is no literal. *)
  int_non_ascii_blank : forall s, strip s = EmptyString -> int_non_ascii s = None;
  (** [repr(s)] as the message of [int()] shows it, with the format
      [%.200R]: quotes, escapes, at most 200 characters. *)
  repr : string -> string;
  (** [s.lower()] for a text with a character outside ASCII. *)
  lower_non_ascii : string -> string
}.

(** [int(s)] on a string, base 10.  [None] stands for [ValueError]. *)
Definition parse_int (U : Unicode) (s : string) : option Z :=
  if is_ascii s then ascii_int s else int_non_ascii U s.

(** [s.lower()] as a text to write. *)
Definition lower_any (U : Unicode) (s : string) : string :=
  if is_ascii s then lower s else lower_non_ascii U s.

(** Joining the fragments of an f-string. *)
Definition fstring (pieces : list string) : string :=
  fold_right String.append EmptyString pieces.

End Py.
(** ** Python values *)

(** A [float]: the number [m * 2^e] with its sign, so that [-0.0] is one,
    an infinity, or a NaN. *)
Inductive Float : Type :=
| Finite (negative : bool) (m : N) (e : Z)
| Infinite (negative : bool)
| NaN.

Module Flt.

(** [x == 0] *)
Definition is_zero (x : Float) : bool :=
  match x with
  | Finite _ m _ => (m =? 0)%N
  | _ => false
  end.

(** [x <= 0] *)
Definition le_zero (x : Float) : bool :=
  match x with
  | Finite negative m _ => negative || (m =? 0)%N
  | Infinite negative => negative
  | NaN => false
  end.

(** [int(x)]: the integer part, towards zero; [None] is the
    [OverflowError] of an infinity or the [ValueError] of a NaN. *)
Definition trunc (x : Float) : option Z :=
  match x with
  | Finite negative m e =>
      let magnitude :=
        (if 0 <=? e then Z.of_N m * 2 ^ e else Z.of_N m / 2 ^ (- e))%Z in
      Some (if negative then (- magnitude)%Z else magnitude)
  | _ => None
  end.

End Flt.

(** What a caller passes in: the scalars [None], [bool], [int], [float],
    [str]; a float comes with the text that [str()] writes for it. *)
Inductive Atom : Type :=
| ANone
| ABool (b : bool)
| AInt (z : Z)
| AFloat (x : Float) (shown : string)
| AStr (s : string).

(** A request record: a dict from field names to scalars. *)
Definition Dict := list (string * Atom).

(** What an adapter returns. *)
#[warnings="-register-all"]
Inductive Value : Type :=
| VNone
| VBool (b : bool)
| VInt (z : Z)
| VFloat (x : Float)
| VStr (s : string)
| VList (items : list Value)
| VDict (entries : list (string * Value)).

Inductive PyExn : Type :=
| ValueError (msg : string)
| TypeError (msg : string)
| AttributeError (msg : string)
| KeyError (key : string)
| IndexError (msg : string)
| ParseError (msg : string)
| RequestException (msg : string).

(** The error monad of a Python block: [inl] is a raised exception. *)
Definition Exc : Type -> Type := sum PyExn.

Module Val.

Definition of_atom (a : Atom) : Value :=
  match a with
  | ANone => VNone
  | ABool b => VBool b
  | AInt z => VInt z
  | AFloat x _ => VFloat x
  | AStr s => VStr s
  end.

(** [str(a)], which is also what an f-string writes for [{a}]. *)
Definition str (a : Atom) : string :=
  match a with
  | ANone => "None"
  | ABool true => "True"
  | ABool false => "False"
  | AInt z => Py.decimal z
  | AFloat _ shown => shown
  | AStr s => s
  end.

(** Truth value of [a] in a condition. *)
Definition truthy (a : Atom) : bool :=
  match a with
  | ANone => false
  | ABool b => b
  | AInt z => negb (z =? 0)%Z
  | AFloat x _ => negb (Flt.is_zero x)
  | AStr s => negb (s =? EmptyString)%string
  end.

(** [isinstance(a, int)]: [bool] is a subclass of [int]. *)
Definition isinstance_int (a : Atom) : bool :=
  match a with
  | AInt _ | ABool _ => true
  | _ => false
  end.

Definition isinstance_str (a : Atom) : bool :=
  match a with
  | AStr _ => true
  | _ => false
  end.

(** The integer an [int] instance denotes. *)
Definition int_of (a : Atom) : Z :=
  match a with
  | AInt z => z
  | ABool true => 1
  | _ => 0
  end.

(** [not isinstance(a, int) or a <= 0], the guard of the validating
    adapters. *)
Definition rejected_id (a : Atom) : bool :=
  negb (isinstance_int a) || (int_of a <=? 0)%Z.

(** [a <= 0]: a number is compared, anything else raises. *)
Definition le_zero (a : Atom) : Exc bool :=
  match a with
  | ABool b => inr ((if b then 1 else 0) <=? 0)%Z
  | AInt z => inr (z <=? 0)%Z
  | AFloat x _ => inr (Flt.le_zero x)
  | AStr _ => inl (TypeError "'<=' not supported between instances of 'str' and 'int'")
  | ANone => inl (TypeError "'<=' not supported between instances of 'NoneType' and 'int'")
  end.

Fixpoint get (d : Dict) (k : string) : option Atom :=
  match d with
  | [] => None
  | (k', a) :: d' => if (k' =? k)%string then Some a else get d' k
  end.

(** [d.get(k, default)] *)
Definition get_default (d : Dict) (k : string) (default : Atom) : Atom :=
  match get d k with
  | Some a => a
  | None => default
  end.

(** [d.get(k)] *)
Definition get_or_none (d : Dict) (k : string) : Atom := get_default d k ANone.

(** [k in d] *)
Definition mem (k : string) (d : Dict) : bool :=
  match get d k with
  | Some _ => true
  | None => false
  end.

(** [d[k]] *)
Definition item (d : Dict) (k : string) : Exc Atom :=
  match get d k with
  | Some a => inr a
  | None => inl (KeyError k)
  end.

Fixpoint lookup (entries : list (string * Value)) (k : string) : option Value :=
  match entries with
  | [] => None
  | (k', v) :: rest => if (k' =? k)%string then Some v else lookup rest k
  end.

(** [k in v] for a result that is a dict. *)
Definition has_key (k : string) (v : Value) : bool :=
  match v with
  | VDict entries =>
      match lookup entries k with
      | Some _ => true
      | None => false
      end
  | _ => false
  end.

(** [v[k]] read back from a result, when [v] is a dict with that key. *)
Definition field (k : string) (v : Value) : option Value :=
  match v with
  | VDict entries => lookup entries k
  | _ => None
  end.

(** Some string inside [v] contains [s]. *)
Fixpoint mentions (s : string) (v : Value) : bool :=
  match v with
  | VStr t => Py.contains s t
  | VList items => existsb (mentions s) items
  | VDict entries => existsb (fun kv => mentions s (snd kv)) entries
  | _ => false
  end.

(** The marker the views test: ["error" in resultado]. *)
Definition is_failure (v : Value) : bool := has_key "error" v.

(** [str(ex)] *)
Definition str_exn (e : PyExn) : string :=
  match e with
  | ValueError m | TypeError m | AttributeError m | IndexError m
  | ParseError m | RequestException m => m
  | KeyError k => Py.fstring ["'"; k; "'"]
  end.

(** [int(text)] on a string; the message shows [repr(text)]. *)
Definition int (U : Py.Unicode) (text : string) : Exc Z :=
  match Py.parse_int U text with
  | Some z => inr z
  | None =>
      inl (ValueError
             (Py.fstring ["invalid literal for int() with base 10: "; Py.repr U text]))
  end.

(** [text.strip()] where [text] may be [None]. *)
Definition strip_opt (text : option string) : Exc string :=
  match text with
  | Some s => inr (Py.strip s)
  | None => inl (AttributeError "'NoneType' object has no attribute 'strip'")
  end.

End Val.

(** ** ElementTree *)

(** A parsed element: its qualified tag, its text ([None] when the element
    has none) and its children in document order. *)
#[warnings="-register-all"]
Inductive Element : Type :=
| Elem (tag : string) (text : option string) (children : list Element).

Module ET.

Definition tag (e : Element) : string := let 'Elem t _ _ := e in t.
Definition text (e : Element) : option string := let 'Elem _ x _ := e in x.
Definition children (e : Element) : list Element := let 'Elem _ _ cs := e in cs.

(** The qualified name that [prefix:local] resolves to when the prefix is
    bound to [http://tempuri.org/], as [tem] and [t] are in every [ns]. *)
Definition tem (local : string) : string :=
  Py.fstring ["{http://tempuri.org/}"; local].

(** [e.findall("tem:X", ns)]: the children named [X], in document order. *)
Definition findall (name : string) (e : Element) : list Element :=
  filter (fun c => (tag c =? name)%string) (children e).

(** [e.find("tem:X", ns)] *)
Definition find (name : string) (e : Element) : option Element :=
  hd_error (findall name e).

(** [e.findtext("tem:X", default, ns)]: the default when no child matches,
    the empty string when the child has no text. *)
Definition findtext (name default : string) (e : Element) : string :=
  match find name e with
  | None => default
  | Some c =>
      match text c with
      | None => EmptyString
      | Some s => s
      end
  end.

(** [e.findtext("tem:X/tem:Y", default, ns)] *)
Definition findtext_2 (outer inner default : string) (e : Element) : string :=
  match flat_map (findall inner) (findall outer e) with
  | [] => default
  | c :: _ =>
      match text c with
      | None => EmptyString
      | Some s => s
      end
  end.

(** Every element below [e], in document order. *)
Fixpoint descendants (e : Element) : list Element :=
  match e with
  | Elem _ _ cs => flat_map (fun c => c :: descendants c) cs
  end.

(** [e.findall(".//tem:X", ns)] *)
Definition findall_deep (name : string) (e : Element) : list Element :=
  filter (fun c => (tag c =? name)%string) (descendants e).

(** [e.find(".//tem:X", ns)] *)
Definition find_deep (name : string) (e : Element) : option Element :=
  hd_error (findall_deep name e).

(** [node.find("t:X", ns).text if node.find("t:X", ns) is not None else None] *)
Definition text_or_none (name : string) (e : Element) : Value :=
  match find name e with
  | None => VNone
  | Some c =>
      match text c with
      | None => VNone
      | Some s => VStr s
      end
  end.

End ET.

(** ** The outbound call *)

Record Request : Type := mkRequest {
  url : string;
  data : string;
  headers : list (string * string);
  timeout : Z
}.

Record Response : Type := mkResponse {
  status_code : Z;
  text : string
}.

(** What [requests.post] does: it returns a response, or raises a
    [RequestException] (connection refused, timeout, ...). *)
Inductive Outcome : Type :=
| Replied (response : Response)
| Unreachable (cause : string).

(** What the adapter reads from its surroundings. *)
Record Env : Type := mkEnv {
  (** [ET.fromstring]: [inl] is the message of its [ParseError]. *)
  fromstring : string -> string + Element;
  (** [datetime.now().isoformat()] at the n-th reading of the clock. *)
  now_isoformat : nat -> string;
  (** [str(safe_float(v))] for an integer or a text [v]: the text an
      f-string writes for a decimal field.  The conversion of a text to a
      float and the printing of a float are not modelled. *)
  safe_float_text : Atom -> string;
  (** [float(text)]; [None] is its [ValueError]. *)
  float_of_text : string -> option Float;
  (** [float("0")] is [0.0]. *)
  float_of_zero : float_of_text "0" = Some (Finite false 0 0);
  (** The interpreter's Unicode tables. *)
  unicode : Py.Unicode
}.

(** An adapter either returns without touching the network, or sends one
    request and computes its result from the outcome. *)
Inductive Call (A : Type) : Type :=
| Done (result : A)
| Post (request : Request) (continue : Outcome -> A).

Arguments Done {A} result.
Arguments Post {A} request continue.

Module Http.

(** The result of an adapter against a remote end. *)
Definition run {A} (remote : Request -> Outcome) (c : Call A) : A :=
  match c with
  | Done r => r
  | Post rq k => k (remote rq)
  end.

(** The requests an adapter sends. *)
Definition sent {A} (c : Call A) : list Request :=
  match c with
  | Done _ => []
  | Post rq _ => [rq]
  end.

(** [requests.post(...)], inside a block. *)
Definition receive (o : Outcome) : Exc Response :=
  match o with
  | Replied r => inr r
  | Unreachable cause => inl (RequestException cause)
  end.

(** [ET.fromstring(response.text)], inside a block. *)
Definition parse (E : Env) (body : string) : Exc Element :=
  match fromstring E body with
  | inl msg => inl (ParseError msg)
  | inr root => inr root
  end.

(** A block [try: ... except Exception as ex: return handler(ex)] whose
    body either returns early, or builds a request, posts it and goes on
    with the response. *)
Definition try_post
    (before : Exc (Value + Request))
    (after : Response -> Exc Value)
    (handler : PyExn -> Value) : Call Value :=
  match before with
  | inl ex => Done (handler ex)
  | inr (inl early) => Done early
  | inr (inr rq) =>
      Post rq (fun o =>
        match (response <- receive o ;; after response) with
        | inl ex => handler ex
        | inr v => v
        end)
  end.

(** [return v] before the request is built. *)
Definition early (v : Value) : Exc (Value + Request) := inr (inl v).

(** Falling through to [requests.post]. *)
Definition send (rq : Request) : Exc (Value + Request) := inr (inr rq).

(** [{"error": str(ex)}], the handler of most adapters. *)
Definition error_of (ex : PyExn) : Value :=
  VDict [("error", VStr (Val.str_exn ex))].

(** [{"error": f"HTTP {response.status_code}", "detalle": response.text}] *)
Definition http_error (r : Response) : Value :=
  VDict [("error", VStr (Py.fstring ["HTTP "; Py.decimal (status_code r)]));
         ("detalle", VStr (text r))].

Definition soap11_headers (action : string) : list (string * string) :=
  [("Content-Type", "text/xml; charset=utf-8"); ("SOAPAction", action)].

End Http.

(** ** SOAP envelopes *)

Module Soap.

(** One line [<name>{value}</name>] of a template. *)
Definition field (name value : string) : string :=
  Py.fstring ["<"; name; ">"; value; "</"; name; ">"].

(** The opening lines of the [soapenv:] templates. *)
Definition head_soapenv : list string :=
    [ "<?xml version="; Py.dq; "1.0"; Py.dq; " encoding="; Py.dq; "utf-8"; Py.dq; "?>"; Py.nl;
      "        <soapenv:Envelope xmlns:soapenv="; Py.dq; "http://schemas.xmlsoap.org/soap/envelope/"; Py.dq; Py.nl;
      "                          xmlns:tem="; Py.dq; "http://tempuri.org/"; Py.dq; ">"; Py.nl ].

(** The opening lines of the [soap:] templates. *)
Definition head_soap : list string :=
    [ "<?xml version="; Py.dq; "1.0"; Py.dq; " encoding="; Py.dq; "utf-8"; Py.dq; "?>"; Py.nl;
      "        <soap:Envelope xmlns:xsi="; Py.dq; "http://www.w3.org/2001/XMLSchema-instance"; Py.dq; Py.nl;
      "                       xmlns:xsd="; Py.dq; "http://www.w3.org/2001/XMLSchema"; Py.dq; Py.nl;
      "                       xmlns:soap="; Py.dq; "http://schemas.xmlsoap.org/soap/envelope/"; Py.dq; ">"; Py.nl ].

(** The opening lines of the [soap12:] templates. *)
Definition head_soap12 : list string :=
    [ "<?xml version="; Py.dq; "1.0"; Py.dq; " encoding="; Py.dq; "utf-8"; Py.dq; "?>"; Py.nl;
      "        <soap12:Envelope xmlns:xsi="; Py.dq; "http://www.w3.org/2001/XMLSchema-instance"; Py.dq; Py.nl;
      "                         xmlns:xsd="; Py.dq; "http://www.w3.org/2001/XMLSchema"; Py.dq; Py.nl;
      "                         xmlns:soap12="; Py.dq; "http://www.w3.org/2003/05/soap-envelope"; Py.dq; ">"; Py.nl ].

End Soap.

(** ** wsHotel.py *)

Module WsHotel.

Definition SOAP_URL : string :=
  "https://realdecuenca-btccaacvcpgyadhb.canadacentral-01.azurewebsites.net/WS_GestionHotel.asmx".

(** The dict built from one [<Hotel>] node; [int()] may raise. *)
Definition hotel_of (U : Py.Unicode) (node : Element) : Exc Value :=
  id <- Val.int U (ET.findtext (ET.tem "Id") "0" node) ;;
  ret (VDict
    [("Id", VInt id);
     ("Nombre", VStr (ET.findtext (ET.tem "Nombre") EmptyString node));
     ("FechaRegistro", VStr (ET.findtext (ET.tem "FechaRegistro") EmptyString node));
     ("UltimaFechaCambio", VStr (ET.findtext (ET.tem "UltimaFechaCambio") EmptyString node));
     ("EsActivo",
      VBool (Py.lower (ET.findtext (ET.tem "EsActivo") "false" node) =? "true"))]).

(** [hotel["Id"]] on a dict just built. *)
Definition item_int (v : Value) (k : string) : Exc Z :=
  match v with
  | VDict entries =>
      match Val.lookup entries k with
      | Some (VInt z) => inr z
      | Some _ => inl (TypeError "'>' not supported between instances")
      | None => inl (KeyError k)
      end
  | _ => inl (TypeError "object is not subscriptable")
  end.

Definition actualizarHotel_body (id nombre fecha_registro ultima_fecha_cambio : Atom)
    (es_activo : string) : string :=
  Py.fstring (Soap.head_soapenv ++
    [ "          <soapenv:Header/>"; Py.nl;
      "          <soapenv:Body>"; Py.nl;
      "            <tem:actualizarHotel>"; Py.nl;
      "              <tem:hotelEditado>"; Py.nl;
      "                "; Soap.field "tem:Id" (Val.str id); Py.nl;
      "                "; Soap.field "tem:Nombre" (Val.str nombre); Py.nl;
      "                "; Soap.field "tem:FechaRegistro" (Val.str fecha_registro); Py.nl;
      "                "; Soap.field "tem:UltimaFechaCambio" (Val.str ultima_fecha_cambio); Py.nl;
      "                "; Soap.field "tem:EsActivo" (es_activo); Py.nl;
      "              </tem:hotelEditado>"; Py.nl;
      "            </tem:actualizarHotel>"; Py.nl;
      "          </soapenv:Body>"; Py.nl;
      "        </soapenv:Envelope>" ]).

Definition actualizarHotel_before (E : Env) (hotel : Dict) : Exc (Value + Request) :=
  match Val.get hotel "Id" with
  | None =>
      Http.early (VDict [("error", VStr "El campo 'Id' del hotel es obligatorio y debe ser un número entero válido.")])
  | Some id =>
      if Val.rejected_id id then
        Http.early (VDict [("error", VStr "El campo 'Id' del hotel es obligatorio y debe ser un número entero válido.")])
      else
        match Val.get hotel "Nombre" with
        | None =>
            Http.early (VDict [("error", VStr "El campo 'Nombre' es obligatorio para actualizar un hotel.")])
        | Some nombre =>
            if negb (Val.truthy nombre) then
              Http.early (VDict [("error", VStr "El campo 'Nombre' es obligatorio para actualizar un hotel.")])
            else
              let fecha_registro :=
                Val.get_default hotel "FechaRegistro" (AStr (now_isoformat E 0)) in
              let ultima_fecha_cambio :=
                Val.get_default hotel "UltimaFechaCambio" (AStr (now_isoformat E 1)) in
              let es_activo :=
                Py.lower_any (unicode E)
                  (Val.str (Val.get_default hotel "EsActivo" (ABool true))) in
              Http.send
                {| url := SOAP_URL;
                   data := actualizarHotel_body id nombre fecha_registro
                             ultima_fecha_cambio es_activo;
                   headers := Http.soap11_headers "http://tempuri.org/actualizarHotel";
                   timeout := 30 |}
        end
  end.

Definition actualizarHotel_after (E : Env) (hotel : Dict) (response : Response) : Exc Value :=
  if negb (status_code response =? 200)%Z then ret (Http.http_error response)
  else
    root <- Http.parse E (text response) ;;
    match ET.find_deep (ET.tem "actualizarHotelResult") root with
    | None =>
        ret (VDict [("exito", VBool false);
                    ("mensaje", VStr "No se pudo determinar si la actualización fue exitosa.")])
    | Some result_node =>
        stripped <- Val.strip_opt (ET.text result_node) ;;
        if (Py.lower stripped =? "true")%string then
          nombre <- Val.item hotel "Nombre" ;;
          ret (VDict [("exito", VBool true);
                      ("mensaje",
                       VStr (Py.fstring ["Hotel '"; Val.str nombre; "' actualizado exitosamente."]))])
        else
          ret (VDict [("exito", VBool false);
                      ("mensaje", VStr "No se pudo actualizar el hotel.")])
    end.

Definition actualizarHotel (E : Env) (hotel : Dict) : Call Value :=
  Http.try_post (actualizarHotel_before E hotel) (actualizarHotel_after E hotel)
    Http.error_of.

Definition buscarHotelPorNombre_body (nombre : Atom) : string :=
  Py.fstring (Soap.head_soapenv ++
    [ "           <soapenv:Header/>"; Py.nl;
      "           <soapenv:Body>"; Py.nl;
      "              <tem:buscarHotelPorNombre>"; Py.nl;
      "                 "; Soap.field "tem:nombre" (Val.str nombre); Py.nl;
      "              </tem:buscarHotelPorNombre>"; Py.nl;
      "           </soapenv:Body>"; Py.nl;
      "        </soapenv:Envelope>" ]).

Definition buscarHotelPorNombre_before (nombre : Atom) : Exc (Value + Request) :=
  if negb (Val.truthy nombre) || negb (Val.isinstance_str nombre) then
    Http.early (VDict [("error", VStr "El parámetro 'nombre' es obligatorio y debe ser una cadena de texto.")])
  else
    Http.send
      {| url := SOAP_URL;
         data := buscarHotelPorNombre_body nombre;
         headers := Http.soap11_headers "http://tempuri.org/buscarHotelPorNombre";
         timeout := 30 |}.

(** The loop over the [<Hotel>] nodes: a node whose [Id] is not positive
    is skipped, an exception leaves the loop and the function. *)
Fixpoint buscarHotelPorNombre_loop (U : Py.Unicode) (nodes : list Element)
    (hoteles : list Value)
  : Exc (list Value) :=
  match nodes with
  | [] => ret hoteles
  | hotel_node :: rest =>
      hotel <- hotel_of U hotel_node ;;
      id <- item_int hotel "Id" ;;
      if (id >? 0)%Z then buscarHotelPorNombre_loop U rest (hoteles ++ [hotel])
      else buscarHotelPorNombre_loop U rest hoteles
  end.

Definition buscarHotelPorNombre_after (E : Env) (response : Response) : Exc Value :=
  if negb (status_code response =? 200)%Z then ret (Http.http_error response)
  else
    root <- Http.parse E (text response) ;;
    match ET.find_deep (ET.tem "buscarHotelPorNombreResult") root with
    | None =>
        ret (VDict [("exito", VBool false); ("hoteles", VList []);
                    ("mensaje", VStr "No se encontraron coincidencias.")])
    | Some result_node =>
        hoteles <- buscarHotelPorNombre_loop (unicode E)
                     (ET.findall (ET.tem "Hotel") result_node) [] ;;
        match hoteles with
        | [] =>
            ret (VDict [("exito", VBool true); ("hoteles", VList []);
                        ("mensaje", VStr "No se encontraron hoteles con ese nombre.")])
        | _ =>
            ret (VDict [("exito", VBool true); ("hoteles", VList hoteles);
                        ("mensaje", VStr "Hoteles encontrados correctamente.")])
        end
    end.

Definition buscarHotelPorNombre (E : Env) (nombre : Atom) : Call Value :=
  Http.try_post (buscarHotelPorNombre_before nombre) (buscarHotelPorNombre_after E)
    Http.error_of.

Definition eliminarHotel_body (hotel_id : Atom) : string :=
  Py.fstring (Soap.head_soapenv ++
    [ "           <soapenv:Header/>"; Py.nl;
      "           <soapenv:Body>"; Py.nl;
      "              <tem:eliminarHotel>"; Py.nl;
      "                 "; Soap.field "tem:id" (Val.str hotel_id); Py.nl;
      "              </tem:eliminarHotel>"; Py.nl;
      "           </soapenv:Body>"; Py.nl;
      "        </soapenv:Envelope>" ]).

Definition eliminarHotel_before (hotel_id : Atom) : Exc (Value + Request) :=
  if Val.rejected_id hotel_id then
    Http.early (VDict [("error", VStr "El parámetro 'hotel_id' debe ser un número entero positivo.")])
  else
    Http.send
      {| url := SOAP_URL;
         data := eliminarHotel_body hotel_id;
         headers := Http.soap11_headers "http://tempuri.org/eliminarHotel";
         timeout := 30 |}.

Definition eliminarHotel_after (E : Env) (hotel_id : Atom) (response : Response) : Exc Value :=
  if negb (status_code response =? 200)%Z then ret (Http.http_error response)
  else
    root <- Http.parse E (text response) ;;
    match ET.find_deep (ET.tem "eliminarHotelResult") root with
    | None =>
        ret (VDict [("exito", VBool false);
                    ("mensaje", VStr "No se pudo determinar si la eliminación fue exitosa.")])
    | Some result_node =>
        stripped <- Val.strip_opt (ET.text result_node) ;;
        if (Py.lower stripped =? "true")%string then
          ret (VDict [("exito", VBool true);
                      ("mensaje",
                       VStr (Py.fstring ["Hotel con ID="; Val.str hotel_id; " eliminado correctamente."]))])
        else
          ret (VDict [("exito", VBool false);
                      ("mensaje", VStr "No se pudo eliminar el hotel.")])
    end.

Definition eliminarHotel (E : Env) (hotel_id : Atom) : Call Value :=
  Http.try_post (eliminarHotel_before hotel_id) (eliminarHotel_after E hotel_id)
    Http.error_of.

Definition seleccionarHotelPorId_body (hotel_id : Atom) : string :=
  Py.fstring (Soap.head_soapenv ++
    [ "           <soapenv:Header/>"; Py.nl;
      "           <soapenv:Body>"; Py.nl;
      "              <tem:seleccionarHotelPorId>"; Py.nl;
      "                 "; Soap.field "tem:id" (Val.str hotel_id); Py.nl;
      "              </tem:seleccionarHotelPorId>"; Py.nl;
      "           </soapenv:Body>"; Py.nl;
      "        </soapenv:Envelope>" ]).

Definition seleccionarHotelPorId_before (hotel_id : Atom) : Exc (Value + Request) :=
  if Val.rejected_id hotel_id then
    Http.early (VDict [("error", VStr "El parámetro 'hotel_id' debe ser un número entero positivo.")])
  else
    Http.send
      {| url := SOAP_URL;
         data := seleccionarHotelPorId_body hotel_id;
         headers := Http.soap11_headers "http://tempuri.org/seleccionarHotelPorId";
         timeout := 30 |}.

Definition seleccionarHotelPorId_after (E : Env) (response : Response) : Exc Value :=
  if negb (status_code response =? 200)%Z then ret (Http.http_error response)
  else
    root <- Http.parse E (text response) ;;
    match ET.find_deep (ET.tem "seleccionarHotelPorIdResult") root with
    | None =>
        ret (VDict [("exito", VBool false); ("hotel", VNone);
                    ("mensaje", VStr "No se encontró información del hotel.")])
    | Some result_node =>
        hotel <- hotel_of (unicode E) result_node ;;
        ret (VDict [("exito", VBool true); ("hotel", hotel);
                    ("mensaje", VStr "Hotel obtenido correctamente.")])
    end.

Definition seleccionarHotelPorId (E : Env) (hotel_id : Atom) : Call Value :=
  Http.try_post (seleccionarHotelPorId_before hotel_id) (seleccionarHotelPorId_after E)
    Http.error_of.

Definition seleccionarHoteles_body : string :=
  Py.fstring (Soap.head_soapenv ++
    [ "           <soapenv:Header/>"; Py.nl;
      "           <soapenv:Body>"; Py.nl;
      "              <tem:seleccionarHoteles/>"; Py.nl;
      "           </soapenv:Body>"; Py.nl;
      "        </soapenv:Envelope>" ]).

(** The loop over the [<Hotel>] nodes, each in its own [try]: a node that
    raises is logged and left out. *)
Fixpoint seleccionarHoteles_loop (U : Py.Unicode) (nodes : list Element)
    (hoteles : list Value)
  : list Value :=
  match nodes with
  | [] => hoteles
  | hotel_node :: rest =>
      match hotel_of U hotel_node with
      | inr hotel => seleccionarHoteles_loop U rest (hoteles ++ [hotel])
      | inl _ => seleccionarHoteles_loop U rest hoteles
      end
  end.

Definition seleccionarHoteles_after (E : Env) (response : Response) : Exc Value :=
  if negb (status_code response =? 200)%Z then ret (Http.http_error response)
  else
    root <- Http.parse E (text response) ;;
    match ET.find_deep (ET.tem "seleccionarHotelesResult") root with
    | None =>
        ret (VDict [("exito", VBool false); ("hoteles", VList []);
                    ("mensaje", VStr "No se encontraron hoteles activos.")])
    | Some result_node =>
        match seleccionarHoteles_loop (unicode E)
                (ET.findall (ET.tem "Hotel") result_node) [] with
        | [] =>
            ret (VDict [("exito", VBool true); ("hoteles", VList []);
                        ("mensaje", VStr "No hay hoteles registrados o activos.")])
        | hoteles =>
            ret (VDict [("exito", VBool true); ("hoteles", VList hoteles);
                        ("mensaje", VStr "Hoteles obtenidos correctamente.")])
        end
    end.

Definition seleccionarHoteles_request : Request :=
  {| url := SOAP_URL;
     data := seleccionarHoteles_body;
     headers := Http.soap11_headers "http://tempuri.org/seleccionarHoteles";
     timeout := 30 |}.

Definition seleccionarHoteles (E : Env) : Call Value :=
  Http.try_post (Http.send (seleccionarHoteles_request))
    (seleccionarHoteles_after E) Http.error_of.

Definition insertarHotel_body (hotel_id nombre fecha_registro ultima_fecha_cambio : Atom)
    (es_activo : string) : string :=
  Py.fstring (Soap.head_soapenv ++
    [ "           <soapenv:Header/>"; Py.nl;
      "           <soapenv:Body>"; Py.nl;
      "              <tem:insertarHotel>"; Py.nl;
      "                 <tem:nuevoHotel>"; Py.nl;
      "                    "; Soap.field "tem:Id" (Val.str hotel_id); Py.nl;
      "                    "; Soap.field "tem:Nombre" (Val.str nombre); Py.nl;
      "                    "; Soap.field "tem:FechaRegistro" (Val.str fecha_registro); Py.nl;
      "                    "; Soap.field "tem:UltimaFechaCambio" (Val.str ultima_fecha_cambio); Py.nl;
      "                    "; Soap.field "tem:EsActivo" (es_activo); Py.nl;
      "                 </tem:nuevoHotel>"; Py.nl;
      "              </tem:insertarHotel>"; Py.nl;
      "           </soapenv:Body>"; Py.nl;
      "        </soapenv:Envelope>" ]).

(** The guard is [not hotel.get("Nombre")]; the clock is read once, for
    both dates. *)
Definition insertarHotel_before (E : Env) (hotel : Dict) : Exc (Value + Request) :=
  if negb (Val.truthy (Val.get_or_none hotel "Nombre")) then
    Http.early (VDict [("error", VStr "El campo 'Nombre' del hotel es obligatorio.")])
  else
    let fecha_actual := AStr (now_isoformat E 0) in
    let fecha_registro := Val.get_default hotel "FechaRegistro" fecha_actual in
    let ultima_fecha_cambio := Val.get_default hotel "UltimaFechaCambio" fecha_actual in
    let es_activo :=
      Py.lower_any (unicode E) (Val.str (Val.get_default hotel "EsActivo" (ABool true))) in
    let hotel_id := Val.get_default hotel "Id" (AInt 0) in
    nombre <- Val.item hotel "Nombre" ;;
    Http.send
      {| url := WsHotel.SOAP_URL;
         data := insertarHotel_body hotel_id nombre fecha_registro
                   ultima_fecha_cambio es_activo;
         headers := Http.soap11_headers "http://tempuri.org/insertarHotel";
         timeout := 30 |}.

Definition insertarHotel_after (E : Env) (hotel : Dict) (response : Response) : Exc Value :=
  if negb (status_code response =? 200)%Z then ret (Http.http_error response)
  else
    root <- Http.parse E (text response) ;;
    match ET.find_deep (ET.tem "insertarHotelResult") root with
    | None =>
        ret (VDict [("exito", VBool false); ("id_hotel", VNone);
                    ("mensaje", VStr "No se pudo obtener el ID del hotel insertado.")])
    | Some result_node =>
        stripped <- Val.strip_opt (ET.text result_node) ;;
        nuevo_id <- Val.int (unicode E) stripped ;;
        if (nuevo_id >? 0)%Z then
          nombre <- Val.item hotel "Nombre" ;;
          ret (VDict [("exito", VBool true); ("id_hotel", VInt nuevo_id);
                      ("mensaje",
                       VStr (Py.fstring ["Hotel '"; Val.str nombre; "' insertado correctamente."]))])
        else
          ret (VDict [("exito", VBool false); ("id_hotel", VNone);
                      ("mensaje", VStr "No se pudo insertar el hotel.")])
    end.

Definition insertarHotel (E : Env) (hotel : Dict) : Call Value :=
  Http.try_post (insertarHotel_before E hotel) (insertarHotel_after E hotel)
    Http.error_of.

End WsHotel.

(** ** wsTipoAlimentacion.py *)

Module WsTipoAlimentacion.

Definition SOAP_URL_ALIMENTACION : string :=
  "https://realdecuenca-btccaacvcpgyadhb.canadacentral-01.azurewebsites.net/WS_GestionTipoAlimentacion.asmx".

(** The dict read from a [<TipoAlimentacion>] node or from a result node:
    every field is the raw text of the child, or [None]. *)
Definition tipo_of (node : Element) : Value :=
  VDict
    [("id", ET.text_or_none (ET.tem "Id") node);
     ("nombre", ET.text_or_none (ET.tem "Nombre") node);
     ("fechaRegistro", ET.text_or_none (ET.tem "FechaRegistro") node);
     ("ultimaFechaCambio", ET.text_or_none (ET.tem "UltimaFechaCambio") node);
     ("esActivo", ET.text_or_none (ET.tem "EsActivo") node)].

Definition seleccionarInactivos_body : string :=
  Py.fstring (Soap.head_soap ++
    [ "          <soap:Body>"; Py.nl;
      "            <seleccionarInactivos xmlns="; Py.dq; "http://tempuri.org/"; Py.dq; " />"; Py.nl;
      "          </soap:Body>"; Py.nl;
      "        </soap:Envelope>" ]).

Definition seleccionarInactivos_after (E : Env) (response : Response) : Exc Value :=
  if negb (status_code response =? 200)%Z then ret (VList [])
  else
    match fromstring E (text response) with
    | inl _ => ret (VList [])
    | inr root =>
        ret (VList (map tipo_of (ET.findall_deep (ET.tem "TipoAlimentacion") root)))
    end.

(** Both handlers, [except RequestException] and [except Exception],
    return the empty list. *)
Definition seleccionarInactivos_handler (ex : PyExn) : Value :=
  match ex with
  | RequestException _ => VList []
  | _ => VList []
  end.

Definition seleccionarInactivos_request : Request :=
  {| url := SOAP_URL_ALIMENTACION;
     data := seleccionarInactivos_body;
     headers := Http.soap11_headers "http://tempuri.org/seleccionarInactivos";
     timeout := 15 |}.

Definition seleccionarInactivos (E : Env) : Call Value :=
  Http.try_post (Http.send (seleccionarInactivos_request))
    (seleccionarInactivos_after E) seleccionarInactivos_handler.

Definition seleccionarPorId_body (id : Atom) : string :=
  Py.fstring (Soap.head_soap ++
    [ "          <soap:Body>"; Py.nl;
      "            <seleccionarPorId xmlns="; Py.dq; "http://tempuri.org/"; Py.dq; ">"; Py.nl;
      "              "; Soap.field "id" (Val.str id); Py.nl;
      "            </seleccionarPorId>"; Py.nl;
      "          </soap:Body>"; Py.nl;
      "        </soap:Envelope>" ]).

Definition seleccionarPorId_after (E : Env) (response : Response) : Exc Value :=
  if negb (status_code response =? 200)%Z then ret VNone
  else
    match fromstring E (text response) with
    | inl _ => ret VNone
    | inr root =>
        match ET.find_deep (ET.tem "seleccionarPorIdResult") root with
        | None => ret VNone
        | Some result => ret (tipo_of result)
        end
    end.

Definition seleccionarPorId_handler (ex : PyExn) : Value :=
  match ex with
  | RequestException _ => VNone
  | _ => VNone
  end.

Definition seleccionarPorId_request (id : Atom) : Request :=
  {| url := SOAP_URL_ALIMENTACION;
     data := seleccionarPorId_body id;
     headers := Http.soap11_headers "http://tempuri.org/seleccionarPorId";
     timeout := 15 |}.

Definition seleccionarPorId (E : Env) (id : Atom) : Call Value :=
  Http.try_post (Http.send (seleccionarPorId_request id))
    (seleccionarPorId_after E) seleccionarPorId_handler.

Definition seleccionarPorNombre_body (nombre : Atom) : string :=
  Py.fstring (Soap.head_soap ++
    [ "          <soap:Body>"; Py.nl;
      "            <seleccionarPorNombre xmlns="; Py.dq; "http://tempuri.org/"; Py.dq; ">"; Py.nl;
      "              "; Soap.field "nombre" (Val.str nombre); Py.nl;
      "            </seleccionarPorNombre>"; Py.nl;
      "          </soap:Body>"; Py.nl;
      "        </soap:Envelope>" ]).

Definition seleccionarPorNombre_after (E : Env) (response : Response) : Exc Value :=
  if negb (status_code response =? 200)%Z then ret VNone
  else
    match fromstring E (text response) with
    | inl _ => ret VNone
    | inr root =>
        match ET.find_deep (ET.tem "seleccionarPorNombreResult") root with
        | None => ret VNone
        | Some result => ret (tipo_of result)
        end
    end.

Definition seleccionarPorNombre_handler (ex : PyExn) : Value :=
  match ex with
  | RequestException _ => VNone
  | _ => VNone
  end.

Definition seleccionarPorNombre_request (nombre : Atom) : Request :=
  {| url := SOAP_URL_ALIMENTACION;
     data := seleccionarPorNombre_body nombre;
     headers := Http.soap11_headers "http://tempuri.org/seleccionarPorNombre";
     timeout := 15 |}.

Definition seleccionarPorNombre (E : Env) (nombre : Atom) : Call Value :=
  Http.try_post (Http.send (seleccionarPorNombre_request nombre))
    (seleccionarPorNombre_after E) seleccionarPorNombre_handler.

Definition required_keys : list string :=
  ["Id"; "Nombre"; "FechaRegistro"; "UltimaFechaCambio"; "EsActivo"].

(** [all(k in d for k in required_keys)] *)
Definition has_required_keys (d : Dict) : bool :=
  forallb (fun k => Val.mem k d) required_keys.

Definition actualizarTipo_body (id nombre fecha_registro ultima_fecha_cambio : Atom)
    (es_activo_str : string) : string :=
  Py.fstring (Soap.head_soapenv ++
    [ "          <soapenv:Header/>"; Py.nl;
      "          <soapenv:Body>"; Py.nl;
      "            <tem:actualizarTipo>"; Py.nl;
      "              <tem:tipoEditado>"; Py.nl;
      "                "; Soap.field "tem:Id" (Val.str id); Py.nl;
      "                "; Soap.field "tem:Nombre" (Val.str nombre); Py.nl;
      "                "; Soap.field "tem:FechaRegistro" (Val.str fecha_registro); Py.nl;
      "                "; Soap.field "tem:UltimaFechaCambio" (Val.str ultima_fecha_cambio); Py.nl;
      "                "; Soap.field "tem:EsActivo" (es_activo_str); Py.nl;
      "              </tem:tipoEditado>"; Py.nl;
      "            </tem:actualizarTipo>"; Py.nl;
      "          </soapenv:Body>"; Py.nl;
      "        </soapenv:Envelope>" ]).

Definition actualizarTipo_before (tipo_editado : Dict) : Exc (Value + Request) :=
  if negb (has_required_keys tipo_editado) then
    Http.early (VDict [("error", VStr "Faltan campos obligatorios en 'tipo_editado'.")])
  else
    es_activo <- Val.item tipo_editado "EsActivo" ;;
    let es_activo_str := if Val.truthy es_activo then "true" else "false" in
    id <- Val.item tipo_editado "Id" ;;
    nombre <- Val.item tipo_editado "Nombre" ;;
    fecha_registro <- Val.item tipo_editado "FechaRegistro" ;;
    ultima_fecha_cambio <- Val.item tipo_editado "UltimaFechaCambio" ;;
    Http.send
      {| url := WsTipoAlimentacion.SOAP_URL_ALIMENTACION;
         data := actualizarTipo_body id nombre fecha_registro ultima_fecha_cambio
                   es_activo_str;
         headers := Http.soap11_headers "http://tempuri.org/actualizarTipo";
         timeout := 30 |}.

Definition actualizarTipo_after (E : Env) (tipo_editado : Dict) (response : Response)
  : Exc Value :=
  if negb (status_code response =? 200)%Z then ret (Http.http_error response)
  else
    root <- Http.parse E (text response) ;;
    match ET.find_deep (ET.tem "actualizarTipoResult") root with
    | None =>
        ret (VDict [("exito", VBool false); ("resultado", VBool false);
                    ("mensaje", VStr "No se obtuvo respuesta del servidor.")])
    | Some result_node =>
        stripped <- Val.strip_opt (ET.text result_node) ;;
        let resultado := (Py.lower stripped =? "true")%string in
        id <- Val.item tipo_editado "Id" ;;
        let mensaje :=
          if resultado then
            Py.fstring ["Tipo de alimentación (ID="; Val.str id; ") actualizado correctamente."]
          else
            Py.fstring ["No se pudo actualizar el tipo de alimentación (ID="; Val.str id; ")."] in
        ret (VDict [("exito", VBool true); ("resultado", VBool resultado);
                    ("mensaje", VStr mensaje)])
    end.

Definition actualizarTipo (E : Env) (tipo_editado : Dict) : Call Value :=
  Http.try_post (actualizarTipo_before tipo_editado) (actualizarTipo_after E tipo_editado)
    Http.error_of.

Definition eliminarTipo_body (id_tipo : Atom) : string :=
  Py.fstring (Soap.head_soapenv ++
    [ "          <soapenv:Header/>"; Py.nl;
      "          <soapenv:Body>"; Py.nl;
      "            <tem:eliminarTipo>"; Py.nl;
      "              "; Soap.field "tem:id" (Val.str id_tipo); Py.nl;
      "            </tem:eliminarTipo>"; Py.nl;
      "          </soapenv:Body>"; Py.nl;
      "        </soapenv:Envelope>" ]).

Definition eliminarTipo_before (id_tipo : Atom) : Exc (Value + Request) :=
  if Val.rejected_id id_tipo then
    Http.early (VDict [("error", VStr "El parámetro 'id_tipo' debe ser un número entero positivo.")])
  else
    Http.send
      {| url := WsTipoAlimentacion.SOAP_URL_ALIMENTACION;
         data := eliminarTipo_body id_tipo;
         headers := Http.soap11_headers "http://tempuri.org/eliminarTipo";
         timeout := 30 |}.

Definition eliminarTipo_after (E : Env) (id_tipo : Atom) (response : Response) : Exc Value :=
  if negb (status_code response =? 200)%Z then ret (Http.http_error response)
  else
    root <- Http.parse E (text response) ;;
    match ET.find_deep (ET.tem "eliminarTipoResult") root with
    | None =>
        ret (VDict [("exito", VBool false); ("resultado", VBool false);
                    ("mensaje", VStr "No se obtuvo respuesta del servidor.")])
    | Some result_node =>
        stripped <- Val.strip_opt (ET.text result_node) ;;
        let resultado := (Py.lower stripped =? "true")%string in
        let mensaje :=
          if resultado then
            Py.fstring ["Tipo de alimentación (ID="; Val.str id_tipo; ") eliminado correctamente (Soft Delete)."]
          else
            Py.fstring ["No se pudo eliminar el tipo de alimentación (ID="; Val.str id_tipo; ")."] in
        ret (VDict [("exito", VBool true); ("resultado", VBool resultado);
                    ("mensaje", VStr mensaje)])
    end.

Definition eliminarTipo (E : Env) (id_tipo : Atom) : Call Value :=
  Http.try_post (eliminarTipo_before id_tipo) (eliminarTipo_after E id_tipo) Http.error_of.

Definition reactivarTipo_body (id_tipo : Atom) : string :=
  Py.fstring (Soap.head_soapenv ++
    [ "          <soapenv:Header/>"; Py.nl;
      "          <soapenv:Body>"; Py.nl;
      "            <tem:reactivarTipo>"; Py.nl;
      "              "; Soap.field "tem:id" (Val.str id_tipo); Py.nl;
      "            </tem:reactivarTipo>"; Py.nl;
      "          </soapenv:Body>"; Py.nl;
      "        </soapenv:Envelope>" ]).

Definition reactivarTipo_before (id_tipo : Atom) : Exc (Value + Request) :=
  if Val.rejected_id id_tipo then
    Http.early (VDict [("error", VStr "El parámetro 'id_tipo' debe ser un número entero positivo.")])
  else
    Http.send
      {| url := WsTipoAlimentacion.SOAP_URL_ALIMENTACION;
         data := reactivarTipo_body id_tipo;
         headers := Http.soap11_headers "http://tempuri.org/reactivarTipo";
         timeout := 30 |}.

Definition reactivarTipo_after (E : Env) (id_tipo : Atom) (response : Response) : Exc Value :=
  if negb (status_code response =? 200)%Z then ret (Http.http_error response)
  else
    root <- Http.parse E (text response) ;;
    match ET.find_deep (ET.tem "reactivarTipoResult") root with
    | None =>
        ret (VDict [("exito", VBool false); ("resultado", VBool false);
                    ("mensaje", VStr "No se obtuvo respuesta del servidor.")])
    | Some result_node =>
        stripped <- Val.strip_opt (ET.text result_node) ;;
        let resultado := (Py.lower stripped =? "true")%string in
        let mensaje :=
          if resultado then
            Py.fstring ["Tipo de alimentación (ID="; Val.str id_tipo; ") reactivado correctamente."]
          else
            Py.fstring ["No se pudo reactivar el tipo de alimentación (ID="; Val.str id_tipo; ")."] in
        ret (VDict [("exito", VBool true); ("resultado", VBool resultado);
                    ("mensaje", VStr mensaje)])
    end.

Definition reactivarTipo (E : Env) (id_tipo : Atom) : Call Value :=
  Http.try_post (reactivarTipo_before id_tipo) (reactivarTipo_after E id_tipo) Http.error_of.

Definition insertarTipo_body (id nombre fecha_registro ultima_fecha_cambio : Atom)
    (esActivoStr : string) : string :=
  Py.fstring (Soap.head_soapenv ++
    [ "          <soapenv:Header/>"; Py.nl;
      "          <soapenv:Body>"; Py.nl;
      "            <tem:insertarTipo>"; Py.nl;
      "              <tem:nuevoTipo>"; Py.nl;
      "                "; Soap.field "tem:Id" (Val.str id); Py.nl;
      "                "; Soap.field "tem:Nombre" (Val.str nombre); Py.nl;
      "                "; Soap.field "tem:FechaRegistro" (Val.str fecha_registro); Py.nl;
      "                "; Soap.field "tem:UltimaFechaCambio" (Val.str ultima_fecha_cambio); Py.nl;
      "                "; Soap.field "tem:EsActivo" (esActivoStr); Py.nl;
      "              </tem:nuevoTipo>"; Py.nl;
      "            </tem:insertarTipo>"; Py.nl;
      "          </soapenv:Body>"; Py.nl;
      "        </soapenv:Envelope>" ]).

Definition insertarTipo_before (nuevoTipo : Dict) : Exc (Value + Request) :=
  if negb (has_required_keys nuevoTipo) then
    Http.early (VDict [("error", VStr "Faltan campos obligatorios en 'nuevoTipo'.")])
  else
    esActivo <- Val.item nuevoTipo "EsActivo" ;;
    let esActivoStr := if Val.truthy esActivo then "true" else "false" in
    id <- Val.item nuevoTipo "Id" ;;
    nombre <- Val.item nuevoTipo "Nombre" ;;
    fecha_registro <- Val.item nuevoTipo "FechaRegistro" ;;
    ultima_fecha_cambio <- Val.item nuevoTipo "UltimaFechaCambio" ;;
    Http.send
      {| url := WsTipoAlimentacion.SOAP_URL_ALIMENTACION;
         data := insertarTipo_body id nombre fecha_registro ultima_fecha_cambio esActivoStr;
         headers := Http.soap11_headers "http://tempuri.org/insertarTipo";
         timeout := 30 |}.

(** The parse has a [try] of its own; a result node without text counts as
    a missing one. *)
Definition insertarTipo_after (E : Env) (nuevoTipo : Dict) (response : Response)
  : Exc Value :=
  if negb (status_code response =? 200)%Z then ret (Http.http_error response)
  else
    match fromstring E (text response) with
    | inl msg =>
        ret (VDict [("error", VStr "Respuesta XML inválida."); ("detalle", VStr msg)])
    | inr root =>
        let missing :=
          ret (VDict [("exito", VBool false); ("nuevo_id", VNone);
                      ("mensaje", VStr "No se obtuvo respuesta del servidor.")]) in
        match ET.find_deep (ET.tem "insertarTipoResult") root with
        | None => missing
        | Some resultNode =>
            match ET.text resultNode with
            | None => missing
            | Some text =>
                if (text =? EmptyString)%string then missing
                else
                  nuevoId <- Val.int (unicode E) (Py.strip text) ;;
                  nombre <- Val.item nuevoTipo "Nombre" ;;
                  ret (VDict [("exito", VBool true); ("nuevo_id", VInt nuevoId);
                              ("mensaje",
                               VStr (Py.fstring ["✅ Tipo de alimentación '"; Val.str nombre;
                                                 "' insertado correctamente con ID=";
                                                 Py.decimal nuevoId; "."]))])
            end
        end
    end.

(** [except RequestException] comes before [except Exception]. *)
Definition insertarTipo_handler (ex : PyExn) : Value :=
  match ex with
  | RequestException cause =>
      VDict [("error", VStr "Error de conexión con el servicio SOAP.");
             ("detalle", VStr cause)]
  | _ => VDict [("error", VStr (Val.str_exn ex))]
  end.

Definition insertarTipo (E : Env) (nuevoTipo : Dict) : Call Value :=
  Http.try_post (insertarTipo_before nuevoTipo) (insertarTipo_after E nuevoTipo)
    insertarTipo_handler.

End WsTipoAlimentacion.

(** ** wsEspXRes.py *)

Module WsEspXRes.

Definition SOAP_URL : string :=
  "https://realdecuenca-btccaacvcpgyadhb.canadacentral-01.azurewebsites.net/WS_GestionResXEsp.asmx".

Definition espacioDisponible_body (espacioId fechaInicio fechaFin : Atom) : string :=
  Py.fstring (Soap.head_soap ++
    [ "          <soap:Body>"; Py.nl;
      "            <espacioDisponible xmlns="; Py.dq; "http://tempuri.org/"; Py.dq; ">"; Py.nl;
      "              "; Soap.field "espacioId" (Val.str espacioId); Py.nl;
      "              "; Soap.field "fechaInicio" (Val.str fechaInicio); Py.nl;
      "              "; Soap.field "fechaFin" (Val.str fechaFin); Py.nl;
      "            </espacioDisponible>"; Py.nl;
      "          </soap:Body>"; Py.nl;
      "        </soap:Envelope>" ]).

Definition espacioDisponible_before (espacioId fechaInicio fechaFin : Atom)
  : Exc (Value + Request) :=
  if Val.rejected_id espacioId then
    Http.early (VDict [("error", VStr "Debe proporcionar un 'espacioId' válido (entero mayor que 0).")])
  else if negb (Val.truthy fechaInicio) || negb (Val.truthy fechaFin) then
    Http.early (VDict [("error", VStr "Debe proporcionar 'fechaInicio' y 'fechaFin' válidas.")])
  else
    Http.send
      {| url := SOAP_URL;
         data := espacioDisponible_body espacioId fechaInicio fechaFin;
         headers := Http.soap11_headers "http://tempuri.org/espacioDisponible";
         timeout := 30 |}.

(** The reply is not parsed: the result is cut out of the raw text. *)
Definition espacioDisponible_after (response : Response) : Exc Value :=
  if negb (status_code response =? 200)%Z then ret (Http.http_error response)
  else if negb (Py.contains "<espacioDisponibleResult>" (text response)) then
    ret (VDict [("exito", VBool false); ("disponible", VNone);
                ("mensaje", VStr "Respuesta inválida del servicio.")])
  else
    match Py.split_1 "<espacioDisponibleResult>" (text response) with
    | None => raise (IndexError "list index out of range")
    | Some piece =>
        let result_str :=
          Py.lower (Py.strip (Py.split_0 "</espacioDisponibleResult>" piece)) in
        let disponible := (result_str =? "true")%string in
        let mensaje :=
          if disponible then "El espacio está disponible para las fechas indicadas."
          else "El espacio NO está disponible en el rango de fechas especificado." in
        ret (VDict [("exito", VBool true); ("disponible", VBool disponible);
                    ("mensaje", VStr mensaje)])
    end.

Definition espacioDisponible (E : Env) (espacioId fechaInicio fechaFin : Atom) : Call Value :=
  Http.try_post (espacioDisponible_before espacioId fechaInicio fechaFin)
    espacioDisponible_after Http.error_of.

(** [bool_to_str], local to [insertarRelacion] *)
Definition bool_to_str (value : Atom) : string :=
  if Val.truthy value then "true" else "false".

(** The record holds integers, text, flags and [None]; the envelope always
    carries [<Id>0</Id>]. *)
Definition insertarRelacion_body (nuevaRelacion : Dict) (fecha_actual : string)
    (reserva_id espacio_id : Atom) : string :=
  let get := Val.get_default nuevaRelacion in
  Py.fstring (Soap.head_soap ++
    [ "          <soap:Body>"; Py.nl;
      "            <insertarRelacion xmlns="; Py.dq; "http://tempuri.org/"; Py.dq; ">"; Py.nl;
      "              <nuevaRelacion>"; Py.nl;
      "                <Id>0</Id>"; Py.nl;
      "                "; Soap.field "CostoCalculado" (Val.str (get "CostoCalculado" (AInt 0))); Py.nl;
      "                "; Soap.field "PuntuacionUsuario" (Val.str (get "PuntuacionUsuario" (AInt 0))); Py.nl;
      "                "; Soap.field "FechaInicio" (Val.str (get "FechaInicio" (AStr fecha_actual))); Py.nl;
      "                "; Soap.field "FechaFin" (Val.str (get "FechaFin" (AStr fecha_actual))); Py.nl;
      "                "; Soap.field "ReservaId" (Val.str reserva_id); Py.nl;
      "                "; Soap.field "EspacioId" (Val.str espacio_id); Py.nl;
      "                "; Soap.field "MinutosRetencion" (Val.str (get "MinutosRetencion" (AInt 0))); Py.nl;
      "                "; Soap.field "ExpiraEn" (Val.str (get "ExpiraEn" (AInt 0))); Py.nl;
      "                "; Soap.field "EsBloqueada" (bool_to_str (get "EsBloqueada" (ABool false))); Py.nl;
      "                "; Soap.field "TokenSesion" (Val.str (get "TokenSesion" (AStr EmptyString))); Py.nl;
      "                "; Soap.field "FechaRegistro" (Val.str (get "FechaRegistro" (AStr fecha_actual))); Py.nl;
      "                "; Soap.field "UltimaFechaCambio" (Val.str (get "UltimaFechaCambio" (AStr fecha_actual))); Py.nl;
      "                "; Soap.field "EsActivo" (bool_to_str (get "EsActivo" (ABool true))); Py.nl;
      "              </nuevaRelacion>"; Py.nl;
      "            </insertarRelacion>"; Py.nl;
      "          </soap:Body>"; Py.nl;
      "        </soap:Envelope>" ]).

(** Nothing is validated: [nuevaRelacion["ReservaId"]] and
    [nuevaRelacion["EspacioId"]] raise [KeyError] while the envelope is
    formatted. *)
Definition insertarRelacion_before (E : Env) (nuevaRelacion : Dict) : Exc (Value + Request) :=
  let fecha_actual := now_isoformat E 0 in
  reserva_id <- Val.item nuevaRelacion "ReservaId" ;;
  espacio_id <- Val.item nuevaRelacion "EspacioId" ;;
  Http.send
    {| url := WsEspXRes.SOAP_URL;
       data := insertarRelacion_body nuevaRelacion fecha_actual reserva_id espacio_id;
       headers := Http.soap11_headers "http://tempuri.org/insertarRelacion";
       timeout := 30 |}.

(** The id is cut out of the raw text; [int()] has a [try] of its own. *)
Definition insertarRelacion_after (U : Py.Unicode) (response : Response) : Exc Value :=
  if negb (status_code response =? 200)%Z then ret (Http.http_error response)
  else if negb (Py.contains "<insertarRelacionResult>" (text response)) then
    ret (VDict [("exito", VBool false); ("id_relacion", VNone);
                ("mensaje", VStr "Respuesta SOAP sin resultado válido.")])
  else
    match Py.split_1 "<insertarRelacionResult>" (text response) with
    | None => raise (IndexError "list index out of range")
    | Some piece =>
        let id_str := Py.strip (Py.split_0 "</insertarRelacionResult>" piece) in
        let id_insertado := Py.parse_int U id_str in
        let invalid :=
          ret (VDict [("exito", VBool false); ("id_relacion", VNone);
                      ("mensaje", VStr "La operación no devolvió un ID válido.")]) in
        match id_insertado with
        | None => invalid
        | Some n =>
            if negb (n =? 0)%Z && (n >? 0)%Z then
              ret (VDict [("exito", VBool true); ("id_relacion", VInt n);
                          ("mensaje",
                           VStr (Py.fstring ["Relación insertada correctamente con ID ";
                                             Py.decimal n; "."]))])
            else invalid
        end
    end.

Definition insertarRelacion (E : Env) (nuevaRelacion : Dict) : Call Value :=
  Http.try_post (insertarRelacion_before E nuevaRelacion)
    (insertarRelacion_after (unicode E))
    Http.error_of.

Definition eliminarRelacion_body (id_relacion : Atom) : string :=
  Py.fstring (Soap.head_soap ++
    [ "          <soap:Body>"; Py.nl;
      "            <eliminarRelacion xmlns="; Py.dq; "http://tempuri.org/"; Py.dq; ">"; Py.nl;
      "              "; Soap.field "id" (Val.str id_relacion); Py.nl;
      "            </eliminarRelacion>"; Py.nl;
      "          </soap:Body>"; Py.nl;
      "        </soap:Envelope>" ]).

Definition eliminarRelacion_before (id_relacion : Atom) : Exc (Value + Request) :=
  if Val.rejected_id id_relacion then
    Http.early (VDict [("error", VStr "Debe proporcionar un 'id_relacion' válido (entero mayor que 0).")])
  else
    Http.send
      {| url := WsEspXRes.SOAP_URL;
         data := eliminarRelacion_body id_relacion;
         headers := Http.soap11_headers "http://tempuri.org/eliminarRelacion";
         timeout := 30 |}.

Definition eliminarRelacion_after (id_relacion : Atom) (response : Response) : Exc Value :=
  if negb (status_code response =? 200)%Z then ret (Http.http_error response)
  else if negb (Py.contains "<eliminarRelacionResult>" (text response)) then
    ret (VDict [("exito", VBool false); ("eliminado", VNone);
                ("mensaje", VStr "Respuesta inválida del servicio.")])
  else
    match Py.split_1 "<eliminarRelacionResult>" (text response) with
    | None => raise (IndexError "list index out of range")
    | Some piece =>
        let result_str :=
          Py.lower (Py.strip (Py.split_0 "</eliminarRelacionResult>" piece)) in
        let eliminado := (result_str =? "true")%string in
        let mensaje :=
          if eliminado then
            Py.fstring ["Relación con ID "; Val.str id_relacion; " eliminada correctamente (Soft Delete)."]
          else
            Py.fstring ["No se pudo eliminar la relación con ID "; Val.str id_relacion; "."] in
        ret (VDict [("exito", VBool true); ("eliminado", VBool eliminado);
                    ("mensaje", VStr mensaje)])
    end.

Definition eliminarRelacion (E : Env) (id_relacion : Atom) : Call Value :=
  Http.try_post (eliminarRelacion_before id_relacion) (eliminarRelacion_after id_relacion)
    Http.error_of.

Definition actualizarPuntuacion_body (idRelacion puntuacion : Atom) : string :=
  Py.fstring (Soap.head_soap ++
    [ "          <soap:Body>"; Py.nl;
      "            <actualizarPuntuacion xmlns="; Py.dq; "http://tempuri.org/"; Py.dq; ">"; Py.nl;
      "              "; Soap.field "idRelacion" (Val.str idRelacion); Py.nl;
      "              "; Soap.field "puntuacion" (Val.str puntuacion); Py.nl;
      "            </actualizarPuntuacion>"; Py.nl;
      "          </soap:Body>"; Py.nl;
      "        </soap:Envelope>" ]).

(** [not isinstance(puntuacion, int) or not (0 <= puntuacion <= 5)] *)
Definition rejected_puntuacion (puntuacion : Atom) : bool :=
  negb (Val.isinstance_int puntuacion)
  || negb ((0 <=? Val.int_of puntuacion)%Z && (Val.int_of puntuacion <=? 5)%Z).

Definition actualizarPuntuacion_before (idRelacion puntuacion : Atom) : Exc (Value + Request) :=
  if Val.rejected_id idRelacion then
    Http.early (VDict [("error", VStr "Debe proporcionar un 'idRelacion' válido (entero mayor que 0).")])
  else if rejected_puntuacion puntuacion then
    Http.early (VDict [("error", VStr "La 'puntuacion' debe ser un número entero entre 0 y 5.")])
  else
    Http.send
      {| url := WsEspXRes.SOAP_URL;
         data := actualizarPuntuacion_body idRelacion puntuacion;
         headers := Http.soap11_headers "http://tempuri.org/actualizarPuntuacion";
         timeout := 30 |}.

Definition actualizarPuntuacion_after (idRelacion puntuacion : Atom) (response : Response)
  : Exc Value :=
  if negb (status_code response =? 200)%Z then ret (Http.http_error response)
  else if negb (Py.contains "<actualizarPuntuacionResult>" (text response)) then
    ret (VDict [("exito", VBool false); ("actualizado", VNone);
                ("mensaje", VStr "Respuesta inválida del servicio.")])
  else
    match Py.split_1 "<actualizarPuntuacionResult>" (text response) with
    | None => raise (IndexError "list index out of range")
    | Some piece =>
        let result_str :=
          Py.lower (Py.strip (Py.split_0 "</actualizarPuntuacionResult>" piece)) in
        let actualizado := (result_str =? "true")%string in
        let mensaje :=
          if actualizado then
            Py.fstring ["Puntuación actualizada correctamente ("; Val.str puntuacion;
                        " estrellas) para relación ID "; Val.str idRelacion; "."]
          else
            Py.fstring ["No se pudo actualizar la puntuación para la relación ID ";
                        Val.str idRelacion; "."] in
        ret (VDict [("exito", VBool true); ("actualizado", VBool actualizado);
                    ("mensaje", VStr mensaje)])
    end.

Definition actualizarPuntuacion (E : Env) (idRelacion puntuacion : Atom) : Call Value :=
  Http.try_post (actualizarPuntuacion_before idRelacion puntuacion)
    (actualizarPuntuacion_after idRelacion puntuacion) Http.error_of.

End WsEspXRes.

(** ** wsReservas.py *)

Module WsReservas.

Definition SOAP_URL : string :=
  "https://realdecuenca-btccaacvcpgyadhb.canadacentral-01.azurewebsites.net/WS_GestionReservas.asmx".

(** The first [safe_int] of the module (line 24), which the second
    definition of the same name replaces when the module is loaded. *)
Definition safe_int_shadowed (U : Py.Unicode) (value : option string) (default : Z) : Z :=
  match value with
  | None => default
  | Some s =>
      if (Py.strip s =? EmptyString)%string then default
      else
        match Val.int U s with
        | inr z => z
        | inl _ => default
        end
  end.

(** [safe_int] (line 32): [int(value)], and 0 on [ValueError] or
    [TypeError]; [None] raises the latter. *)
Definition safe_int (U : Py.Unicode) (value : option string) : Z :=
  match value with
  | None => 0
  | Some s =>
      match Val.int U s with
      | inr z => z
      | inl _ => 0
      end
  end.

(** [safe_bool]: [str(value).strip().lower() == "true"] *)
Definition safe_bool (value : option string) : bool :=
  let s := match value with None => "None" | Some s => s end in
  (Py.lower (Py.strip s) =? "true")%string.

(** [bool_str], local to [insertarReserva], [calcularTotales] and
    [actualizarReserva]. *)
Definition bool_str (valor : Atom) : string :=
  if Val.truthy valor then "true" else "false".

Definition eliminarReserva_body (reserva_id : Atom) : string :=
  Py.fstring (Soap.head_soapenv ++
    [ "           <soapenv:Header/>"; Py.nl;
      "           <soapenv:Body>"; Py.nl;
      "              <tem:eliminarReserva>"; Py.nl;
      "                 "; Soap.field "tem:id" (Val.str reserva_id); Py.nl;
      "              </tem:eliminarReserva>"; Py.nl;
      "           </soapenv:Body>"; Py.nl;
      "        </soapenv:Envelope>" ]).

Definition eliminarReserva_after (E : Env) (reserva_id : Atom) (response : Response)
  : Exc Value :=
  if negb (status_code response =? 200)%Z then ret (Http.http_error response)
  else
    root <- Http.parse E (text response) ;;
    match ET.find_deep (ET.tem "eliminarReservaResult") root with
    | None =>
        ret (VDict [("eliminado", VBool false);
                    ("mensaje", VStr "No se pudo confirmar la eliminación de la reserva.")])
    | Some result_node =>
        stripped <- Val.strip_opt (ET.text result_node) ;;
        if (Py.lower stripped =? "true")%string then
          ret (VDict [("eliminado", VBool true);
                      ("mensaje",
                       VStr (Py.fstring ["Reserva ID="; Val.str reserva_id; " eliminada correctamente."]))])
        else
          ret (VDict [("eliminado", VBool false);
                      ("mensaje",
                       VStr (Py.fstring ["No se pudo eliminar la reserva ID="; Val.str reserva_id; "."]))])
    end.

Definition eliminarReserva_request (reserva_id : Atom) : Request :=
  {| url := SOAP_URL;
     data := eliminarReserva_body reserva_id;
     headers := Http.soap11_headers "http://tempuri.org/eliminarReserva";
     timeout := 30 |}.

Definition eliminarReserva (E : Env) (reserva_id : Atom) : Call Value :=
  Http.try_post (Http.send (eliminarReserva_request reserva_id))
    (eliminarReserva_after E reserva_id) Http.error_of.

(** [safe_int], local to [seleccionarReservasPorUsuario]:
    [int(float(value))], and the default 0 for [None], for blank text, for
    the word none and whenever a conversion raises. *)
Definition seleccionarReservasPorUsuario_safe_int (E : Env) (value : option string) : Z :=
  match value with
  | None => 0
  | Some s =>
      if (Py.strip s =? EmptyString)%string || (Py.lower s =? "none")%string then 0
      else
        match float_of_text E s with
        | None => 0
        | Some x =>
            match Flt.trunc x with
            | Some z => z
            | None => 0
            end
        end
  end.

(** [safe_float], local to [seleccionarReservasPorUsuario], with the
    default [0.0]. *)
Definition seleccionarReservasPorUsuario_safe_float (E : Env) (value : option string)
  : Float :=
  match value with
  | None => Finite false 0 0
  | Some s =>
      if (Py.strip s =? EmptyString)%string || (Py.lower s =? "none")%string
      then Finite false 0 0
      else
        match float_of_text E s with
        | None => Finite false 0 0
        | Some x => x
        end
  end.

(** The dict read from a [<Reservas>] node. *)
Definition reserva_of (E : Env) (nodo : Element) : Value :=
  let safe_int := seleccionarReservasPorUsuario_safe_int E in
  let safe_float := seleccionarReservasPorUsuario_safe_float E in
  VDict
    [("Id", VInt (safe_int (Some (ET.findtext (ET.tem "Id") "0" nodo))));
     ("UsuarioId", VInt (safe_int (Some (ET.findtext (ET.tem "UsuarioId") "0" nodo))));
     ("UsuarioExternoId",
      VInt (safe_int (Some (ET.findtext (ET.tem "UsuarioExternoId") "0" nodo))));
     ("Estado", VStr (ET.findtext (ET.tem "Estado") EmptyString nodo));
     ("Comentarios", VStr (ET.findtext (ET.tem "Comentarios") EmptyString nodo));
     ("CostoSubtotal",
      VFloat (safe_float (Some (ET.findtext (ET.tem "CostoSubtotal") "0" nodo))));
     ("CostoIVA", VFloat (safe_float (Some (ET.findtext (ET.tem "CostoIVA") "0" nodo))));
     ("CostoFinal", VFloat (safe_float (Some (ET.findtext (ET.tem "CostoFinal") "0" nodo))));
     ("MinutosRetencion",
      VInt (safe_int (Some (ET.findtext (ET.tem "MinutosRetencion") "0" nodo))));
     ("ExpiraEn", VInt (safe_int (Some (ET.findtext (ET.tem "ExpiraEn") "0" nodo))));
     ("EsBloqueada",
      VBool (Py.lower (ET.findtext (ET.tem "EsBloqueada") "false" nodo) =? "true"));
     ("TokenSesion", VStr (ET.findtext (ET.tem "TokenSesion") EmptyString nodo));
     ("FechaRegistro", VStr (ET.findtext (ET.tem "FechaRegistro") EmptyString nodo));
     ("UltimaFechaCambio", VStr (ET.findtext (ET.tem "UltimaFechaCambio") EmptyString nodo));
     ("EsActivo",
      VBool (Py.lower (ET.findtext (ET.tem "EsActivo") "false" nodo) =? "true"))].

Definition seleccionarReservasPorUsuario_body (usuario_id : Atom) : string :=
  Py.fstring (Soap.head_soapenv ++
    [ "           <soapenv:Header/>"; Py.nl;
      "           <soapenv:Body>"; Py.nl;
      "              <tem:seleccionarReservasPorUsuario>"; Py.nl;
      "                 "; Soap.field "tem:usuarioId" (Val.str usuario_id); Py.nl;
      "              </tem:seleccionarReservasPorUsuario>"; Py.nl;
      "           </soapenv:Body>"; Py.nl;
      "        </soapenv:Envelope>" ]).

Definition seleccionarReservasPorUsuario_request (usuario_id : Atom) : Request :=
  {| url := SOAP_URL;
     data := seleccionarReservasPorUsuario_body usuario_id;
     headers := Http.soap11_headers "http://tempuri.org/seleccionarReservasPorUsuario";
     timeout := 30 |}.

Definition seleccionarReservasPorUsuario_after (E : Env) (response : Response)
  : Exc Value :=
  if negb (status_code response =? 200)%Z then ret (Http.http_error response)
  else
    root <- Http.parse E (text response) ;;
    match ET.find_deep (ET.tem "seleccionarReservasPorUsuarioResult") root with
    | None =>
        ret (VDict [("reservas", VList []); ("total", VInt 0);
                    ("mensaje", VStr "No se encontraron reservas.")])
    | Some result_node =>
        let reservas := map (reserva_of E) (ET.findall (ET.tem "Reservas") result_node) in
        ret (VDict [("reservas", VList reservas);
                    ("total", VInt (Z.of_nat (length reservas)));
                    ("mensaje",
                     VStr (Py.fstring ["Se encontraron ";
                                       Py.decimal (Z.of_nat (length reservas));
                                       " reservas del usuario."]))])
    end.

Definition seleccionarReservasPorUsuario (E : Env) (usuario_id : Atom) : Call Value :=
  Http.try_post (Http.send (seleccionarReservasPorUsuario_request usuario_id))
    (seleccionarReservasPorUsuario_after E) Http.error_of.

End WsReservas.

(** ** wsPagos.py *)

Module WsPagos.


(** [safe_int(value, default=0)]: [int(value)], and the default on any
    exception; [value] is the text of a node, or [None]. *)
Definition safe_int (U : Py.Unicode) (value : option string) (default : Z) : Z :=
  match value with
  | None => default
  | Some s =>
      match Val.int U s with
      | inr z => z
      | inl _ => default
      end
  end.

(** [_text]: [node.findtext(f"tem:{tag}", default, ns)], which is never
    [None] for a default that is text. *)
Definition _text (node : Element) (tag default : string) : string :=
  ET.findtext (ET.tem tag) default node.

End WsPagos.

(** ** wsEspacios.py *)

Module WsEspacios.

Definition SOAP_URL : string :=
  "https://realdecuenca-btccaacvcpgyadhb.canadacentral-01.azurewebsites.net/WS_GestionEspacios.asmx".

(** [safe_str]: [str(value).strip() if value is not None else default] *)
Definition safe_str (value : Atom) : string :=
  match value with
  | ANone => EmptyString
  | _ => Py.strip (Val.str value)
  end.

(** [safe_int] on a request value: the default 0 for [None], for blank
    text and when [int(value)] raises. *)
Definition safe_int (U : Py.Unicode) (value : Atom) : Z :=
  match value with
  | ANone => 0
  | AInt z => z
  | ABool b => if b then 1 else 0
  | AFloat x shown =>
      if (Py.strip shown =? EmptyString)%string then 0
      else
        match Flt.trunc x with
        | Some z => z
        | None => 0
        end
  | AStr s =>
      if (Py.strip s =? EmptyString)%string then 0
      else
        match Val.int U s with
        | inr z => z
        | inl _ => 0
        end
  end.

(** [safe_float] as the f-string writes it: [0.0] for [None] and for
    blank text, the float of a flag, a float as it is; the environment
    converts and prints an integer and a text. *)
Definition safe_float (E : Env) (value : Atom) : string :=
  match value with
  | ANone => "0.0"
  | ABool b => if b then "1.0" else "0.0"
  | AFloat _ shown => if (Py.strip shown =? EmptyString)%string then "0.0" else shown
  | AInt _ | AStr _ => safe_float_text E value
  end.

(** [safe_bool]: [str(value).strip().lower() == "true"] *)
Definition safe_bool (value : string) : bool :=
  (Py.lower (Py.strip value) =? "true")%string.

(** [safe_text]: [value.strip() if value else ""] *)
Definition safe_text (value : string) : string :=
  if (value =? EmptyString)%string then EmptyString else Py.strip value.

Definition actualizarEspacio_body (E : Env) (espacio_editado : Dict) : string :=
  let get := Val.get_or_none espacio_editado in
  let get_default := Val.get_default espacio_editado in
  Py.fstring (Soap.head_soap ++
    [ "          <soap:Body>"; Py.nl;
      "            <actualizarEspacio xmlns="; Py.dq; "http://tempuri.org/"; Py.dq; ">"; Py.nl;
      "              <espacioEditado>"; Py.nl;
      "                "; Soap.field "Id" (Py.decimal (safe_int (unicode E) (get "Id"))); Py.nl;
      "                "; Soap.field "HotelId" (Py.decimal (safe_int (unicode E) (get "HotelId"))); Py.nl;
      "                "; Soap.field "TipoServicioId" (Py.decimal (safe_int (unicode E) (get "TipoServicioId"))); Py.nl;
      "                "; Soap.field "TipoAlimentacionId" (Py.decimal (safe_int (unicode E) (get "TipoAlimentacionId"))); Py.nl;
      "                "; Soap.field "Nombre" (safe_str (get "Nombre")); Py.nl;
      "                "; Soap.field "Moneda" (safe_str (get_default "Moneda" (AStr "USD"))); Py.nl;
      "                "; Soap.field "CostoDiario" (safe_float E (get "CostoDiario")); Py.nl;
      "                "; Soap.field "CapacidadAdultos" (Py.decimal (safe_int (unicode E) (get "CapacidadAdultos"))); Py.nl;
      "                "; Soap.field "CapacidadNinios" (Py.decimal (safe_int (unicode E) (get "CapacidadNinios"))); Py.nl;
      "                "; Soap.field "Habitaciones" (Py.decimal (safe_int (unicode E) (get "Habitaciones"))); Py.nl;
      "                "; Soap.field "Parqueaderos" (Py.decimal (safe_int (unicode E) (get "Parqueaderos"))); Py.nl;
      "                "; Soap.field "DimensionesDelLugar" (Py.decimal (safe_int (unicode E) (get "DimensionesDelLugar"))); Py.nl;
      "                "; Soap.field "DescripcionDelLugar" (safe_str (get "DescripcionDelLugar")); Py.nl;
      "                "; Soap.field "Puntuacion" (Py.decimal (safe_int (unicode E) (get "Puntuacion"))); Py.nl;
      "                "; Soap.field "Ubicacion" (safe_str (get "Ubicacion")); Py.nl;
      "                "; Soap.field "MinutosRetencion" (Py.decimal (safe_int (unicode E) (get "MinutosRetencion"))); Py.nl;
      "                "; Soap.field "ExpiraEn" (safe_str (get_default "ExpiraEn" (AStr (now_isoformat E 0)))); Py.nl;
      "                "; Soap.field "EsBloqueada" (Py.lower_any (unicode E) (Val.str (get_default "EsBloqueada" (ABool false)))); Py.nl;
      "                "; Soap.field "FechaRegistro" (safe_str (get_default "FechaRegistro" (AStr (now_isoformat E 1)))); Py.nl;
      "                "; Soap.field "UltimaFechaCambio" (safe_str (get_default "UltimaFechaCambio" (AStr (now_isoformat E 2)))); Py.nl;
      "                "; Soap.field "EsActivo" (Py.lower_any (unicode E) (Val.str (get_default "EsActivo" (ABool true)))); Py.nl;
      "              </espacioEditado>"; Py.nl;
      "            </actualizarEspacio>"; Py.nl;
      "          </soap:Body>"; Py.nl;
      "        </soap:Envelope>" ]).

Definition actualizarEspacio_after (E : Env) (espacio_editado : Dict) (response : Response)
  : Exc Value :=
  if negb (status_code response =? 200)%Z then ret (Http.http_error response)
  else
    root <- Http.parse E (text response) ;;
    match ET.find_deep (ET.tem "actualizarEspacioResult") root with
    | None =>
        ret (VDict [("exito", VBool false);
                    ("mensaje", VStr "No se recibió confirmación del servicio.")])
    | Some result_node =>
        let shown := match ET.text result_node with None => "None" | Some s => s end in
        let id := Val.str (Val.get_or_none espacio_editado "Id") in
        if (Py.lower (Py.strip shown) =? "true")%string then
          ret (VDict [("exito", VBool true);
                      ("mensaje",
                       VStr (Py.fstring ["Espacio con ID "; id; " actualizado correctamente."]))])
        else
          ret (VDict [("exito", VBool false);
                      ("mensaje",
                       VStr (Py.fstring ["No se pudo actualizar el espacio con ID "; id; "."]))])
    end.

Definition actualizarEspacio_request (E : Env) (espacio_editado : Dict) : Request :=
  {| url := SOAP_URL;
     data := actualizarEspacio_body E espacio_editado;
     headers := Http.soap11_headers "http://tempuri.org/actualizarEspacio";
     timeout := 30 |}.

Definition actualizarEspacio (E : Env) (espacio_editado : Dict) : Call Value :=
  Http.try_post (Http.send (actualizarEspacio_request E espacio_editado))
    (actualizarEspacio_after E espacio_editado) Http.error_of.

Definition seleccionarEspacios_body : string :=
  Py.fstring (Soap.head_soap ++
    [ "          <soap:Body>"; Py.nl;
      "            <seleccionarEspacios xmlns="; Py.dq; "http://tempuri.org/"; Py.dq; " />"; Py.nl;
      "          </soap:Body>"; Py.nl;
      "        </soap:Envelope>" ]).

(** The dict built from one [<Espacios>] node: text fields stripped, the
    two flags through [safe_bool]. *)
Definition espacio_of (nodo : Element) : Value :=
  let txt name default := VStr (safe_text (ET.findtext (ET.tem name) default nodo)) in
  let flag name := VBool (safe_bool (ET.findtext (ET.tem name) "false" nodo)) in
  let sub outer :=
    VStr (safe_text (ET.findtext_2 (ET.tem outer) (ET.tem "Nombre") EmptyString nodo)) in
  VDict
    [("Id", txt "Id" EmptyString);
     ("HotelId", txt "HotelId" EmptyString);
     ("TipoServicioId", txt "TipoServicioId" EmptyString);
     ("TipoAlimentacionId", txt "TipoAlimentacionId" EmptyString);
     ("Nombre", txt "Nombre" EmptyString);
     ("Moneda", txt "Moneda" "USD");
     ("CostoDiario", txt "CostoDiario" "0");
     ("CapacidadAdultos", txt "CapacidadAdultos" "0");
     ("CapacidadNinios", txt "CapacidadNinios" "0");
     ("Habitaciones", txt "Habitaciones" "0");
     ("Parqueaderos", txt "Parqueaderos" "0");
     ("DimensionesDelLugar", txt "DimensionesDelLugar" "0");
     ("DescripcionDelLugar", txt "DescripcionDelLugar" EmptyString);
     ("Puntuacion", txt "Puntuacion" "0");
     ("Ubicacion", txt "Ubicacion" EmptyString);
     ("MinutosRetencion", txt "MinutosRetencion" "0");
     ("ExpiraEn", txt "ExpiraEn" EmptyString);
     ("EsBloqueada", flag "EsBloqueada");
     ("FechaRegistro", txt "FechaRegistro" EmptyString);
     ("UltimaFechaCambio", txt "UltimaFechaCambio" EmptyString);
     ("EsActivo", flag "EsActivo");
     ("Hotel", sub "Hotel");
     ("TipoServicio", sub "TipoServicio");
     ("TipoAlimentacion", sub "TipoAlimentacion")].

Definition seleccionarEspacios_after (E : Env) (response : Response) : Exc Value :=
  if negb (status_code response =? 200)%Z then
    ret (VDict [("exito", VBool false);
                ("mensaje",
                 VStr (Py.fstring ["Error HTTP "; Py.decimal (status_code response)]))])
  else
    root <- Http.parse E (text response) ;;
    match ET.find_deep (ET.tem "seleccionarEspaciosResult") root with
    | None =>
        ret (VDict [("exito", VBool false);
                    ("mensaje", VStr "No se encontraron espacios.")])
    | Some result_node =>
        match map espacio_of (ET.findall (ET.tem "Espacios") result_node) with
        | [] =>
            ret (VDict [("exito", VBool true);
                        ("mensaje", VStr "No se encontraron espacios activos.");
                        ("espacios", VList [])])
        | espacios =>
            ret (VDict [("exito", VBool true);
                        ("mensaje",
                         VStr (Py.fstring ["Se encontraron ";
                                           Py.decimal (Z.of_nat (List.length espacios));
                                           " espacio(s) activo(s)."]));
                        ("espacios", VList espacios)])
        end
    end.

(** [{"exito": False, "mensaje": f"Error al consultar los espacios: {ex}"}] *)
Definition seleccionarEspacios_handler (ex : PyExn) : Value :=
  VDict [("exito", VBool false);
         ("mensaje",
          VStr (Py.fstring ["Error al consultar los espacios: "; Val.str_exn ex]))].

Definition seleccionarEspacios_request : Request :=
  {| url := SOAP_URL;
     data := seleccionarEspacios_body;
     headers := Http.soap11_headers "http://tempuri.org/seleccionarEspacios";
     timeout := 30 |}.

Definition seleccionarEspacios (E : Env) : Call Value :=
  Http.try_post (Http.send (seleccionarEspacios_request))
    (seleccionarEspacios_after E) seleccionarEspacios_handler.

End WsEspacios.

(** ** wsAmenidades.py *)

Module WsAmenidades.

Definition SOAP_URL : string :=
  "https://realdecuenca-btccaacvcpgyadhb.canadacentral-01.azurewebsites.net/WS_GestionAmenidades.asmx".

Definition eliminarAmenidad_body (amenidad_id : Atom) : string :=
  Py.fstring (Soap.head_soapenv ++
    [ "           <soapenv:Header/>"; Py.nl;
      "           <soapenv:Body>"; Py.nl;
      "              <tem:eliminarAmenidad>"; Py.nl;
      "                 "; Soap.field "tem:id" (Val.str amenidad_id); Py.nl;
      "              </tem:eliminarAmenidad>"; Py.nl;
      "           </soapenv:Body>"; Py.nl;
      "        </soapenv:Envelope>" ]).

Definition eliminarAmenidad_request (amenidad_id : Atom) : Request :=
  {| url := SOAP_URL;
     data := eliminarAmenidad_body amenidad_id;
     headers := Http.soap11_headers "http://tempuri.org/eliminarAmenidad";
     timeout := 30 |}.

(** The guard is [not amenidad_id or amenidad_id <= 0]: the comparison of a
    non-empty string with 0 raises [TypeError], and a float above 0 passes
    as a positive integer does. *)
Definition eliminarAmenidad_before (amenidad_id : Atom) : Exc (Value + Request) :=
  if negb (Val.truthy amenidad_id) then
    Http.early (VDict [("error", VStr "El parámetro 'amenidad_id' debe ser un entero válido mayor que 0.")])
  else
    below <- Val.le_zero amenidad_id ;;
    if (below : bool) then
      Http.early (VDict [("error", VStr "El parámetro 'amenidad_id' debe ser un entero válido mayor que 0.")])
    else Http.send (eliminarAmenidad_request amenidad_id).

Definition eliminarAmenidad_after (E : Env) (amenidad_id : Atom) (response : Response)
  : Exc Value :=
  if negb (status_code response =? 200)%Z then ret (Http.http_error response)
  else
    root <- Http.parse E (text response) ;;
    match ET.find_deep (ET.tem "eliminarAmenidadResult") root with
    | None =>
        ret (VDict [("exito", VBool false);
                    ("mensaje", VStr "No se pudo determinar el resultado de la eliminación.")])
    | Some result_node =>
        stripped <- Val.strip_opt (ET.text result_node) ;;
        if (Py.lower stripped =? "true")%string then
          ret (VDict [("exito", VBool true);
                      ("mensaje",
                       VStr (Py.fstring ["Amenidad ID="; Val.str amenidad_id; " eliminada correctamente."]))])
        else
          ret (VDict [("exito", VBool false);
                      ("mensaje",
                       VStr (Py.fstring ["No se pudo eliminar la amenidad ID="; Val.str amenidad_id; " (posiblemente no existe o ya está inactiva)."]))])
    end.

Definition eliminarAmenidad (E : Env) (amenidad_id : Atom) : Call Value :=
  Http.try_post (eliminarAmenidad_before amenidad_id) (eliminarAmenidad_after E amenidad_id)
    Http.error_of.

End WsAmenidades.

(** ** wsIntegracionDetalleServicios.py *)

Module WsIntegracion.

Definition WSDL_URL : string :=
  "https://realdecuencaintegracion-abachrhfgzcrb0af.canadacentral-01.azurewebsites.net/WS_GestionIntegracionDetalleEspacio.asmx?WSDL".

Definition soap12_headers (action : string) : list (string * string) :=
  [("Content-Type", "application/soap+xml; charset=utf-8"); ("SOAPAction", action)].

(** [safe_int], local to the integration adapters: [int(value)], and the
    default 0 on [TypeError] or [ValueError]. *)
Definition safe_int (U : Py.Unicode) (value : string) : Z :=
  match Val.int U value with
  | inr z => z
  | inl _ => 0
  end.

(** [safe_bool], local to [cotizarReserva] and [buscarServicios]:
    [str(value).strip().lower() in ("true", "1", "yes")] *)
Definition safe_bool (value : string) : bool :=
  let s := Py.lower (Py.strip value) in
  ((s =? "true") || (s =? "1") || (s =? "yes"))%string.

(** [get_text]: the stripped text of the child, or the default when the
    child is missing or its text is empty. *)
Definition get_text (result_node : Element) (tag : string) : string :=
  let text := ET.findtext (ET.tem tag) EmptyString result_node in
  if (text =? EmptyString)%string then EmptyString else Py.strip text.

Definition verificarDisponibilidad_body (espacioId fechaInicio fechaFin : Atom) : string :=
  Py.fstring (Soap.head_soap12 ++
    [ "          <soap12:Body>"; Py.nl;
      "            <verificarDisponibilidad xmlns="; Py.dq; "http://tempuri.org/"; Py.dq; ">"; Py.nl;
      "              "; Soap.field "espacioId" (Val.str espacioId); Py.nl;
      "              "; Soap.field "fechaInicio" (Val.str fechaInicio); Py.nl;
      "              "; Soap.field "fechaFin" (Val.str fechaFin); Py.nl;
      "            </verificarDisponibilidad>"; Py.nl;
      "          </soap12:Body>"; Py.nl;
      "        </soap12:Envelope>" ]).

Definition verificarDisponibilidad_after (E : Env) (espacioId fechaInicio fechaFin : Atom)
    (response : Response) : Exc Value :=
  if negb (status_code response =? 200)%Z then ret (Http.http_error response)
  else
    root <- Http.parse E (text response) ;;
    match ET.find_deep (ET.tem "verificarDisponibilidadResult") root with
    | None =>
        ret (VDict [("error", VStr "Respuesta SOAP inválida o sin nodo de resultado.")])
    | Some result_node =>
        stripped <- Val.strip_opt (ET.text result_node) ;;
        ret (VDict [("espacioId", Val.of_atom espacioId);
                    ("fechaInicio", Val.of_atom fechaInicio);
                    ("fechaFin", Val.of_atom fechaFin);
                    ("disponible", VBool (Py.lower stripped =? "true"))])
    end.

Definition verificarDisponibilidad_request (espacioId fechaInicio fechaFin : Atom) : Request :=
  {| url := WSDL_URL;
     data := verificarDisponibilidad_body espacioId fechaInicio fechaFin;
     headers := soap12_headers "http://tempuri.org/verificarDisponibilidad";
     timeout := 30 |}.

Definition verificarDisponibilidad (E : Env) (espacioId fechaInicio fechaFin : Atom) : Call Value :=
  Http.try_post (Http.send (verificarDisponibilidad_request espacioId fechaInicio fechaFin))
    (verificarDisponibilidad_after E espacioId fechaInicio fechaFin) Http.error_of.

Definition cancelarReservaIntegracion_body (bookingId motivo : Atom) : string :=
  Py.fstring (Soap.head_soap12 ++
    [ "          <soap12:Body>"; Py.nl;
      "            <CancelarReservaIntegracion xmlns="; Py.dq; "http://tempuri.org/"; Py.dq; ">"; Py.nl;
      "              "; Soap.field "bookingId" (Val.str bookingId); Py.nl;
      "              "; Soap.field "motivo" (Val.str motivo); Py.nl;
      "            </CancelarReservaIntegracion>"; Py.nl;
      "          </soap12:Body>"; Py.nl;
      "        </soap12:Envelope>" ]).

Definition cancelarReservaIntegracion_before (bookingId motivo : Atom)
  : Exc (Value + Request) :=
  if negb (Val.truthy bookingId) then
    Http.early (VDict [("error", VStr "Debe especificar el BookingId de la reserva para cancelarla.")])
  else
    Http.send
      {| url := WSDL_URL;
         data := cancelarReservaIntegracion_body bookingId motivo;
         headers := soap12_headers "http://tempuri.org/CancelarReservaIntegracion";
         timeout := 30 |}.

(** The dict read from the result node of a cancellation. *)
Definition cancelacion_of (U : Py.Unicode) (result_node : Element) : Value :=
  VDict
    [("ReservaId", VInt (safe_int U (get_text result_node "ReservaId")));
     ("Estado", VStr (get_text result_node "Estado"));
     ("ExitoInt", VInt (safe_int U (get_text result_node "ExitoInt")));
     ("Mensaje", VStr (get_text result_node "Mensaje"));
     ("FechaCancelacion", VStr (get_text result_node "FechaCancelacion"))].

Definition cancelarReservaIntegracion_after (E : Env) (response : Response) : Exc Value :=
  if negb (status_code response =? 200)%Z then ret (Http.http_error response)
  else
    root <- Http.parse E (text response) ;;
    match ET.find_deep (ET.tem "CancelarReservaIntegracionResult") root with
    | None =>
        ret (VDict [("error",
                     VStr "Respuesta SOAP inválida o sin nodo CancelarReservaIntegracionResult.")])
    | Some result_node => ret (cancelacion_of (unicode E) result_node)
    end.

Definition cancelarReservaIntegracion (E : Env) (bookingId motivo : Atom) : Call Value :=
  Http.try_post (cancelarReservaIntegracion_before bookingId motivo)
    (cancelarReservaIntegracion_after E) Http.error_of.

End WsIntegracion.

(** ** The adapters as one family *)

(** The modelled adapters with their arguments. *)
Inductive Op : Type :=
| ActualizarHotel (hotel : Dict)
| BuscarHotelPorNombre (nombre : Atom)
| EliminarHotel (hotel_id : Atom)
| InsertarHotel (hotel : Dict)
| SeleccionarHotelPorId (hotel_id : Atom)
| SeleccionarHoteles
| ActualizarTipo (tipo_editado : Dict)
| EliminarTipo (id_tipo : Atom)
| InsertarTipo (nuevoTipo : Dict)
| ReactivarTipo (id_tipo : Atom)
| TipoAlimentacionSeleccionarInactivos
| TipoAlimentacionSeleccionarPorId (id : Atom)
| TipoAlimentacionSeleccionarPorNombre (nombre : Atom)
| InsertarRelacion (nuevaRelacion : Dict)
| EspacioDisponible (espacioId fechaInicio fechaFin : Atom)
| EliminarRelacion (id_relacion : Atom)
| ActualizarPuntuacion (idRelacion puntuacion : Atom)
| SeleccionarReservasPorUsuario (usuario_id : Atom)
| EliminarReserva (reserva_id : Atom)
| ActualizarEspacio (espacio_editado : Dict)
| SeleccionarEspacios
| EliminarAmenidad (amenidad_id : Atom)
| VerificarDisponibilidad (espacioId fechaInicio fechaFin : Atom)
| CancelarReservaIntegracion (bookingId motivo : Atom).

Definition call (E : Env) (op : Op) : Call Value :=
  match op with
  | ActualizarHotel hotel => WsHotel.actualizarHotel E hotel
  | BuscarHotelPorNombre nombre => WsHotel.buscarHotelPorNombre E nombre
  | EliminarHotel hotel_id => WsHotel.eliminarHotel E hotel_id
  | InsertarHotel hotel => WsHotel.insertarHotel E hotel
  | SeleccionarHotelPorId hotel_id => WsHotel.seleccionarHotelPorId E hotel_id
  | SeleccionarHoteles => WsHotel.seleccionarHoteles E
  | ActualizarTipo tipo_editado => WsTipoAlimentacion.actualizarTipo E tipo_editado
  | EliminarTipo id_tipo => WsTipoAlimentacion.eliminarTipo E id_tipo
  | InsertarTipo nuevoTipo => WsTipoAlimentacion.insertarTipo E nuevoTipo
  | ReactivarTipo id_tipo => WsTipoAlimentacion.reactivarTipo E id_tipo
  | TipoAlimentacionSeleccionarInactivos => WsTipoAlimentacion.seleccionarInactivos E
  | TipoAlimentacionSeleccionarPorId id => WsTipoAlimentacion.seleccionarPorId E id
  | TipoAlimentacionSeleccionarPorNombre nombre =>
      WsTipoAlimentacion.seleccionarPorNombre E nombre
  | InsertarRelacion nuevaRelacion => WsEspXRes.insertarRelacion E nuevaRelacion
  | EspacioDisponible espacioId fechaInicio fechaFin =>
      WsEspXRes.espacioDisponible E espacioId fechaInicio fechaFin
  | EliminarRelacion id_relacion => WsEspXRes.eliminarRelacion E id_relacion
  | ActualizarPuntuacion idRelacion puntuacion =>
      WsEspXRes.actualizarPuntuacion E idRelacion puntuacion
  | SeleccionarReservasPorUsuario usuario_id =>
      WsReservas.seleccionarReservasPorUsuario E usuario_id
  | EliminarReserva reserva_id => WsReservas.eliminarReserva E reserva_id
  | ActualizarEspacio espacio_editado => WsEspacios.actualizarEspacio E espacio_editado
  | SeleccionarEspacios => WsEspacios.seleccionarEspacios E
  | EliminarAmenidad amenidad_id => WsAmenidades.eliminarAmenidad E amenidad_id
  | VerificarDisponibilidad espacioId fechaInicio fechaFin =>
      WsIntegracion.verificarDisponibilidad E espacioId fechaInicio fechaFin
  | CancelarReservaIntegracion bookingId motivo =>
      WsIntegracion.cancelarReservaIntegracion E bookingId motivo
  end.

(** How each adapter's source handles its failures. *)
Inductive Style : Type :=
| ErrorDict      (** [{"error": str(ex)}], with ["detalle"] for a bad status *)
| ErrorDetalle   (** [{"error": <fixed text>, "detalle": <cause>}] when the
                     POST fails, [{"error": str(ex)}] otherwise *)
| EmptyList      (** [return []] on every failure *)
| NoneResult     (** [return None] on every failure *)
| ExitoFalse.    (** [{"exito": False, "mensaje": ...}] *)

Definition style (op : Op) : Style :=
  match op with
  | InsertarTipo _ => ErrorDetalle
  | TipoAlimentacionSeleccionarInactivos => EmptyList
  | TipoAlimentacionSeleccionarPorId _ | TipoAlimentacionSeleccionarPorNombre _ => NoneResult
  | SeleccionarEspacios => ExitoFalse
  | _ => ErrorDict
  end.

(** The adapters whose failures are dicts with the key ["error"]. *)
Definition error_style (op : Op) : bool :=
  match style op with
  | ErrorDict | ErrorDetalle => true
  | _ => false
  end.

(** What an adapter returns for a reply whose status is not 200. *)
Definition non_200_result (op : Op) (r : Response) : Value :=
  match style op with
  | ErrorDict | ErrorDetalle => Http.http_error r
  | EmptyList => VList []
  | NoneResult => VNone
  | ExitoFalse =>
      VDict [("exito", VBool false);
             ("mensaje", VStr (Py.fstring ["Error HTTP "; Py.decimal (status_code r)]))]
  end.

(** What an adapter returns when an exception reaches its handler. *)
Definition caught (op : Op) (ex : PyExn) : Value :=
  match style op with
  | ErrorDict => Http.error_of ex
  | ErrorDetalle =>
      match ex with
      | RequestException cause =>
          VDict [("error", VStr "Error de conexión con el servicio SOAP.");
                 ("detalle", VStr cause)]
      | _ => Http.error_of ex
      end
  | EmptyList => VList []
  | NoneResult => VNone
  | ExitoFalse => WsEspacios.seleccionarEspacios_handler ex
  end.

(** The body of an adapter, before its [except] clauses: what it returns
    or raises against a remote end. *)
Definition before (E : Env) (op : Op) : Exc (Value + Request) :=
  match op with
  | ActualizarHotel hotel => WsHotel.actualizarHotel_before E hotel
  | BuscarHotelPorNombre nombre => WsHotel.buscarHotelPorNombre_before nombre
  | EliminarHotel hotel_id => WsHotel.eliminarHotel_before hotel_id
  | InsertarHotel hotel => WsHotel.insertarHotel_before E hotel
  | SeleccionarHotelPorId hotel_id => WsHotel.seleccionarHotelPorId_before hotel_id
  | ActualizarTipo tipo_editado => WsTipoAlimentacion.actualizarTipo_before tipo_editado
  | EliminarTipo id_tipo => WsTipoAlimentacion.eliminarTipo_before id_tipo
  | InsertarTipo nuevoTipo => WsTipoAlimentacion.insertarTipo_before nuevoTipo
  | ReactivarTipo id_tipo => WsTipoAlimentacion.reactivarTipo_before id_tipo
  | TipoAlimentacionSeleccionarPorNombre nombre =>
      Http.send (WsTipoAlimentacion.seleccionarPorNombre_request nombre)
  | InsertarRelacion nuevaRelacion => WsEspXRes.insertarRelacion_before E nuevaRelacion
  | EspacioDisponible espacioId fechaInicio fechaFin =>
      WsEspXRes.espacioDisponible_before espacioId fechaInicio fechaFin
  | EliminarRelacion id_relacion => WsEspXRes.eliminarRelacion_before id_relacion
  | ActualizarPuntuacion idRelacion puntuacion =>
      WsEspXRes.actualizarPuntuacion_before idRelacion puntuacion
  | SeleccionarReservasPorUsuario usuario_id =>
      Http.send (WsReservas.seleccionarReservasPorUsuario_request usuario_id)
  | CancelarReservaIntegracion bookingId motivo =>
      WsIntegracion.cancelarReservaIntegracion_before bookingId motivo
  | SeleccionarHoteles => Http.send WsHotel.seleccionarHoteles_request
  | TipoAlimentacionSeleccionarInactivos =>
      Http.send WsTipoAlimentacion.seleccionarInactivos_request
  | TipoAlimentacionSeleccionarPorId id =>
      Http.send (WsTipoAlimentacion.seleccionarPorId_request id)
  | EliminarReserva reserva_id => Http.send (WsReservas.eliminarReserva_request reserva_id)
  | ActualizarEspacio espacio_editado =>
      Http.send (WsEspacios.actualizarEspacio_request E espacio_editado)
  | SeleccionarEspacios => Http.send WsEspacios.seleccionarEspacios_request
  | EliminarAmenidad amenidad_id => WsAmenidades.eliminarAmenidad_before amenidad_id
  | VerificarDisponibilidad espacioId fechaInicio fechaFin =>
      Http.send (WsIntegracion.verificarDisponibilidad_request espacioId fechaInicio fechaFin)
  end.

Definition after (E : Env) (op : Op) : Response -> Exc Value :=
  match op with
  | ActualizarHotel hotel => WsHotel.actualizarHotel_after E hotel
  | BuscarHotelPorNombre _ => WsHotel.buscarHotelPorNombre_after E
  | EliminarHotel hotel_id => WsHotel.eliminarHotel_after E hotel_id
  | InsertarHotel hotel => WsHotel.insertarHotel_after E hotel
  | SeleccionarHotelPorId _ => WsHotel.seleccionarHotelPorId_after E
  | SeleccionarHoteles => WsHotel.seleccionarHoteles_after E
  | ActualizarTipo tipo_editado => WsTipoAlimentacion.actualizarTipo_after E tipo_editado
  | EliminarTipo id_tipo => WsTipoAlimentacion.eliminarTipo_after E id_tipo
  | InsertarTipo nuevoTipo => WsTipoAlimentacion.insertarTipo_after E nuevoTipo
  | ReactivarTipo id_tipo => WsTipoAlimentacion.reactivarTipo_after E id_tipo
  | TipoAlimentacionSeleccionarInactivos => WsTipoAlimentacion.seleccionarInactivos_after E
  | TipoAlimentacionSeleccionarPorId _ => WsTipoAlimentacion.seleccionarPorId_after E
  | TipoAlimentacionSeleccionarPorNombre _ => WsTipoAlimentacion.seleccionarPorNombre_after E
  | InsertarRelacion _ => WsEspXRes.insertarRelacion_after (unicode E)
  | EspacioDisponible _ _ _ => WsEspXRes.espacioDisponible_after
  | EliminarRelacion id_relacion => WsEspXRes.eliminarRelacion_after id_relacion
  | ActualizarPuntuacion idRelacion puntuacion =>
      WsEspXRes.actualizarPuntuacion_after idRelacion puntuacion
  | SeleccionarReservasPorUsuario _ => WsReservas.seleccionarReservasPorUsuario_after E
  | EliminarReserva reserva_id => WsReservas.eliminarReserva_after E reserva_id
  | ActualizarEspacio espacio_editado => WsEspacios.actualizarEspacio_after E espacio_editado
  | SeleccionarEspacios => WsEspacios.seleccionarEspacios_after E
  | EliminarAmenidad amenidad_id => WsAmenidades.eliminarAmenidad_after E amenidad_id
  | VerificarDisponibilidad espacioId fechaInicio fechaFin =>
      WsIntegracion.verificarDisponibilidad_after E espacioId fechaInicio fechaFin
  | CancelarReservaIntegracion _ _ => WsIntegracion.cancelarReservaIntegracion_after E
  end.

(** The [except] clauses of an adapter. *)
Definition handler (op : Op) : PyExn -> Value :=
  match op with
  | InsertarTipo _ => WsTipoAlimentacion.insertarTipo_handler
  | TipoAlimentacionSeleccionarInactivos => WsTipoAlimentacion.seleccionarInactivos_handler
  | TipoAlimentacionSeleccionarPorId _ => WsTipoAlimentacion.seleccionarPorId_handler
  | TipoAlimentacionSeleccionarPorNombre _ => WsTipoAlimentacion.seleccionarPorNombre_handler
  | SeleccionarEspacios => WsEspacios.seleccionarEspacios_handler
  | _ => Http.error_of
  end.

(** The element [{operation}Result] an adapter looks for in a parsed reply;
    [None] for the adapters that do not look for one. *)
Definition result_tag (op : Op) : option string :=
  match op with
  | ActualizarHotel _ => Some "actualizarHotelResult"
  | BuscarHotelPorNombre _ => Some "buscarHotelPorNombreResult"
  | EliminarHotel _ => Some "eliminarHotelResult"
  | InsertarHotel _ => Some "insertarHotelResult"
  | SeleccionarHotelPorId _ => Some "seleccionarHotelPorIdResult"
  | SeleccionarHoteles => Some "seleccionarHotelesResult"
  | ActualizarTipo _ => Some "actualizarTipoResult"
  | EliminarTipo _ => Some "eliminarTipoResult"
  | InsertarTipo _ => Some "insertarTipoResult"
  | ReactivarTipo _ => Some "reactivarTipoResult"
  | TipoAlimentacionSeleccionarInactivos => None
  | TipoAlimentacionSeleccionarPorId _ => Some "seleccionarPorIdResult"
  | TipoAlimentacionSeleccionarPorNombre _ => Some "seleccionarPorNombreResult"
  | InsertarRelacion _ => None
  | EspacioDisponible _ _ _ => None
  | EliminarRelacion _ => None
  | ActualizarPuntuacion _ _ => None
  | SeleccionarReservasPorUsuario _ => Some "seleccionarReservasPorUsuarioResult"
  | EliminarReserva _ => Some "eliminarReservaResult"
  | ActualizarEspacio _ => Some "actualizarEspacioResult"
  | SeleccionarEspacios => Some "seleccionarEspaciosResult"
  | EliminarAmenidad _ => Some "eliminarAmenidadResult"
  | VerificarDisponibilidad _ _ _ => Some "verificarDisponibilidadResult"
  | CancelarReservaIntegracion _ _ => Some "CancelarReservaIntegracionResult"
  end.


(** The element, outside every namespace, that the adapters of wsEspXRes
    cut out of the raw text of the reply. *)
Definition raw_tag (op : Op) : option string :=
  match op with
  | InsertarRelacion _ => Some "insertarRelacionResult"
  | EspacioDisponible _ _ _ => Some "espacioDisponibleResult"
  | EliminarRelacion _ => Some "eliminarRelacionResult"
  | ActualizarPuntuacion _ _ => Some "actualizarPuntuacionResult"
  | _ => None
  end.

(** The key under which an adapter returns the flag that it reads from
    its result element. *)
Definition flag_key (op : Op) : option string :=
  match op with
  | ActualizarHotel _ | EliminarHotel _ | ActualizarEspacio _ | EliminarAmenidad _ =>
      Some "exito"
  | ActualizarTipo _ | EliminarTipo _ | ReactivarTipo _ => Some "resultado"
  | EliminarReserva _ | EliminarRelacion _ => Some "eliminado"
  | EspacioDisponible _ _ _ | VerificarDisponibilidad _ _ _ => Some "disponible"
  | ActualizarPuntuacion _ _ => Some "actualizado"
  | _ => None
  end.

(** The adapters of wsIntegracionDetalleServicios.py. *)
Definition integration (op : Op) : bool :=
  match op with
  | VerificarDisponibilidad _ _ _ | CancelarReservaIntegracion _ _ => true
  | _ => false
  end.


(** The timeout written at the adapter's call of [requests.post]. *)
Definition timeout_of (op : Op) : Z :=
  match op with
  | TipoAlimentacionSeleccionarInactivos | TipoAlimentacionSeleccionarPorId _
  | TipoAlimentacionSeleccionarPorNombre _ => 15
  | _ => 30
  end.

(** ** What the specification asks of a result *)

(** A failure value that carries the status code and the raw body. *)
Definition reports_http_failure (v : Value) (r : Response) : Prop :=
  Val.is_failure v = true /\
  Val.mentions (Py.decimal (status_code r)) v = true /\
  Val.mentions (text r) v = true.

(** A failure value that carries the cause of a transport failure. *)
Definition reports_transport_failure (v : Value) (cause : string) : Prop :=
  Val.is_failure v = true /\ Val.mentions cause v = true.

(** Equality of two texts up to the case of their ASCII letters. *)
Fixpoint caseless_eq (a b : string) : bool :=
  match a, b with
  | EmptyString, EmptyString => true
  | String x a', String y b' =>
      Ascii.eqb (Py.lower_ascii x) (Py.lower_ascii y) && caseless_eq a' b'
  | _, _ => false
  end.

(** [hotel["Id"]] of a decoded hotel, 0 when there is none. *)
Definition hotel_id (h : Value) : Z :=
  match Val.field "Id" h with
  | Some (VInt z) => z
  | _ => 0
  end.

(** ** Sample replies *)

Module Sample.

(** A reply as the service writes it, next to the tree that [ET.fromstring]
    makes of it.  The text is written without white space between the
    elements, so that no element has a tail and an element with children
    has no text. *)
Definition Document : Type := (string * Element)%type.

Definition xml (d : Document) : string := fst d.
Definition tree (d : Document) : Element := snd d.

(** [<name>text...children...</name>] in the namespace of the service; an
    element without text has the text [None]. *)
Definition element (name text : string) (children : list Document) : Document :=
  (Py.fstring (["<"; name; ">"; text] ++ map xml children ++ ["</"; name; ">"]),
   Elem (ET.tem name) (if (text =? EmptyString)%string then None else Some text)
     (map tree children)).

Definition leaf (name text : string) : Document := element name text [].

(** The envelope around the response element of the operation [name]. *)
Definition reply (name : string) (children : list Document) : Document :=
  (Py.fstring
     (["<soap:Envelope xmlns:soap='http://schemas.xmlsoap.org/soap/envelope/'>";
       "<soap:Body><"; name; "Response xmlns='http://tempuri.org/'>"]
      ++ map xml children
      ++ ["</"; name; "Response></soap:Body></soap:Envelope>"]),
   Elem "{http://schemas.xmlsoap.org/soap/envelope/}Envelope" None
     [Elem "{http://schemas.xmlsoap.org/soap/envelope/}Body" None
        [Elem (ET.tem (name ++ "Response")) None (map tree children)]]).

(** A reply whose result element holds [text]. *)
Definition result (name text : string) : Document :=
  reply name [leaf (name ++ "Result") text].

Definition hotel_fields (id nombre activo : string) : list Document :=
  [leaf "Id" id; leaf "Nombre" nombre;
   leaf "FechaRegistro" "2025-01-10T08:30:00";
   leaf "UltimaFechaCambio" "2025-10-28T15:00:00";
   leaf "EsActivo" activo].

Definition hotel (id nombre activo : string) : Document :=
  element "Hotel" EmptyString (hotel_fields id nombre activo).

(** The dict that [hotel id nombre activo] decodes to. *)
Definition hotel_value (id : Z) (nombre : string) (activo : bool) : Value :=
  VDict [("Id", VInt id); ("Nombre", VStr nombre);
         ("FechaRegistro", VStr "2025-01-10T08:30:00");
         ("UltimaFechaCambio", VStr "2025-10-28T15:00:00");
         ("EsActivo", VBool activo)].

(** Three hotels whose [EsActivo] alternates. *)
Definition three_hotels_result : Document :=
  element "seleccionarHotelesResult" EmptyString
    [hotel "1" "Real de Cuenca" "true";
     hotel "2" "Los Andes" "false";
     hotel "3" "El Dorado" "true"].

Definition three_hotels : Document := reply "seleccionarHoteles" [three_hotels_result].

(** Two matches of a search, the first with [Id] 0. *)
Definition two_matches_result : Document :=
  element "buscarHotelPorNombreResult" EmptyString
    [hotel "0" "Borrador" "true"; hotel "7" "Real de Cuenca" "true"].

Definition two_matches : Document := reply "buscarHotelPorNombre" [two_matches_result].

(** Three hotels under the result element of [name], the second with an
    [Id] that is no number. *)
Definition one_bad_hotel (name : string) : Document :=
  reply name
    [element (name ++ "Result") EmptyString
       [hotel "1" "Real de Cuenca" "true";
        hotel "n/a" "Los Andes" "true";
        hotel "3" "El Dorado" "false"]].

(** A hotel whose [<Id>] element is there and has no text. *)
Definition hotel_without_id_text : Document :=
  reply "seleccionarHotelPorId"
    [element "seleccionarHotelPorIdResult" EmptyString
       [leaf "Id" EmptyString; leaf "Nombre" "Real de Cuenca"; leaf "EsActivo" "true"]].

(** A hotel whose [Id] is written with the Arabic-Indic digit three. *)
Definition hotel_arabic_id : Document :=
  reply "seleccionarHotelPorId"
    [element "seleccionarHotelPorIdResult" EmptyString
       (hotel_fields "٣" "Real de Cuenca" "true")].

(** A reply with a response element and no result element in it. *)
Definition no_result (name : string) : Document := reply name [].

(** A result element with no child record. *)
Definition empty_result : Document :=
  reply "seleccionarHoteles" [leaf "seleccionarHotelesResult" EmptyString].

(** An update whose result element has no text. *)
Definition updated_without_text : Document := result "actualizarHotel" EmptyString.

(** A successful update. *)
Definition updated : Document := result "actualizarHotel" "true".

(** U+00A0, the no-break space. *)
Definition nbsp : string :=
  String (ascii_of_nat 194) (String (ascii_of_nat 160) EmptyString).

(** A removal confirmed with a no-break space before the word. *)
Definition removed_after_nbsp : Document := result "eliminarReserva" (nbsp ++ "true").

(** Two reservations of a user; the second has neither costs nor flags. *)
Definition two_reservas : Document :=
  reply "seleccionarReservasPorUsuario"
    [element "seleccionarReservasPorUsuarioResult" EmptyString
       [element "Reservas" EmptyString
          [leaf "Id" "12"; leaf "UsuarioId" "4"; leaf "Estado" "CONFIRMADA";
           leaf "CostoSubtotal" "120.50"; leaf "CostoFinal" "134.96";
           leaf "EsActivo" "true"];
        element "Reservas" EmptyString [leaf "Id" "13.0"; leaf "UsuarioId" "None"]]].

(** A type of meal plan. *)
Definition tipo_result (name : string) : Document :=
  reply name
    [element (name ++ "Result") EmptyString
       [leaf "Id" "3"; leaf "Nombre" "Balanceado Premium"; leaf "EsActivo" "true"]].

(** A list of spaces with no space in it. *)
Definition no_espacios : Document :=
  reply "seleccionarEspacios" [leaf "seleccionarEspaciosResult" EmptyString].

(** Replies that the adapters of wsEspXRes read as text. *)
Definition bare (name text : string) : Document :=
  (Py.fstring ["<"; name; ">"; text; "</"; name; ">"],
   Elem name (Some text) []).

Definition disponible_padded : Document :=
  (Py.fstring ["<r>"; xml (bare "espacioDisponibleResult" " True "); "</r>"],
   Elem "r" None [tree (bare "espacioDisponibleResult" " True ")]).

(** The replies that the sample parser knows. *)
Definition documents : list Document :=
  [three_hotels; two_matches; hotel_without_id_text; hotel_arabic_id;
   one_bad_hotel "seleccionarHoteles"; one_bad_hotel "buscarHotelPorNombre";
   empty_result; updated; updated_without_text; removed_after_nbsp;
   two_reservas; no_espacios;
   tipo_result "seleccionarPorId"; tipo_result "seleccionarPorNombre";
   no_result "verificarDisponibilidad"; no_result "seleccionarHoteles";
   no_result "seleccionarReservasPorUsuario"; no_result "CancelarReservaIntegracion";
   no_result "seleccionarPorNombre"; no_result "insertarTipo";
   result "insertarHotel" "12a"; result "insertarHotel" "12";
   result "insertarTipo" "-1";
   result "eliminarTipo" "false"; result "eliminarReserva" "true";
   bare "eliminarRelacionResult" "no"; bare "insertarRelacionResult" " 31 ";
   disponible_padded].

(** The sample of [ET.fromstring]: the tree of each reply above, and the
    message of the [ParseError] for three texts that are not XML.  The
    examples hand it no other text. *)
Definition parser (body : string) : string + Element :=
  match find (fun d => (xml d =? body)%string) documents with
  | Some d => inr (tree d)
  | None =>
      if (body =? "<soap:Envelope")%string then inl "unclosed token: line 1, column 0"
      else if (body =? EmptyString)%string then inl "no element found: line 1, column 0"
      else inl "syntax error: line 1, column 0"
  end.

(** The sample of [int()] outside ASCII: the two literals of the examples. *)
Definition int_non_ascii (s : string) : option Z :=
  if (Py.strip s =? EmptyString)%string then None
  else if (s =? "٣")%string then Some 3%Z
  else if (s =? nbsp ++ "12" ++ nbsp)%string then Some 12%Z
  else None.

Definition int_non_ascii_blank (s : string) (H : Py.strip s = EmptyString)
  : int_non_ascii s = None :=
  @eq_ind_r string EmptyString
    (fun t =>
       (if (t =? EmptyString)%string then None
        else if (s =? "٣")%string then Some 3%Z
        else if (s =? nbsp ++ "12" ++ nbsp)%string then Some 12%Z
        else None) = None)
    eq_refl (Py.strip s) H.

(** The sample of the interpreter's tables: [repr] of a text without
    quotes, backslashes or unprintable characters, [lower] of a text whose
    letters are ASCII. *)
Definition tables : Py.Unicode :=
  {| Py.int_non_ascii := int_non_ascii;
     Py.int_non_ascii_blank := int_non_ascii_blank;
     Py.repr := fun s => Py.fstring ["'"; s; "'"];
     Py.lower_non_ascii := Py.lower |}.

(** The sample of [float()]: the literals of the examples. *)
Definition float_table (s : string) : option Float :=
  if (s =? "0")%string then Some (Finite false 0 0)
  else if (s =? "12")%string then Some (Finite false 12 0)
  else if (s =? "4")%string then Some (Finite false 4 0)
  else if (s =? "13.0")%string then Some (Finite false 13 0)
  else if (s =? "120.50")%string then Some (Finite false 241 (-1))
  else if (s =? "134.96")%string then Some (Finite false 4748482857108767 (-45))
  else None.

Definition E : Env :=
  {| fromstring := parser;
     now_isoformat := fun _ => "2025-10-28T12:00:00";
     safe_float_text := fun _ => "0.0";
     float_of_text := float_table;
     float_of_zero := eq_refl;
     unicode := tables |}.

Definition ok (body : string) : Response := {| status_code := 200; text := body |}.

Definition unavailable : Response :=
  {| status_code := 503; text := "Service Unavailable" |}.

(** A remote end that gives the same outcome to every request. *)
Definition always (o : Outcome) : Request -> Outcome := fun _ => o.

Definition hotel_5 : Dict :=
  [("Id", AInt 5); ("Nombre", AStr "Test"); ("EsActivo", ABool true)].



Definition tipo_3 : Dict :=
  [("Id", AInt 3); ("Nombre", AStr "Balanceado Premium");
   ("FechaRegistro", AStr "2025-01-10T08:30:00");
   ("UltimaFechaCambio", AStr "2025-10-28T15:00:00"); ("EsActivo", ABool true)].

Definition relacion : Dict :=
  [("Id", AInt 44); ("ReservaId", AInt 12); ("EspacioId", AInt 7)].


End Sample.

(** ** The views that call the adapters: views.py *)

(** What a view returns: a [JsonResponse] with its payload and status, or
    the 405 of [require_http_methods]. *)
Inductive HttpResponse : Type :=
| JsonResponse (payload : Value) (status : Z)
| HttpResponseNotAllowed (permitted : list string).

Module Views.

(** Going on with the result of an adapter. *)
Definition and_then {A B : Type} (c : Call A) (f : A -> B) : Call B :=
  match c with
  | Done r => Done (f r)
  | Post rq k => Post rq (fun o => f (k o))
  end.

(** [JsonResponse(data, status=status)]: only a dict is accepted. *)
Definition json_response (data : Value) (status : Z) : Exc HttpResponse :=
  match data with
  | VDict _ => inr (JsonResponse data status)
  | _ =>
      inl (TypeError
             "In order to allow non-dict objects to be serialized set the safe parameter to False.")
  end.

(** [resultado[k]] *)
Definition item (resultado : Value) (k : string) : Exc Value :=
  match resultado with
  | VDict entries =>
      match Val.lookup entries k with
      | Some v => inr v
      | None => inl (KeyError k)
      end
  | _ => inl (TypeError "object is not subscriptable")
  end.

(** [request.GET.get(k)] as a request value. *)
Definition param (value : option string) : Atom :=
  match value with
  | None => ANone
  | Some s => AStr s
  end.

(** [int(request.GET.get("espacioId"))] *)
Definition int_param (U : Py.Unicode) (value : option string) : Exc Z :=
  match value with
  | None =>
      inl (TypeError
             "int() argument must be a string, a bytes-like object or a real number, not 'NoneType'")
  | Some s => Val.int U s
  end.

(** [except Exception as ex] of [verificar_disponibilidad] *)
Definition verificar_disponibilidad_handler (ex : PyExn) : HttpResponse :=
  JsonResponse (VDict [("success", VBool false); ("error", VStr (Val.str_exn ex))]) 200.

(** What the view does with the result of the adapter. *)
Definition verificar_disponibilidad_reply (resultado : Value) : Exc HttpResponse :=
  if Val.has_key "error" resultado then
    error <- item resultado "error" ;;
    json_response (VDict [("success", VBool false); ("error", error)]) 200
  else
    espacioId <- item resultado "espacioId" ;;
    disponible <- item resultado "disponible" ;;
    json_response
      (VDict [("success", VBool true); ("espacioId", espacioId);
              ("disponible", disponible)]) 200.

Definition verificar_disponibilidad (E : Env) (GET : string -> option string)
  : Call HttpResponse :=
  match int_param (unicode E) (GET "espacioId") with
  | inl ex => Done (verificar_disponibilidad_handler ex)
  | inr espacio_id =>
      let fecha_inicio := param (GET "fechaInicio") in
      let fecha_fin := param (GET "fechaFin") in
      if negb (forallb Val.truthy [AInt espacio_id; fecha_inicio; fecha_fin]) then
        Done (JsonResponse
                (VDict [("success", VBool false);
                        ("error", VStr "Faltan parámetros requeridos.")]) 200)
      else
        and_then
          (WsIntegracion.verificarDisponibilidad E (AInt espacio_id) fecha_inicio fecha_fin)
          (fun resultado =>
             match verificar_disponibilidad_reply resultado with
             | inl ex => verificar_disponibilidad_handler ex
             | inr response => response
             end)
  end.

Definition api_espacios_listar (E : Env) (method : string) : Call HttpResponse :=
  if negb (method =? "GET")%string then
    Done (JsonResponse
            (VDict [("exito", VBool false); ("mensaje", VStr "Método no permitido.")]) 405)
  else
    and_then (WsEspacios.seleccionarEspacios E)
      (fun resultado =>
         match json_response resultado 200 with
         | inl ex =>
             JsonResponse
               (VDict [("exito", VBool false); ("mensaje", VStr (Val.str_exn ex))]) 200
         | inr response => response
         end).

(** [@require_http_methods(["DELETE"])] answers every other method. *)
Definition api_reservas_eliminar (E : Env) (method : string) (id : Atom)
  : Call HttpResponse :=
  if negb (method =? "DELETE")%string then Done (HttpResponseNotAllowed ["DELETE"])
  else
    and_then (WsReservas.eliminarReserva E id)
      (fun resultado =>
         match json_response resultado 200 with
         | inl ex =>
             JsonResponse
               (VDict [("exito", VBool false); ("error", VStr (Val.str_exn ex))]) 500
         | inr response => response
         end).

End Views.

(** ** Notions that the facts use *)

(** The value of a row of digits read after [acc]. *)
Fixpoint read_uint (d : Decimal.uint) (acc : Z) : Z :=
  match d with
  | Decimal.Nil => acc
  | Decimal.D0 d => read_uint d (10 * acc + 0)
  | Decimal.D1 d => read_uint d (10 * acc + 1)
  | Decimal.D2 d => read_uint d (10 * acc + 2)
  | Decimal.D3 d => read_uint d (10 * acc + 3)
  | Decimal.D4 d => read_uint d (10 * acc + 4)
  | Decimal.D5 d => read_uint d (10 * acc + 5)
  | Decimal.D6 d => read_uint d (10 * acc + 6)
  | Decimal.D7 d => read_uint d (10 * acc + 7)
  | Decimal.D8 d => read_uint d (10 * acc + 8)
  | Decimal.D9 d => read_uint d (10 * acc + 9)
  end%Z.

(** Every character of [s] passes [p]. *)
Fixpoint all_chars (p : ascii -> bool) (s : string) : bool :=
  match s with
  | EmptyString => true
  | String c s' => p c && all_chars p s'
  end.

(** One of the patterns [p1], [p2], [p3] recognises the head of [s]. *)
Definition at_head (p1 : ascii -> bool) (p2 : ascii -> ascii -> bool)
    (p3 : ascii -> ascii -> ascii -> bool) (s : string) : bool :=
  match s with
  | String a (String b (String c _)) => p1 a || p2 a b || p3 a b c
  | String a (String b EmptyString) => p1 a || p2 a b
  | String a EmptyString => p1 a
  | EmptyString => false
  end.

(** Some character of [s] passes [p]. *)
Fixpoint any_char (p : ascii -> bool) (s : string) : bool :=
  match s with
  | EmptyString => false
  | String c s' => p c || any_char p s'
  end.

(** The bytes of visible ASCII: no white space of any script holds one. *)
Definition visible (c : ascii) : bool := ((33 <=? Py.byte c) && (Py.byte c <=? 126))%nat.

(** The four adapters that cut their result out of the raw text. *)
Definition text_adapters (E : Env) (id puntuacion fechaInicio fechaFin : Atom)
    (nuevaRelacion : Dict) : list (Call Value) :=
  [WsEspXRes.espacioDisponible E id fechaInicio fechaFin;
   WsEspXRes.insertarRelacion E nuevaRelacion;
   WsEspXRes.eliminarRelacion E id;
   WsEspXRes.actualizarPuntuacion E id puntuacion].

(** The adapters that take one id and check it. *)
Definition id_adapters (E : Env) (id : Atom) : list (Call Value * string) :=
  [(WsTipoAlimentacion.eliminarTipo E id, Soap.field "tem:id" (Val.str id));
   (WsTipoAlimentacion.reactivarTipo E id, Soap.field "tem:id" (Val.str id));
   (WsEspXRes.eliminarRelacion E id, Soap.field "id" (Val.str id))].

(** The three adapters of wsTipoAlimentacion that answer with a flag, each
    with the name of its result element. *)
Definition tipo_mutators (E : Env) (tipo_editado : Dict) (id_tipo : Atom)
  : list (Call Value * string) :=
  [(WsTipoAlimentacion.actualizarTipo E tipo_editado, "actualizarTipoResult");
   (WsTipoAlimentacion.eliminarTipo E id_tipo, "eliminarTipoResult");
   (WsTipoAlimentacion.reactivarTipo E id_tipo, "reactivarTipoResult")].


(** What the view needs before it calls the adapter. *)
Definition complete_query (U : Py.Unicode) (GET : string -> option string) (n : Z)
    (fi ff : string) : Prop :=
  (exists s, GET "espacioId" = Some s /\ Py.parse_int U s = Some n) /\ n <> 0%Z /\
  (GET "fechaInicio" = Some fi /\ fi <> EmptyString) /\
  (GET "fechaFin" = Some ff /\ ff <> EmptyString).


(** ** Request records with the types of their fields *)

Module Typed.






End Typed.
(** * Facts *)

(** ** Strings *)

Lemma startswith_app (p s : string) : Py.startswith p (p ++ s) = true.
Proof.
  induction p as [|c p IH]; simpl.
  - reflexivity.
  - now rewrite Ascii.eqb_refl.
Qed.

Lemma startswith_app_r (p s t : string) :
  Py.startswith p s = true -> Py.startswith p (s ++ t) = true.
Proof.
  revert s; induction p as [|c p IH]; intros s H.
  - reflexivity.
  - destruct s as [|d s]; simpl in *; [discriminate|].
    apply andb_true_iff in H as [Hc Hp].
    now rewrite Hc, (IH _ Hp).
Qed.

Lemma contains_unfold (p s : string) :
  Py.contains p s =
  Py.startswith p s ||
  match s with
  | EmptyString => false
  | String _ s' => Py.contains p s'
  end.
Proof. destruct s; reflexivity. Qed.

Lemma contains_app_l (a p s : string) :
  Py.contains p s = true -> Py.contains p (a ++ s) = true.
Proof.
  intros H; induction a as [|c a IH]; simpl.
  - exact H.
  - rewrite IH. apply orb_true_r.
Qed.

Lemma contains_app_r (p s t : string) :
  Py.contains p s = true -> Py.contains p (s ++ t) = true.
Proof.
  induction s as [|c s IH]; intros H.
  - simpl in H. rewrite orb_false_r in H.
    destruct p; [|discriminate].
    rewrite contains_unfold. reflexivity.
  - rewrite contains_unfold in H. apply orb_true_iff in H as [H|H].
    + rewrite contains_unfold. now rewrite (startswith_app_r _ _ t H).
    + change (String c s ++ t) with (String c (s ++ t)).
      rewrite contains_unfold, (IH H). apply orb_true_r.
Qed.

Lemma contains_refl (s : string) : Py.contains s s = true.
Proof.
  rewrite contains_unfold.
  replace s with (s ++ EmptyString) at 2.
  - now rewrite startswith_app.
  - induction s as [|c s IH]; simpl; [reflexivity | now rewrite IH].
Qed.

(** A fragment of an f-string occurs in the text it builds. *)
Lemma contains_piece (piece : string) (pieces : list string) :
  In piece pieces -> Py.contains piece (Py.fstring pieces) = true.
Proof.
  induction pieces as [|q pieces IH]; intros Hin; [destruct Hin|].
  destruct Hin as [->|Hin]; simpl.
  - apply contains_app_r, contains_refl.
  - apply contains_app_l, IH, Hin.
Qed.

Lemma caseless_eq_lower (a b : string) :
  caseless_eq a b = (Py.lower a =? Py.lower b)%string.
Proof.
  revert b; induction a as [|x a IH]; intros [|y b]; simpl; try reflexivity.
  rewrite IH. reflexivity.
Qed.

(** Comparing the lowered text with a lower-case word is comparison up to
    case. *)
Lemma lower_eqb_true (s : string) :
  (Py.lower s =? "true")%string = caseless_eq s "true".
Proof. now rewrite caseless_eq_lower. Qed.

(** ** White space *)

Section DropWhile.

Variables (p1 : ascii -> bool) (p2 : ascii -> ascii -> bool)
  (p3 : ascii -> ascii -> ascii -> bool).


Lemma drop_while_fixed (s : string) : at_head p1 p2 p3 s = false -> Py.drop_while p1 p2 p3 s = s.
Proof.
  destruct s as [|a [|b [|c s]]]; simpl; intros Hs.
  - reflexivity.
  - now rewrite Hs.
  - apply orb_false_iff in Hs as [-> ->]. reflexivity.
  - apply orb_false_iff in Hs as [Hs ->]. apply orb_false_iff in Hs as [-> ->].
    reflexivity.
Qed.

Lemma drop_while_cases (s : string) :
  Py.drop_while p1 p2 p3 s = s /\ at_head p1 p2 p3 s = false \/
  exists u v, s = u ++ v /\ u <> EmptyString /\ Py.drop_while p1 p2 p3 s = Py.drop_while p1 p2 p3 v.
Proof.
  destruct s as [|a [|b [|c s]]]; simpl.
  - now left.
  - destruct (p1 a); [right; exists (String a EmptyString), EmptyString; repeat split; discriminate | now left].
  - destruct (p1 a); [right; exists (String a EmptyString), (String b EmptyString); repeat split; discriminate|].
    destruct (p2 a b); [right; exists (String a (String b EmptyString)), EmptyString; repeat split; discriminate|].
    now left.
  - destruct (p1 a);
      [right; exists (String a EmptyString), (String b (String c s)); repeat split; discriminate|].
    destruct (p2 a b);
      [right; exists (String a (String b EmptyString)), (String c s); repeat split; discriminate|].
    destruct (p3 a b c);
      [right; exists (String a (String b (String c EmptyString))), s; repeat split; discriminate|].
    now left.
Qed.

Lemma length_app (u v : string) : String.length (u ++ v) = String.length u + String.length v.
Proof. induction u; simpl; [reflexivity | now rewrite IHu]. Qed.

Lemma drop_while_ind (P : string -> Prop) :
  (forall s, Py.drop_while p1 p2 p3 s = s -> at_head p1 p2 p3 s = false -> P s) ->
  (forall u v, u <> EmptyString -> Py.drop_while p1 p2 p3 (u ++ v) = Py.drop_while p1 p2 p3 v -> P v -> P (u ++ v)) ->
  forall s, P s.
Proof.
  intros Hfix Hstep s.
  remember (String.length s) as n eqn:Hn. revert s Hn.
  induction n as [n IH] using lt_wf_ind. intros s ->.
  destruct (drop_while_cases s) as [[Hs Hh]|(u & v & -> & Hu & Hd)].
  - now apply Hfix.
  - apply Hstep; [assumption..|].
    apply (IH (String.length v)); [|reflexivity].
    rewrite length_app. destruct u; [congruence | simpl; lia].
Qed.

Lemma drop_while_head (s : string) : at_head p1 p2 p3 (Py.drop_while p1 p2 p3 s) = false.
Proof.
  induction s as [s Hs Hh | u v _ Hd IH] using drop_while_ind.
  - now rewrite Hs.
  - now rewrite Hd.
Qed.

Lemma drop_while_idem (s : string) : Py.drop_while p1 p2 p3 (Py.drop_while p1 p2 p3 s) = Py.drop_while p1 p2 p3 s.
Proof. apply drop_while_fixed, drop_while_head. Qed.

Lemma drop_while_suffix (s : string) : exists u, s = u ++ Py.drop_while p1 p2 p3 s.
Proof.
  induction s as [s Hs Hh | u v _ Hd [w IH]] using drop_while_ind.
  - exists EmptyString. now rewrite Hs.
  - exists (u ++ w). rewrite Hd.
    rewrite IH at 1. clear. induction u; simpl; [reflexivity | now rewrite IHu].
Qed.

Lemma at_head_app (x y : string) : at_head p1 p2 p3 x = true -> at_head p1 p2 p3 (x ++ y) = true.
Proof.
  destruct x as [|a [|b [|c x]]]; simpl; intros Hx.
  - discriminate.
  - rewrite Hx. destruct y as [|b [|c y]]; reflexivity.
  - rewrite Hx. destruct y; [reflexivity | apply orb_true_l].
  - exact Hx.
Qed.

End DropWhile.

Lemma append_nil_r (s : string) : s ++ EmptyString = s.
Proof. induction s; simpl; [reflexivity | now rewrite IHs]. Qed.

Lemma append_assoc (a b c : string) : (a ++ b) ++ c = a ++ (b ++ c).
Proof. induction a; simpl; [reflexivity | now rewrite IHa]. Qed.

Lemma rev_app (a b : string) : Py.rev (a ++ b) = Py.rev b ++ Py.rev a.
Proof.
  induction a as [|c a IH]; simpl.
  - now rewrite append_nil_r.
  - now rewrite IH, append_assoc.
Qed.

Lemma rev_involutive (s : string) : Py.rev (Py.rev s) = s.
Proof.
  induction s as [|c s IH]; simpl; [reflexivity|].
  now rewrite rev_app, IH.
Qed.

Lemma lstrip_lstrip (s : string) : Py.lstrip (Py.lstrip s) = Py.lstrip s.
Proof. apply drop_while_idem. Qed.

Lemma rstrip_rstrip (s : string) : Py.rstrip (Py.rstrip s) = Py.rstrip s.
Proof. unfold Py.rstrip. now rewrite rev_involutive, drop_while_idem. Qed.

(** Text without white space at its end has none after [lstrip]. *)
Lemma rstrip_lstrip (t : string) : Py.rstrip t = t -> Py.rstrip (Py.lstrip t) = Py.lstrip t.
Proof.
  intros Ht.
  assert (Hhead : at_head Py.is_space (fun a b => Py.is_space_2 b a)
                    (fun a b c => Py.is_space_3 c b a) (Py.rev t) = false).
  { rewrite <- Ht at 1. unfold Py.rstrip. rewrite rev_involutive. apply drop_while_head. }
  destruct (drop_while_suffix Py.is_space Py.is_space_2 Py.is_space_3 t) as [u Hu].
  fold (Py.lstrip t) in Hu.
  unfold Py.rstrip. rewrite drop_while_fixed; [apply rev_involutive|].
  destruct (at_head _ _ _ (Py.rev (Py.lstrip t))) eqn:Hl; [|reflexivity].
  apply (at_head_app _ _ _ _ (Py.rev u)) in Hl.
  rewrite <- rev_app, <- Hu, Hhead in Hl. discriminate.
Qed.

Lemma strip_strip (s : string) : Py.strip (Py.strip s) = Py.strip s.
Proof.
  unfold Py.strip. rewrite (rstrip_lstrip _ (rstrip_rstrip s)). apply lstrip_lstrip.
Qed.

(** *** Characters that white space does not hold *)

Lemma any_char_app (p : ascii -> bool) (a b : string) :
  any_char p (a ++ b) = any_char p a || any_char p b.
Proof. induction a; simpl; [reflexivity | now rewrite IHa, orb_assoc]. Qed.

Lemma any_char_rev (p : ascii -> bool) (s : string) : any_char p (Py.rev s) = any_char p s.
Proof.
  induction s as [|c s IH]; simpl; [reflexivity|].
  rewrite any_char_app, IH. simpl. rewrite orb_false_r. apply orb_comm.
Qed.

Section Kept.

Variables (p1 : ascii -> bool) (p2 : ascii -> ascii -> bool)
  (p3 : ascii -> ascii -> ascii -> bool) (q : ascii -> bool).

Hypothesis q_1 : forall a, q a = true -> p1 a = false.
Hypothesis q_2 : forall a b, q a = true \/ q b = true -> p2 a b = false.
Hypothesis q_3 : forall a b c, q a = true \/ q b = true \/ q c = true -> p3 a b c = false.

(** A character that no pattern holds stays when the head is dropped. *)
Lemma drop_while_keeps (s : string) :
  any_char q s = true -> any_char q (Py.drop_while p1 p2 p3 s) = true.
Proof.
  remember (String.length s) as n eqn:Hn. revert s Hn.
  induction n as [n IH] using lt_wf_ind. intros s -> Hs.
  destruct s as [|a s1]; [discriminate|].
  cbn [Py.drop_while].
  destruct (p1 a) eqn:H1.
  { apply (IH (String.length s1)); [simpl; lia | reflexivity |].
    simpl in Hs. destruct (q a) eqn:Hq; [|exact Hs].
    rewrite (q_1 _ Hq) in H1. discriminate. }
  destruct s1 as [|b s2]; [exact Hs|].
  destruct (p2 a b) eqn:H2.
  { apply (IH (String.length s2)); [simpl; lia | reflexivity |].
    simpl in Hs. destruct (q a) eqn:Hqa; [rewrite q_2 in H2; [discriminate | now left]|].
    destruct (q b) eqn:Hqb; [rewrite q_2 in H2; [discriminate | now right]|].
    exact Hs. }
  destruct s2 as [|c s3]; [exact Hs|].
  destruct (p3 a b c) eqn:H3; [|exact Hs].
  apply (IH (String.length s3)); [simpl; lia | reflexivity |].
  simpl in Hs.
  destruct (q a) eqn:Hqa; [rewrite q_3 in H3; [discriminate | now left]|].
  destruct (q b) eqn:Hqb; [rewrite q_3 in H3; [discriminate | now (right; left)]|].
  destruct (q c) eqn:Hqc; [rewrite q_3 in H3; [discriminate | now (right; right)]|].
  exact Hs.
Qed.

End Kept.

Lemma visible_not_space (a : ascii) : visible a = true -> Py.is_space a = false.
Proof.
  unfold visible, Py.is_space, Py.byte. intros H.
  apply andb_true_iff in H as [H1 H2].
  apply Nat.leb_le in H1. apply Nat.leb_le in H2.
  apply orb_false_iff; split; apply andb_false_iff.
  - right. apply Nat.leb_gt. lia.
  - right. apply Nat.leb_gt. lia.
Qed.

Lemma visible_not_194 (a : ascii) : visible a = true -> (Py.byte a =? 194)%nat = false.
Proof.
  unfold visible. intros H. apply andb_true_iff in H as [_ H].
  apply Nat.leb_le in H. apply Nat.eqb_neq. lia.
Qed.

Lemma visible_low (a : ascii) (n : nat) :
  visible a = true -> (127 <= n)%nat -> (Py.byte a =? n)%nat = false.
Proof.
  unfold visible. intros H Hn. apply andb_true_iff in H as [_ H].
  apply Nat.leb_le in H. apply Nat.eqb_neq. lia.
Qed.

Lemma visible_not_space_2 (a b : ascii) :
  visible a = true \/ visible b = true -> Py.is_space_2 a b = false.
Proof.
  unfold Py.is_space_2. intros [H|H].
  - now rewrite (visible_low _ 194 H) by lia.
  - rewrite (visible_low _ 133 H), (visible_low _ 160 H) by lia. apply andb_false_r.
Qed.

Lemma visible_not_space_3 (a b c : ascii) :
  visible a = true \/ visible b = true \/ visible c = true -> Py.is_space_3 a b c = false.
Proof.
  unfold Py.is_space_3. intros [H|[H|H]].
  - now rewrite (visible_low _ 225 H), (visible_low _ 226 H), (visible_low _ 227 H) by lia.
  - rewrite (visible_low _ 154 H), (visible_low _ 128 H), (visible_low _ 129 H) by lia.
    now rewrite !andb_false_r.
  - assert (H138 : (128 <=? Py.byte c)%nat = false).
    { unfold visible in H. apply andb_true_iff in H as [_ H]. apply Nat.leb_le in H.
      apply Nat.leb_gt. lia. }
    rewrite (visible_low _ 128 H), (visible_low _ 168 H), (visible_low _ 169 H),
      (visible_low _ 175 H), (visible_low _ 159 H), H138 by lia.
    cbn [andb orb]. now rewrite !andb_false_r.
Qed.

Lemma lstrip_keeps (s : string) :
  any_char visible s = true -> any_char visible (Py.lstrip s) = true.
Proof.
  apply drop_while_keeps.
  - apply visible_not_space.
  - apply visible_not_space_2.
  - apply visible_not_space_3.
Qed.

Lemma rstrip_keeps (s : string) :
  any_char visible s = true -> any_char visible (Py.rstrip s) = true.
Proof.
  intros H. unfold Py.rstrip. rewrite any_char_rev.
  apply drop_while_keeps.
  - apply visible_not_space.
  - intros a b Hab. apply visible_not_space_2. tauto.
  - intros a b c Habc. apply visible_not_space_3. tauto.
  - now rewrite any_char_rev.
Qed.

(** A text with a visible ASCII character is not blank. *)
Lemma strip_keeps (s : string) :
  any_char visible s = true -> any_char visible (Py.strip s) = true.
Proof. intros H. apply lstrip_keeps, rstrip_keeps, H. Qed.

Lemma visible_not_blank (s : string) :
  any_char visible s = true -> Py.strip s <> EmptyString.
Proof. intros H Hs. apply strip_keeps in H. rewrite Hs in H. discriminate. Qed.

(** *** Integer literals *)

Lemma int_lstrip_any (p : ascii -> bool) (s : string) :
  any_char p (Py.int_lstrip s) = true -> any_char p s = true.
Proof.
  induction s as [|c s IH]; simpl; [trivial|].
  destruct (Py.int_space c); [intros H; rewrite (IH H); apply orb_true_r | trivial].
Qed.

Lemma int_rstrip_any (p : ascii -> bool) (s : string) :
  any_char p (Py.int_rstrip s) = true -> any_char p s = true.
Proof.
  induction s as [|c s IH]; simpl; [trivial|].
  destruct (Py.int_rstrip s) as [|d r].
  - destruct (Py.int_space c); simpl; [discriminate|].
    rewrite orb_false_r. now intros ->.
  - intros H. change (p c || any_char p (String d r) = true) in H.
    apply orb_true_iff in H as [->|H]; [reflexivity|].
    rewrite (IH H). apply orb_true_r.
Qed.

Lemma digit_visible (c : ascii) (d : Z) : Py.digit_of c = Some d -> visible c = true.
Proof.
  unfold Py.digit_of, visible, Py.byte.
  destruct ((48 <=? nat_of_ascii c) && (nat_of_ascii c <=? 57))%nat eqn:H; [|discriminate].
  intros _. apply andb_true_iff in H as [H1 H2].
  apply Nat.leb_le in H1. apply Nat.leb_le in H2.
  apply andb_true_iff; split; apply Nat.leb_le; lia.
Qed.

Lemma int_digits_visible (acc z : Z) (s : string) :
  Py.int_digits acc false s = Some z -> any_char visible s = true.
Proof.
  destruct s as [|c s]; simpl; [discriminate|].
  destruct (Py.digit_of c) as [d|] eqn:Hd.
  - intros _. now rewrite (digit_visible _ _ Hd).
  - rewrite andb_false_r. discriminate.
Qed.

(** A literal that [int()] reads has a visible character. *)
Lemma ascii_int_visible (s : string) (z : Z) :
  Py.ascii_int s = Some z -> any_char visible s = true.
Proof.
  unfold Py.ascii_int. intros H.
  apply int_lstrip_any, int_rstrip_any.
  destruct (Py.int_rstrip (Py.int_lstrip s)) as [|c r]; [discriminate|].
  destruct (Ascii.eqb_spec c "+"%char) as [->|Hplus]; [reflexivity|].
  destruct (Ascii.eqb_spec c "-"%char) as [->|Hminus]; [reflexivity|].
  apply (int_digits_visible 0 z).
  destruct c as [[] [] [] [] [] [] [] []]; try exact H; congruence.
Qed.

(** [int()] reads no blank text. *)
Lemma blank_not_int (U : Py.Unicode) (s : string) :
  Py.strip s = EmptyString -> Py.parse_int U s = None.
Proof.
  intros H. unfold Py.parse_int. destruct (Py.is_ascii s).
  - destruct (Py.ascii_int s) as [z|] eqn:Hz; [|reflexivity].
    apply ascii_int_visible, visible_not_blank in Hz. contradiction.
  - now apply Py.int_non_ascii_blank.
Qed.

Lemma visible_is_ascii (s : string) : all_chars visible s = true -> Py.is_ascii s = true.
Proof.
  induction s as [|c s IH]; simpl; [reflexivity|].
  intros H. apply andb_true_iff in H as [Hc Hs]. rewrite (IH Hs), andb_true_r.
  unfold visible in Hc. apply andb_true_iff in Hc as [_ Hc].
  apply Nat.leb_le in Hc. apply Nat.ltb_lt. lia.
Qed.

Lemma visible_not_int_space (c : ascii) : visible c = true -> Py.int_space c = false.
Proof.
  unfold visible, Py.int_space, Py.byte. intros H.
  apply andb_true_iff in H as [H1 H2].
  apply Nat.leb_le in H1. apply Nat.leb_le in H2.
  apply orb_false_iff; split.
  - apply andb_false_iff. right. apply Nat.leb_gt. lia.
  - apply Nat.eqb_neq. lia.
Qed.

Lemma int_lstrip_visible (s : string) : all_chars visible s = true -> Py.int_lstrip s = s.
Proof.
  destruct s as [|c s]; simpl; [reflexivity|].
  intros H. apply andb_true_iff in H as [Hc _].
  now rewrite (visible_not_int_space _ Hc).
Qed.

Lemma int_rstrip_visible (s : string) : all_chars visible s = true -> Py.int_rstrip s = s.
Proof.
  induction s as [|c s IH]; simpl; [reflexivity|].
  intros H. apply andb_true_iff in H as [Hc Hs].
  rewrite (IH Hs), (visible_not_int_space _ Hc). destruct s; reflexivity.
Qed.

Lemma all_any (p : ascii -> bool) (c : ascii) (s : string) :
  all_chars p (String c s) = true -> any_char p (String c s) = true.
Proof. simpl. intros H. apply andb_true_iff in H as [-> _]. reflexivity. Qed.

Lemma int_digits_string_of_uint (d : Decimal.uint) (acc : Z) :
  Py.int_digits acc true (NilEmpty.string_of_uint d) = Some (read_uint d acc).
Proof.
  revert acc; induction d; intros acc; simpl; try reflexivity; apply IHd.
Qed.

Lemma int_digits_first (d : Decimal.uint) :
  d <> Decimal.Nil ->
  Py.int_digits 0 false (NilEmpty.string_of_uint d) = Some (read_uint d 0).
Proof.
  destruct d; intros H; try congruence; simpl; apply int_digits_string_of_uint.
Qed.

Lemma read_uint_pos (d : Decimal.uint) (p : positive) :
  read_uint d (Z.pos p) = Z.pos (Pos.of_uint_acc d p).
Proof.
  revert p; induction d; intros p; cbn [read_uint Pos.of_uint_acc]; try reflexivity;
    rewrite <- IHd; f_equal; rewrite Pos2Z.inj_add, Pos2Z.inj_mul; lia.
Qed.

Lemma read_uint_0 (d : Decimal.uint) : read_uint d 0 = Z.of_N (Pos.of_uint d).
Proof.
  induction d; simpl; try reflexivity; try exact IHd;
    match goal with |- read_uint _ ?z = _ => change z with (Z.pos (Z.to_pos z)) end;
    rewrite read_uint_pos; reflexivity.
Qed.

Lemma read_to_uint (p : positive) : read_uint (Pos.to_uint p) 0 = Z.pos p.
Proof. rewrite read_uint_0, DecimalPos.Unsigned.of_to. reflexivity. Qed.

Lemma string_of_uint_visible (d : Decimal.uint) :
  all_chars visible (NilEmpty.string_of_uint d) = true.
Proof. induction d; simpl; auto. Qed.

Lemma string_of_uint_nilzero (d : Decimal.uint) :
  d <> Decimal.Nil -> NilZero.string_of_uint d = NilEmpty.string_of_uint d.
Proof. destruct d; try reflexivity; congruence. Qed.

Lemma string_of_uint_digit (d : Decimal.uint) :
  d <> Decimal.Nil ->
  exists c s, NilEmpty.string_of_uint d = String c s /\ c <> "+"%char /\ c <> "-"%char.
Proof.
  destruct d; intros H; try congruence; simpl; eexists; eexists; split;
    try reflexivity; split; discriminate.
Qed.

(** The text of an integer is visible ASCII. *)
Lemma decimal_visible (z : Z) : all_chars visible (Py.decimal z) = true.
Proof.
  unfold Py.decimal. destruct z as [|p|p]; [reflexivity| |].
  - change (NilZero.string_of_int (Z.to_int (Z.pos p)))
      with (NilZero.string_of_uint (Pos.to_uint p)).
    rewrite string_of_uint_nilzero by apply DecimalPos.Unsigned.to_uint_nonnil.
    apply string_of_uint_visible.
  - change (NilZero.string_of_int (Z.to_int (Z.neg p)))
      with (String "-" (NilZero.string_of_uint (Pos.to_uint p))).
    rewrite string_of_uint_nilzero by apply DecimalPos.Unsigned.to_uint_nonnil.
    simpl. apply string_of_uint_visible.
Qed.

Lemma ascii_int_decimal (z : Z) : Py.ascii_int (Py.decimal z) = Some z.
Proof.
  unfold Py.ascii_int.
  rewrite (int_lstrip_visible _ (decimal_visible z)),
    (int_rstrip_visible _ (decimal_visible z)).
  unfold Py.decimal. destruct z as [|p|p]; [reflexivity| |].
  - change (NilZero.string_of_int (Z.to_int (Z.pos p)))
      with (NilZero.string_of_uint (Pos.to_uint p)).
    pose proof (DecimalPos.Unsigned.to_uint_nonnil p) as Hn.
    rewrite (string_of_uint_nilzero _ Hn).
    destruct (string_of_uint_digit _ Hn) as (c & s & Hcs & Hplus & Hminus).
    transitivity (Py.int_digits 0 false (NilEmpty.string_of_uint (Pos.to_uint p))).
    + rewrite Hcs.
      destruct c as [[] [] [] [] [] [] [] []]; try reflexivity; congruence.
    + rewrite (int_digits_first _ Hn), read_to_uint. reflexivity.
  - change (NilZero.string_of_int (Z.to_int (Z.neg p)))
      with (String "-" (NilZero.string_of_uint (Pos.to_uint p))).
    pose proof (DecimalPos.Unsigned.to_uint_nonnil p) as Hn.
    rewrite (string_of_uint_nilzero _ Hn).
    rewrite (int_digits_first _ Hn), read_to_uint. reflexivity.
Qed.

(** [int(str(z))] is [z]. *)
Lemma parse_int_decimal (U : Py.Unicode) (z : Z) : Py.parse_int U (Py.decimal z) = Some z.
Proof.
  unfold Py.parse_int.
  rewrite (visible_is_ascii _ (decimal_visible z)). apply ascii_int_decimal.
Qed.

Lemma int_decimal (U : Py.Unicode) (z : Z) : Val.int U (Py.decimal z) = inr z.
Proof. unfold Val.int. now rewrite parse_int_decimal. Qed.

Lemma decimal_not_blank (z : Z) : (Py.strip (Py.decimal z) =? EmptyString)%string = false.
Proof.
  destruct (String.eqb_spec (Py.strip (Py.decimal z)) EmptyString) as [H|H]; [|reflexivity].
  exfalso. revert H. apply visible_not_blank, (ascii_int_visible _ z), ascii_int_decimal.
Qed.

(** ** The shape of an adapter *)

(** Unfolding the part of an adapter after its POST, and before it. *)
Ltac unfold_after :=
  unfold WsHotel.actualizarHotel_after, WsHotel.buscarHotelPorNombre_after,
    WsHotel.eliminarHotel_after, WsHotel.insertarHotel_after,
    WsHotel.seleccionarHotelPorId_after, WsHotel.seleccionarHoteles_after,
    WsTipoAlimentacion.actualizarTipo_after, WsTipoAlimentacion.eliminarTipo_after,
    WsTipoAlimentacion.insertarTipo_after, WsTipoAlimentacion.reactivarTipo_after,
    WsTipoAlimentacion.seleccionarInactivos_after,
    WsTipoAlimentacion.seleccionarPorId_after,
    WsTipoAlimentacion.seleccionarPorNombre_after,
    WsEspXRes.insertarRelacion_after, WsEspXRes.espacioDisponible_after,
    WsEspXRes.eliminarRelacion_after, WsEspXRes.actualizarPuntuacion_after,
    WsReservas.seleccionarReservasPorUsuario_after,
    WsReservas.eliminarReserva_after, WsEspacios.actualizarEspacio_after,
    WsEspacios.seleccionarEspacios_after, WsAmenidades.eliminarAmenidad_after,
    WsIntegracion.verificarDisponibilidad_after,
    WsIntegracion.cancelarReservaIntegracion_after, Http.parse.

Ltac unfold_before :=
  unfold WsHotel.actualizarHotel_before, WsHotel.buscarHotelPorNombre_before,
    WsHotel.eliminarHotel_before, WsHotel.insertarHotel_before,
    WsHotel.seleccionarHotelPorId_before,
    WsTipoAlimentacion.actualizarTipo_before, WsTipoAlimentacion.eliminarTipo_before,
    WsTipoAlimentacion.insertarTipo_before, WsTipoAlimentacion.reactivarTipo_before,
    WsEspXRes.insertarRelacion_before, WsEspXRes.espacioDisponible_before,
    WsEspXRes.eliminarRelacion_before, WsEspXRes.actualizarPuntuacion_before,
    WsAmenidades.eliminarAmenidad_before,
    WsIntegracion.cancelarReservaIntegracion_before, Http.send, Http.early.

(** Case analysis on every test that stands in the goal. *)
Ltac split_guards :=
  repeat match goal with
         | |- context [match ?x with _ => _ end] => destruct x
         end.

(** Every adapter is its body under its handler. *)
Lemma call_try_post (E : Env) (op : Op) :
  call E op = Http.try_post (before E op) (after E op) (handler op).
Proof. destruct op; reflexivity. Qed.

Lemma handler_caught (op : Op) (ex : PyExn) : handler op ex = caught op ex.
Proof. destruct op; try reflexivity; destruct ex; reflexivity. Qed.

Lemma try_post_inv (b : Exc (Value + Request)) (a : Response -> Exc Value)
    (h : PyExn -> Value) (rq : Request) (k : Outcome -> Value) :
  Http.try_post b a h = Post rq k ->
  b = inr (inr rq) /\
  k = (fun o =>
         match (response <- Http.receive o ;; a response) with
         | inl ex => h ex
         | inr v => v
         end).
Proof.
  unfold Http.try_post. destruct b as [ex|[v|rq']]; intros H; try discriminate.
  inversion H. split; reflexivity.
Qed.

(** Once the request is out, a status other than 200 ends the adapter. *)
Lemma after_non_200 (E : Env) (op : Op) (r : Response) :
  status_code r <> 200%Z -> after E op r = inr (non_200_result op r).
Proof.
  intros H. apply Z.eqb_neq in H.
  destruct op; simpl; unfold_after; rewrite H; reflexivity.
Qed.

Lemma call_reply (E : Env) (op : Op) (rq : Request) (k : Outcome -> Value) (r : Response) :
  call E op = Post rq k ->
  k (Replied r) =
  match after E op r with
  | inl ex => caught op ex
  | inr v => v
  end.
Proof.
  rewrite call_try_post. intros H. apply try_post_inv in H as [_ ->]. simpl.
  destruct (after E op r); [apply handler_caught | reflexivity].
Qed.

Lemma call_unreachable (E : Env) (op : Op) (rq : Request) (k : Outcome -> Value)
    (cause : string) :
  call E op = Post rq k -> k (Unreachable cause) = caught op (RequestException cause).
Proof.
  rewrite call_try_post. intros H. apply try_post_inv in H as [_ ->]. simpl.
  apply handler_caught.
Qed.

Lemma http_error_reports (r : Response) : reports_http_failure (Http.http_error r) r.
Proof.
  repeat split.
  - change (Py.contains (Py.decimal (status_code r))
              (Py.fstring ["HTTP "; Py.decimal (status_code r)])
            || (Py.contains (Py.decimal (status_code r)) (text r) || false) = true).
    rewrite contains_piece; [reflexivity | simpl; tauto].
  - change (Py.contains (text r) (Py.fstring ["HTTP "; Py.decimal (status_code r)])
            || (Py.contains (text r) (text r) || false) = true).
    rewrite contains_refl. now rewrite orb_true_r.
Qed.

Lemma error_of_reports (ex : PyExn) :
  reports_transport_failure (Http.error_of ex) (Val.str_exn ex).
Proof.
  split; [reflexivity|].
  change (Py.contains (Val.str_exn ex) (Val.str_exn ex) || false = true).
  now rewrite contains_refl.
Qed.

(** ** C1: a status other than 200 *)

(** C1, as stated, fails: when the service answers 503, [seleccionarInactivos]
    of wsTipoAlimentacion returns the empty list, which is no failure value
    and carries neither the status nor the body. *)
Lemma C1_counterexample_seleccionarInactivos :
  ~ reports_http_failure
      (Http.run (Sample.always (Replied Sample.unavailable))
         (call Sample.E TipoAlimentacionSeleccionarInactivos))
      Sample.unavailable.
Proof. intros [H _]. vm_compute in H. discriminate. Qed.

(** C1 (amended): once an adapter has sent its request and the status of the
    reply is not 200, the adapter returns at once, without parsing the body:
    [{"error": "HTTP <status>", "detalle": <body>}] in the adapters whose
    failures are error dicts, and there the value is a failure value carrying
    status and body; the empty list or [None] in the reads of
    wsTipoAlimentacion; [{"exito": False, "mensaje": "Error HTTP <status>"}],
    without the body, in [seleccionarEspacios]. *)
Theorem C1_non_200_reply (E : Env) (op : Op) (rq : Request) (k : Outcome -> Value)
    (r : Response) :
  call E op = Post rq k ->
  status_code r <> 200%Z ->
  k (Replied r) = non_200_result op r /\
  (error_style op = true -> reports_http_failure (k (Replied r)) r).
Proof.
  intros Hcall Hstatus.
  assert (Hk : k (Replied r) = non_200_result op r).
  { rewrite (call_reply _ _ _ _ _ Hcall), (after_non_200 _ _ _ Hstatus). reflexivity. }
  split; [exact Hk|].
  intros Hstyle. rewrite Hk. unfold non_200_result. unfold error_style in Hstyle.
  destruct (style op); try discriminate Hstyle; apply http_error_reports.
Qed.

Lemma C1_non_200_reply_witness :
  status_code Sample.unavailable <> 200%Z /\
  Http.run (Sample.always (Replied Sample.unavailable))
    (call Sample.E (EliminarHotel (AInt 3)))
  = VDict [("error", VStr "HTTP 503"); ("detalle", VStr "Service Unavailable")].
Proof.
  split; [discriminate|].
  exact (proj1 (C1_non_200_reply Sample.E (EliminarHotel (AInt 3)) _ _
                  Sample.unavailable eq_refl ltac:(discriminate))).
Defined.

(** ** C2: the service cannot be reached *)

Lemma mentions_refl (s : string) (entries : list (string * Value)) (key : string) :
  Val.lookup entries key = Some (VStr s) -> Val.mentions s (VDict entries) = true.
Proof.
  induction entries as [|[k v] entries IH]; cbn [Val.lookup]; [discriminate|].
  intros H. apply orb_true_iff.
  destruct (k =? key)%string.
  - left. inversion H. apply contains_refl.
  - right. exact (IH H).
Qed.

(** C2, as stated, fails: when the POST times out, [seleccionarInactivos] of
    wsTipoAlimentacion returns the empty list, which is no failure value and
    does not carry the cause. *)
Lemma C2_counterexample_seleccionarInactivos :
  ~ reports_transport_failure
      (Http.run (Sample.always (Unreachable "Read timed out."))
         (call Sample.E TipoAlimentacionSeleccionarInactivos))
      "Read timed out.".
Proof. intros [H _]. vm_compute in H. discriminate. Qed.

(** C2 (amended): when the POST of an adapter raises, the adapter returns
    [{"error": <cause>}] in the adapters of the error-dict style,
    [{"error": "Error de conexión con el servicio SOAP.", "detalle": <cause>}]
    in [insertarTipo], both failure values that carry the cause, and
    [{"exito": False, "mensaje": "Error al consultar los espacios: <cause>"}],
    which carries the cause without the failure marker, in
    [seleccionarEspacios]; [seleccionarInactivos] returns the empty list and
    [seleccionarPorId] and [seleccionarPorNombre] return [None]. *)
Theorem C2_unreachable (E : Env) (op : Op) (rq : Request) (k : Outcome -> Value)
    (cause : string) :
  call E op = Post rq k ->
  match style op with
  | ErrorDict =>
      k (Unreachable cause) = VDict [("error", VStr cause)] /\
      reports_transport_failure (k (Unreachable cause)) cause
  | ErrorDetalle =>
      k (Unreachable cause)
      = VDict [("error", VStr "Error de conexión con el servicio SOAP.");
               ("detalle", VStr cause)] /\
      reports_transport_failure (k (Unreachable cause)) cause
  | ExitoFalse =>
      k (Unreachable cause)
      = VDict [("exito", VBool false);
               ("mensaje",
                VStr (Py.fstring ["Error al consultar los espacios: "; cause]))] /\
      Val.is_failure (k (Unreachable cause)) = false /\
      Val.mentions cause (k (Unreachable cause)) = true
  | EmptyList => k (Unreachable cause) = VList []
  | NoneResult => k (Unreachable cause) = VNone
  end.
Proof.
  intros Hcall.
  assert (Hk := call_unreachable _ _ _ _ cause Hcall).
  rewrite Hk. unfold caught.
  destruct (style op); try reflexivity.
  - split; [reflexivity|]. apply (error_of_reports (RequestException cause)).
  - split; [reflexivity|]. split; [reflexivity|].
    apply (mentions_refl _ _ "detalle"). reflexivity.
  - split; [reflexivity|]. split; [reflexivity|].
    change (false || (Py.contains cause
              (Py.fstring ["Error al consultar los espacios: "; cause]) || false) = true).
    rewrite contains_piece; [reflexivity | simpl; tauto].
Qed.

Lemma C2_unreachable_witness :
  Http.run (Sample.always (Unreachable "Read timed out."))
    (call Sample.E (ActualizarHotel Sample.hotel_5))
  = VDict [("error", VStr "Read timed out.")].
Proof.
  exact (proj1 (C2_unreachable Sample.E (ActualizarHotel Sample.hotel_5) _ _
                  "Read timed out." eq_refl)).
Defined.

(** ** C3: no exception leaves an adapter *)






(** ** C4: the records of a list *)

Lemma hotel_of_inr (U : Py.Unicode) (node : Element) (h : Value) :
  WsHotel.hotel_of U node = inr h ->
  WsHotel.item_int h "Id" = inr (hotel_id h).
Proof.
  unfold WsHotel.hotel_of. simpl.
  destruct (Val.int U (ET.findtext (ET.tem "Id") "0" node)) as [ex|id]; simpl.
  - discriminate.
  - intros H. inversion H. reflexivity.
Qed.






(** ** C5: fields with a default *)





(** ** C6: a reply without its result node *)




(** ** C7: the fields of a request *)

Lemma contains_in_envelope (piece : string) (head lines : list string) :
  In piece lines -> Py.contains piece (Py.fstring (head ++ lines)) = true.
Proof. intros H. apply contains_piece, in_or_app. now right. Qed.

Ltac find_piece := cbn [In]; repeat first [left; reflexivity | right].





(** ** C8: boolean fields of a reply *)

Lemma lower_eqb_caseless (s word : string) :
  Py.lower word = word -> (Py.lower s =? word)%string = caseless_eq s word.
Proof. intros H. rewrite caseless_eq_lower, H. reflexivity. Qed.

Lemma item_found (d : Dict) (key : string) :
  Val.mem key d = true -> exists a, Val.item d key = inr a.
Proof.
  unfold Val.mem, Val.item. destruct (Val.get d key); [eauto | discriminate].
Qed.

(** What the request of an adapter tells about its record. *)
Lemma sent_record (E : Env) (op : Op) (rq : Request) :
  before E op = inr (inr rq) ->
  match op with
  | ActualizarHotel hotel => exists nombre, Val.item hotel "Nombre" = inr nombre
  | ActualizarTipo tipo_editado => exists id, Val.item tipo_editado "Id" = inr id
  | _ => True
  end.
Proof.
  destruct op; try exact (fun _ => I); simpl.
  - unfold WsHotel.actualizarHotel_before, Val.item.
    destruct (Val.get hotel "Id") as [id|]; [|discriminate].
    destruct (Val.rejected_id id); [discriminate|].
    destruct (Val.get hotel "Nombre") as [nombre|]; [eauto | discriminate].
  - unfold WsTipoAlimentacion.actualizarTipo_before.
    destruct (WsTipoAlimentacion.has_required_keys tipo_editado) eqn:Hkeys; [|discriminate].
    intros _. apply item_found.
    unfold WsTipoAlimentacion.has_required_keys in Hkeys. simpl in Hkeys.
    now apply andb_true_iff in Hkeys as [-> _].
Qed.

(** C8, as stated, fails: the [safe_bool] of the integration adapters, which
    decodes [BreakfastIncluded] in [cotizarReserva] and [EsActivo] in
    [buscarServicios], reads the text [1] as true. *)
Lemma C8_counterexample_safe_bool :
  ~ (WsIntegracion.safe_bool "1" = caseless_eq "1" "true").
Proof. vm_compute. discriminate. Qed.

(** C8 (amended): the record decoders of wsHotel and of
    [seleccionarReservasPorUsuario] read a flag as true exactly when its text
    equals [true] up to case.  [safe_bool] of wsReservas and of wsEspacios,
    the record decoder of [seleccionarEspacios], the adapters that read a
    boolean result element from the parsed reply and those of wsEspXRes that
    cut it out of the raw text first remove the surrounding white space, of
    every script.  [safe_bool] of the integration adapters also reads [1] and
    [yes] (up to case) as true.  The decoder of wsTipoAlimentacion does not
    decode its flag: it returns the text of [EsActivo] as it is. *)
Theorem C8_boolean_decoding (E : Env) (node : Element) (s : string) :
  (forall h,
     WsHotel.hotel_of (unicode E) node = inr h ->
     Val.field "EsActivo" h
     = Some (VBool (caseless_eq (ET.findtext (ET.tem "EsActivo") "false" node) "true"))) /\
  (Val.field "EsActivo" (WsReservas.reserva_of E node)
   = Some (VBool (caseless_eq (ET.findtext (ET.tem "EsActivo") "false" node) "true")) /\
   Val.field "EsBloqueada" (WsReservas.reserva_of E node)
   = Some (VBool (caseless_eq (ET.findtext (ET.tem "EsBloqueada") "false" node) "true"))) /\
  (Val.field "EsActivo" (WsEspacios.espacio_of node)
   = Some (VBool (caseless_eq
                    (Py.strip (ET.findtext (ET.tem "EsActivo") "false" node)) "true")) /\
   Val.field "EsBloqueada" (WsEspacios.espacio_of node)
   = Some (VBool (caseless_eq
                    (Py.strip (ET.findtext (ET.tem "EsBloqueada") "false" node)) "true"))) /\
  (forall child,
     ET.find (ET.tem "EsActivo") node = Some child ->
     ET.text child = Some s ->
     Val.field "esActivo" (WsTipoAlimentacion.tipo_of node) = Some (VStr s)) /\
  WsReservas.safe_bool (Some s) = caseless_eq (Py.strip s) "true" /\
  WsEspacios.safe_bool s = caseless_eq (Py.strip s) "true" /\
  WsIntegracion.safe_bool s
  = (caseless_eq (Py.strip s) "true" || caseless_eq (Py.strip s) "1"
     || caseless_eq (Py.strip s) "yes")%bool /\
  (forall op rq k r root tag key result,
     call E op = Post rq k ->
     status_code r = 200%Z ->
     fromstring E (text r) = inr root ->
     result_tag op = Some tag ->
     flag_key op = Some key ->
     ET.find_deep (ET.tem tag) root = Some result ->
     ET.text result = Some s ->
     Val.field key (k (Replied r)) = Some (VBool (caseless_eq (Py.strip s) "true"))) /\
  (forall op rq k r tag key,
     call E op = Post rq k ->
     status_code r = 200%Z ->
     raw_tag op = Some tag ->
     flag_key op = Some key ->
     Py.contains (Py.fstring ["<"; tag; ">"]) (text r) = true ->
     Py.split_1 (Py.fstring ["<"; tag; ">"]) (text r) = Some s ->
     Val.field key (k (Replied r))
     = Some (VBool (caseless_eq (Py.strip (Py.split_0 (Py.fstring ["</"; tag; ">"]) s))
                      "true"))).
Proof.
  split; [|split; [|split; [|split; [|split; [|split; [|split; [|split]]]]]]].
  - intros h. unfold WsHotel.hotel_of.
    destruct (Val.int (unicode E) (ET.findtext (ET.tem "Id") "0" node)) as [ex|id]; simpl.
    + discriminate.
    + intros H. inversion H. simpl. now rewrite lower_eqb_true.
  - unfold WsReservas.reserva_of.
    cbn [Val.field Val.lookup String.eqb Ascii.eqb Bool.eqb].
    now rewrite !lower_eqb_true.
  - unfold WsEspacios.espacio_of, WsEspacios.safe_bool.
    cbn [Val.field Val.lookup String.eqb Ascii.eqb Bool.eqb].
    now rewrite !lower_eqb_true.
  - intros child Hchild Htext. unfold WsTipoAlimentacion.tipo_of, ET.text_or_none.
    cbn [Val.field Val.lookup String.eqb Ascii.eqb Bool.eqb].
    now rewrite Hchild, Htext.
  - unfold WsReservas.safe_bool. apply lower_eqb_true.
  - unfold WsEspacios.safe_bool. apply lower_eqb_true.
  - unfold WsIntegracion.safe_bool.
    now rewrite !lower_eqb_caseless by reflexivity.
  - intros op rq k r root tag key result Hcall Hstatus Hparse Htag Hkey Hfind Htext.
    rewrite (call_reply _ _ _ _ _ Hcall).
    rewrite call_try_post in Hcall. apply try_post_inv in Hcall as [Hbefore _].
    apply sent_record in Hbefore.
    destruct op; try discriminate Hkey; try discriminate Htag;
      simpl in Htag, Hkey; inversion Htag; inversion Hkey; subst tag key;
      simpl; unfold_after; rewrite Hstatus, Hparse;
      cbn [negb Z.eqb Pos.eqb bind Monad_either]; rewrite Hfind, Htext;
      cbn [Val.strip_opt bind Monad_either]; rewrite lower_eqb_true;
      try match type of Hbefore with ex _ => destruct Hbefore as [a ->] end;
      cbn [bind Monad_either];
      destruct (caseless_eq (Py.strip s) "true"); reflexivity.
  - intros op rq k r tag key Hcall Hstatus Htag Hkey Hfound Hpiece.
    rewrite (call_reply _ _ _ _ _ Hcall).
    destruct op; try discriminate Hkey; try discriminate Htag;
      simpl in Htag, Hkey; inversion Htag; inversion Hkey; subst tag key;
      simpl; unfold_after; rewrite Hstatus;
      cbn [negb Z.eqb Pos.eqb];
      change (Py.fstring ["<"; ?t; ">"]) with (String "<" (t ++ ">")) in Hfound, Hpiece.
    all: simpl in Hfound, Hpiece; simpl; rewrite Hfound, Hpiece; cbn [negb];
      rewrite lower_eqb_true;
      destruct (caseless_eq _ "true"); reflexivity.
Qed.

Lemma C8_boolean_decoding_witness :
  Val.field "eliminado"
    (Http.run (Sample.always (Replied (Sample.ok (Sample.xml Sample.removed_after_nbsp))))
       (call Sample.E (EliminarReserva (AInt 12))))
  = Some (VBool true).
Proof.
  exact (proj1 (proj2 (proj2 (proj2 (proj2 (proj2 (proj2 (proj2
           (C8_boolean_decoding Sample.E (Elem "e" None []) (Sample.nbsp ++ "true")))))))))
           (EliminarReserva (AInt 12)) _ _ (Sample.ok (Sample.xml Sample.removed_after_nbsp))
           (Sample.tree Sample.removed_after_nbsp) "eliminarReservaResult" "eliminado"
           (Sample.tree (Sample.leaf "eliminarReservaResult" (Sample.nbsp ++ "true")))
           eq_refl eq_refl eq_refl eq_refl eq_refl eq_refl eq_refl).
Defined.

(** ** C9: the timeout of the POST *)

Lemma before_timeout (E : Env) (op : Op) (rq : Request) :
  before E op = inr (inr rq) -> timeout rq = timeout_of op.
Proof.
  destruct op; simpl; unfold_before;
    try (intros H; inversion H; reflexivity);
    cbn [bind Monad_either]; split_guards;
    intros H; inversion H; reflexivity.
Qed.

Lemma sent_before (E : Env) (op : Op) :
  Http.sent (call E op) =
  match before E op with
  | inr (inr rq) => [rq]
  | _ => []
  end.
Proof.
  rewrite call_try_post. unfold Http.try_post.
  destruct (before E op) as [ex|[v|rq]]; reflexivity.
Qed.

(** C9, as stated, fails: [seleccionarInactivos] of wsTipoAlimentacion posts
    with a timeout of 15 seconds. *)
Lemma C9_counterexample_seleccionarInactivos :
  ~ Forall (fun rq => timeout rq = 30%Z)
      (Http.sent (call Sample.E TipoAlimentacionSeleccionarInactivos)).
Proof. intros H. inversion H as [|rq rest Hrq _]. discriminate Hrq. Qed.

(** C9 (amended): every request that one of these adapters sends has the
    timeout written at the adapter's call of [requests.post]: 15 seconds in
    the three reads of wsTipoAlimentacion ([seleccionarInactivos],
    [seleccionarPorId], [seleccionarPorNombre]), 30 seconds in all the
    others. *)
Theorem C9_timeout (E : Env) (op : Op) (rq : Request) :
  In rq (Http.sent (call E op)) ->
  timeout rq = timeout_of op /\
  ((op = TipoAlimentacionSeleccionarInactivos \/
    (exists id, op = TipoAlimentacionSeleccionarPorId id) \/
    (exists nombre, op = TipoAlimentacionSeleccionarPorNombre nombre)) /\
   timeout rq = 15%Z
   \/
   (op <> TipoAlimentacionSeleccionarInactivos /\
    (forall id, op <> TipoAlimentacionSeleccionarPorId id) /\
    (forall nombre, op <> TipoAlimentacionSeleccionarPorNombre nombre)) /\
   timeout rq = 30%Z).
Proof.
  rewrite sent_before. intros Hin.
  assert (H : timeout rq = timeout_of op).
  { destruct (before E op) as [ex|[v|rq']] eqn:Hbefore; simpl in Hin;
      try contradiction.
    destruct Hin as [<-|[]]. now apply (before_timeout E). }
  split; [exact H|]. rewrite H.
  destruct op; simpl;
    first [ left; split; [|reflexivity];
            first [now left | right; left; now eexists | right; right; now eexists]
          | right; split; [|reflexivity]; repeat split; try intros ?; discriminate ].
Qed.

Lemma C9_timeout_witness :
  Forall (fun rq => timeout rq = 30%Z)
    (Http.sent (call Sample.E (ActualizarHotel Sample.hotel_5))) /\
  Forall (fun rq => timeout rq = 15%Z)
    (Http.sent (call Sample.E (TipoAlimentacionSeleccionarPorNombre (AStr "Vegano")))).
Proof.
  split; (constructor; [|constructor]).
  - exact (proj1 (C9_timeout Sample.E (ActualizarHotel Sample.hotel_5) _
                    (or_introl eq_refl))).
  - exact (proj1 (C9_timeout Sample.E
                    (TipoAlimentacionSeleccionarPorNombre (AStr "Vegano")) _
                    (or_introl eq_refl))).
Defined.

(** ** C10: the guard on an id *)




(** ** Worked replies *)

(** The three hotels of a listing come back unfiltered, the inactive one
    included. *)
Example seleccionarHoteles_three_hotels :
  Http.run (Sample.always (Replied (Sample.ok (Sample.xml Sample.three_hotels))))
    (call Sample.E SeleccionarHoteles)
  = VDict [("exito", VBool true);
           ("hoteles", VList [Sample.hotel_value 1 "Real de Cuenca" true;
                              Sample.hotel_value 2 "Los Andes" false;
                              Sample.hotel_value 3 "El Dorado" true]);
           ("mensaje", VStr "Hoteles obtenidos correctamente.")].
Proof. reflexivity. Qed.

(** A boolean result element without text: [result_node.text] is [None],
    [.strip()] raises, and the handler reports the [AttributeError]. *)
Example actualizarHotel_result_without_text :
  Http.run (Sample.always (Replied (Sample.ok (Sample.xml Sample.updated_without_text))))
    (call Sample.E (ActualizarHotel Sample.hotel_5))
  = VDict [("error", VStr "'NoneType' object has no attribute 'strip'")].
Proof. reflexivity. Qed.

(** A string id passes [not amenidad_id] and fails at [amenidad_id <= 0]:
    no request is sent and the handler reports the [TypeError]. *)
Example eliminarAmenidad_string_id :
  call Sample.E (EliminarAmenidad (AStr "7"))
  = Done (VDict [("error",
                  VStr "'<=' not supported between instances of 'str' and 'int'")]).
Proof. reflexivity. Qed.

(** The float 2.5 passes the guard of [eliminarAmenidad] and is sent. *)
Example eliminarAmenidad_float_id :
  map (fun rq => Py.contains "<tem:id>2.5</tem:id>" (data rq))
    (Http.sent (call Sample.E (EliminarAmenidad (AFloat (Finite false 5 (-1)) "2.5"))))
  = [true].
Proof. reflexivity. Qed.

(** [True] is an [int]: the guard of [eliminarHotel] lets it through and
    the request carries the text [True]. *)
Example eliminarHotel_true_id :
  map (fun rq => Py.contains "<tem:id>True</tem:id>" (data rq))
    (Http.sent (call Sample.E (EliminarHotel (ABool true)))) = [true].
Proof. reflexivity. Qed.

(** [espacioDisponible] cuts its result out of the raw text of the reply. *)
Example espacioDisponible_raw_text :
  Http.run
    (Sample.always (Replied (Sample.ok (Sample.xml Sample.disponible_padded))))
    (call Sample.E
       (EspacioDisponible (AInt 3) (AStr "2025-11-01T00:00:00") (AStr "2025-11-03T00:00:00")))
  = VDict [("exito", VBool true); ("disponible", VBool true);
           ("mensaje", VStr "El espacio está disponible para las fechas indicadas.")].
Proof. reflexivity. Qed.

(** [int()] on ASCII text, as the decoders use it: the separators 28 to 31
    are white space for [strip()] and not for [int()]. *)
Example parse_int_examples :
  map (Py.parse_int Sample.tables)
    [" 12 "; "-7"; "+7"; "1_000"; "00012"; EmptyString; "12a"; "1__0"; "_1"; "1_"; "1.0";
     "+ 1"; "1 2"; String (ascii_of_nat 31) "12"]
  = [Some 12%Z; Some (-7)%Z; Some 7%Z; Some 1000%Z; Some 12%Z; None; None; None; None; None;
     None; None; None; None].
Proof. reflexivity. Qed.

(** [strip()] removes the white space of every script. *)
Example strip_examples :
  map Py.strip
    [" Suite "; Sample.nbsp ++ "true" ++ Sample.nbsp; String (ascii_of_nat 31) "12";
     "a b"; Sample.nbsp]
  = ["Suite"; "true"; "12"; "a b"; EmptyString].
Proof. reflexivity. Qed.

(** An [Id] written with a digit of another script is read by [int()]. *)
Example seleccionarHotelPorId_arabic_id :
  Val.field "hotel"
    (Http.run (Sample.always (Replied (Sample.ok (Sample.xml Sample.hotel_arabic_id))))
       (call Sample.E (SeleccionarHotelPorId (AInt 3))))
  = Some (Sample.hotel_value 3 "Real de Cuenca" true).
Proof. reflexivity. Qed.

(** The reservations of a user: numbers go through [float()], and what is
    not a number, or is left out, is the default. *)
Example seleccionarReservasPorUsuario_two_reservas :
  Http.run (Sample.always (Replied (Sample.ok (Sample.xml Sample.two_reservas))))
    (call Sample.E (SeleccionarReservasPorUsuario (AInt 4)))
  = VDict
      [("reservas",
        VList
          [VDict [("Id", VInt 12); ("UsuarioId", VInt 4); ("UsuarioExternoId", VInt 0);
                  ("Estado", VStr "CONFIRMADA"); ("Comentarios", VStr EmptyString);
                  ("CostoSubtotal", VFloat (Finite false 241 (-1)));
                  ("CostoIVA", VFloat (Finite false 0 0));
                  ("CostoFinal", VFloat (Finite false 4748482857108767 (-45)));
                  ("MinutosRetencion", VInt 0); ("ExpiraEn", VInt 0);
                  ("EsBloqueada", VBool false); ("TokenSesion", VStr EmptyString);
                  ("FechaRegistro", VStr EmptyString);
                  ("UltimaFechaCambio", VStr EmptyString); ("EsActivo", VBool true)];
           VDict [("Id", VInt 13); ("UsuarioId", VInt 0); ("UsuarioExternoId", VInt 0);
                  ("Estado", VStr EmptyString); ("Comentarios", VStr EmptyString);
                  ("CostoSubtotal", VFloat (Finite false 0 0));
                  ("CostoIVA", VFloat (Finite false 0 0));
                  ("CostoFinal", VFloat (Finite false 0 0));
                  ("MinutosRetencion", VInt 0); ("ExpiraEn", VInt 0);
                  ("EsBloqueada", VBool false); ("TokenSesion", VStr EmptyString);
                  ("FechaRegistro", VStr EmptyString);
                  ("UltimaFechaCambio", VStr EmptyString); ("EsActivo", VBool false)]]);
       ("total", VInt 2);
       ("mensaje", VStr "Se encontraron 2 reservas del usuario.")].
Proof. reflexivity. Qed.

(** * Further facts *)

(** ** Integers and text *)

(** X1: the text that [str] writes for an integer is read back as that
    integer by [int] and by every [safe_int] helper (wsReservas, both
    definitions; wsEspacios; the integration module; wsPagos), whatever
    the default. *)
Theorem safe_int_reads_decimal (U : Py.Unicode) (z default : Z) :
  Val.int U (Py.decimal z) = inr z /\
  WsReservas.safe_int U (Some (Py.decimal z)) = z /\
  WsReservas.safe_int_shadowed U (Some (Py.decimal z)) default = z /\
  WsEspacios.safe_int U (AStr (Py.decimal z)) = z /\
  WsIntegracion.safe_int U (Py.decimal z) = z /\
  WsPagos.safe_int U (Some (Py.decimal z)) default = z.
Proof.
  unfold WsReservas.safe_int, WsReservas.safe_int_shadowed, WsEspacios.safe_int,
    WsIntegracion.safe_int, WsPagos.safe_int.
  rewrite decimal_not_blank, int_decimal. repeat split; reflexivity.
Qed.

(** X2: on every text the [safe_int] helpers of the four modules return
    the same integer, and the first definition of wsReservas, which the
    second one replaces, agrees with it at the default 0; on [None] the
    helpers that take it return 0. *)
Theorem safe_int_helpers_agree (U : Py.Unicode) (s : string) :
  WsReservas.safe_int_shadowed U (Some s) 0 = WsReservas.safe_int U (Some s) /\
  WsEspacios.safe_int U (AStr s) = WsReservas.safe_int U (Some s) /\
  WsIntegracion.safe_int U s = WsReservas.safe_int U (Some s) /\
  WsPagos.safe_int U (Some s) 0 = WsReservas.safe_int U (Some s) /\
  WsReservas.safe_int_shadowed U None 0 = WsReservas.safe_int U None /\
  WsPagos.safe_int U None 0 = WsReservas.safe_int U None.
Proof.
  unfold WsReservas.safe_int, WsReservas.safe_int_shadowed, WsEspacios.safe_int,
    WsIntegracion.safe_int, WsPagos.safe_int.
  assert (H : (if (Py.strip s =? EmptyString)%string then 0%Z
               else match Val.int U s with inr z => z | inl _ => 0%Z end)
              = match Val.int U s with inr z => z | inl _ => 0%Z end).
  { destruct (String.eqb_spec (Py.strip s) EmptyString) as [Hb|Hb]; [|reflexivity].
    unfold Val.int. now rewrite (blank_not_int U _ Hb). }
  rewrite H. repeat split; reflexivity.
Qed.

(** X3: a flag written for the service is read back as the same flag:
    [bool_str] and [safe_bool] of wsReservas (on the truth value of any
    request value), the lowered [str] of a boolean and [safe_bool] of
    wsEspacios, and the lowered [str] of a boolean and the comparison with
    true that [hotel_of] makes. *)
Theorem flags_round_trip (U : Py.Unicode) (a : Atom) (b : bool) :
  WsReservas.safe_bool (Some (WsReservas.bool_str a)) = Val.truthy a /\
  WsEspacios.safe_bool (Py.lower_any U (Val.str (ABool b))) = b /\
  (Py.lower (Py.lower_any U (Val.str (ABool b))) =? "true")%string = b.
Proof.
  unfold WsReservas.bool_str.
  destruct (Val.truthy a), b; repeat split; reflexivity.
Qed.

(** X4: the text helpers of wsEspacios normalise once and for all:
    [safe_text] and [safe_str] are idempotent, [safe_str] keeps a text that
    [safe_text] returned (a record read by [seleccionarEspacios] is written
    back unchanged by [actualizarEspacio]), and [safe_bool] does not see
    surrounding white space. *)
Theorem text_fields_are_normal (s : string) :
  WsEspacios.safe_text (WsEspacios.safe_text s) = WsEspacios.safe_text s /\
  WsEspacios.safe_str (AStr (WsEspacios.safe_text s)) = WsEspacios.safe_text s /\
  WsEspacios.safe_str (AStr (WsEspacios.safe_str (AStr s))) = WsEspacios.safe_str (AStr s) /\
  WsEspacios.safe_bool (Py.strip s) = WsEspacios.safe_bool s.
Proof.
  unfold WsEspacios.safe_text, WsEspacios.safe_str, WsEspacios.safe_bool, Val.str.
  rewrite !strip_strip.
  destruct (String.eqb_spec s EmptyString) as [->|Hs]; [repeat split; reflexivity|].
  destruct (String.eqb_spec (Py.strip s) EmptyString) as [Hb|Hb].
  - rewrite Hb. repeat split; reflexivity.
  - rewrite strip_strip. repeat split; reflexivity.
Qed.


(** ** Replies read as text *)

Lemma partition_found (sep s : string) :
  Py.contains sep s = true -> snd (Py.partition sep s) <> None.
Proof.
  induction s as [|c s IH]; intros H.
  - simpl in H. rewrite orb_false_r in H. simpl. rewrite H. discriminate.
  - rewrite contains_unfold in H.
    change (Py.partition sep (String c s))
      with (if Py.startswith sep (String c s)
            then (EmptyString, Some (Py.drop (String.length sep) (String c s)))
            else let '(before, after) := Py.partition sep s in (String c before, after)).
    destruct (Py.startswith sep (String c s)); [discriminate|].
    simpl in H. specialize (IH H).
    destruct (Py.partition sep s) as [b a]. exact IH.
Qed.

Lemma split_1_found (sep s : string) :
  Py.contains sep s = true -> exists piece, Py.split_1 sep s = Some piece.
Proof.
  intros H. apply partition_found in H. unfold Py.split_1.
  destruct (snd (Py.partition sep s)); [eauto | contradiction].
Qed.


(** X5: the four adapters that cut their result out of the raw text
    ([espacioDisponible], [insertarRelacion], [eliminarRelacion],
    [actualizarPuntuacion]) answer every reply of status 200 with a dict
    that has the key exito and no key error: the indexing of the split text
    never raises. *)
Theorem text_adapters_answer_200 (E : Env) (id puntuacion fechaInicio fechaFin : Atom)
    (nuevaRelacion : Dict) (c : Call Value) (rq : Request) (k : Outcome -> Value)
    (r : Response) :
  In c (text_adapters E id puntuacion fechaInicio fechaFin nuevaRelacion) ->
  c = Post rq k ->
  status_code r = 200%Z ->
  Val.has_key "exito" (k (Replied r)) = true /\ Val.is_failure (k (Replied r)) = false.
Proof.
  intros Hin Hc Hs.
  assert (H200 : negb (status_code r =? 200)%Z = false) by (now rewrite Hs).
  simpl in Hin.
  destruct Hin as [<-|[<-|[<-|[<-|[]]]]];
    apply try_post_inv in Hc as [_ ->]; simpl;
    unfold WsEspXRes.espacioDisponible_after, WsEspXRes.insertarRelacion_after,
      WsEspXRes.eliminarRelacion_after, WsEspXRes.actualizarPuntuacion_after;
    rewrite H200;
    match goal with
    | |- context [Py.contains ?sep (text r)] =>
        destruct (Py.contains sep (text r)) eqn:Hfound;
        [destruct (split_1_found _ _ Hfound) as [piece ->] | split; reflexivity]
    end; cbn [negb].
  - split; reflexivity.
  - destruct (Py.parse_int _) as [n|]; [|split; reflexivity].
    destruct (negb (n =? 0)%Z && (n >? 0)%Z); split; reflexivity.
  - split; reflexivity.
  - split; reflexivity.
Qed.

Lemma text_adapters_answer_200_witness :
  Val.has_key "exito"
    (Http.run
       (Sample.always
          (Replied (Sample.ok "<eliminarRelacionResult>no</eliminarRelacionResult>")))
       (WsEspXRes.eliminarRelacion Sample.E (AInt 7))) = true /\
  Val.is_failure
    (Http.run
       (Sample.always
          (Replied (Sample.ok "<eliminarRelacionResult>no</eliminarRelacionResult>")))
       (WsEspXRes.eliminarRelacion Sample.E (AInt 7))) = false.
Proof.
  exact (text_adapters_answer_200 Sample.E (AInt 7) (AInt 5) (AStr "2025-11-01")
           (AStr "2025-11-03") Sample.relacion _ _ _
           (Sample.ok "<eliminarRelacionResult>no</eliminarRelacionResult>")
           (or_intror (or_intror (or_introl eq_refl))) eq_refl eq_refl).
Defined.


(** ** Guards of the further adapters *)

Lemma rejected_id_false (a : Atom) :
  Val.rejected_id a = false <-> Val.isinstance_int a = true /\ (0 < Val.int_of a)%Z.
Proof.
  unfold Val.rejected_id. rewrite orb_false_iff, negb_false_iff, Z.leb_gt. reflexivity.
Qed.

Lemma rejected_puntuacion_false (a : Atom) :
  WsEspXRes.rejected_puntuacion a = false <->
  Val.isinstance_int a = true /\ (0 <= Val.int_of a <= 5)%Z.
Proof.
  unfold WsEspXRes.rejected_puntuacion.
  rewrite orb_false_iff, !negb_false_iff, andb_true_iff, !Z.leb_le. tauto.
Qed.

(** X6: [actualizarPuntuacion] sends a request exactly when the id is an
    [int] above 0 and the score an [int] from 0 to 5 (0 included, and a
    [bool] counts as an [int]); the request then names both values and has
    a timeout of 30 seconds. *)
Theorem actualizarPuntuacion_sends (E : Env) (idRelacion puntuacion : Atom) :
  (Http.sent (WsEspXRes.actualizarPuntuacion E idRelacion puntuacion) <> [] <->
   Val.isinstance_int idRelacion = true /\ (0 < Val.int_of idRelacion)%Z /\
   Val.isinstance_int puntuacion = true /\ (0 <= Val.int_of puntuacion <= 5)%Z) /\
  (forall rq, In rq (Http.sent (WsEspXRes.actualizarPuntuacion E idRelacion puntuacion)) ->
     Py.contains (Soap.field "idRelacion" (Val.str idRelacion)) (data rq) = true /\
     Py.contains (Soap.field "puntuacion" (Val.str puntuacion)) (data rq) = true /\
     timeout rq = 30%Z).
Proof.
  unfold WsEspXRes.actualizarPuntuacion, WsEspXRes.actualizarPuntuacion_before.
  pose proof (rejected_id_false idRelacion) as Hid.
  pose proof (rejected_puntuacion_false puntuacion) as Hp.
  destruct (Val.rejected_id idRelacion); [|destruct (WsEspXRes.rejected_puntuacion puntuacion)];
    simpl; split.
  - split; [congruence|]. intros [H1 [H2 _]]. assert (true = false) by (apply Hid; tauto).
    discriminate.
  - intros rq [].
  - split; [congruence|]. intros [_ [_ H]]. assert (true = false) by (apply Hp; tauto).
    discriminate.
  - intros rq [].
  - split; [|discriminate]. intros _.
    destruct Hid as [Hid _], Hp as [Hp _]. specialize (Hid eq_refl). specialize (Hp eq_refl).
    tauto.
  - intros rq [<-|[]]. cbn [data timeout]. unfold WsEspXRes.actualizarPuntuacion_body.
    repeat split; apply contains_in_envelope; find_piece.
Qed.

Lemma actualizarPuntuacion_sends_witness :
  exists rq,
    Http.sent (WsEspXRes.actualizarPuntuacion Sample.E (ABool true) (AInt 0)) = [rq] /\
    Py.contains (Soap.field "idRelacion" "True") (data rq) = true /\
    Py.contains (Soap.field "puntuacion" "0") (data rq) = true /\
    timeout rq = 30%Z.
Proof.
  eexists. split; [reflexivity|].
  apply (proj2 (actualizarPuntuacion_sends Sample.E (ABool true) (AInt 0))).
  left. reflexivity.
Defined.


(** X7: [eliminarTipo], [reactivarTipo] and [eliminarRelacion] send a
    request exactly when the id is an [int] above 0; the request carries the
    id in its field and a timeout of 30 seconds; otherwise the adapter
    returns a dict with the one key error. *)
Theorem id_adapters_send (E : Env) (id : Atom) (c : Call Value) (line : string) :
  In (c, line) (id_adapters E id) ->
  (Http.sent c <> [] <-> Val.isinstance_int id = true /\ (0 < Val.int_of id)%Z) /\
  (forall rq, In rq (Http.sent c) ->
     Py.contains line (data rq) = true /\ timeout rq = 30%Z) /\
  (Http.sent c = [] -> exists msg, c = Done (VDict [("error", VStr msg)])).
Proof.
  intros Hin. simpl in Hin.
  pose proof (rejected_id_false id) as Hid.
  destruct Hin as [H|[H|[H|[]]]]; injection H as <- <-;
    unfold WsTipoAlimentacion.eliminarTipo, WsTipoAlimentacion.eliminarTipo_before,
      WsTipoAlimentacion.reactivarTipo, WsTipoAlimentacion.reactivarTipo_before,
      WsEspXRes.eliminarRelacion, WsEspXRes.eliminarRelacion_before;
    destruct (Val.rejected_id id); simpl;
    (split; [|split]);
    try (split; [congruence|]; intros Hok; assert (true = false) by (apply Hid; exact Hok);
         discriminate);
    try (intros rq Hrq; exact (False_ind _ Hrq));
    try (intros _; eexists; reflexivity);
    try (split; [intros _; apply Hid; reflexivity | discriminate]);
    try discriminate.
  - intros rq [<-|[]]. cbn [data timeout]. unfold WsTipoAlimentacion.eliminarTipo_body.
    split; [apply contains_in_envelope; find_piece | reflexivity].
  - intros rq [<-|[]]. cbn [data timeout]. unfold WsTipoAlimentacion.reactivarTipo_body.
    split; [apply contains_in_envelope; find_piece | reflexivity].
  - intros rq [<-|[]]. cbn [data timeout]. unfold WsEspXRes.eliminarRelacion_body.
    split; [apply contains_in_envelope; find_piece | reflexivity].
Qed.

Lemma id_adapters_send_witness :
  exists rq,
    Http.sent (WsTipoAlimentacion.reactivarTipo Sample.E (AInt 3)) = [rq] /\
    Py.contains (Soap.field "tem:id" "3") (data rq) = true /\
    timeout rq = 30%Z.
Proof.
  eexists. split; [reflexivity|].
  apply (proj1 (proj2 (id_adapters_send Sample.E (AInt 3) _ _
                         (or_intror (or_introl eq_refl))))).
  left. reflexivity.
Defined.


(** ** Inserting a relation, a hotel, a type *)
















Lemma required_keys_items (d : Dict) :
  WsTipoAlimentacion.has_required_keys d = true ->
  exists id nombre fecha_registro ultima_fecha_cambio es_activo,
    Val.get d "Id" = Some id /\ Val.get d "Nombre" = Some nombre /\
    Val.get d "FechaRegistro" = Some fecha_registro /\
    Val.get d "UltimaFechaCambio" = Some ultima_fecha_cambio /\
    Val.get d "EsActivo" = Some es_activo.
Proof.
  intros H. unfold WsTipoAlimentacion.has_required_keys, WsTipoAlimentacion.required_keys in H.
  cbn [forallb] in H. unfold Val.mem in H.
  destruct (Val.get d "Id") as [id|]; [|discriminate].
  destruct (Val.get d "Nombre") as [nombre|]; [|discriminate].
  destruct (Val.get d "FechaRegistro") as [fr|]; [|discriminate].
  destruct (Val.get d "UltimaFechaCambio") as [uf|]; [|discriminate].
  destruct (Val.get d "EsActivo") as [ea|]; [|discriminate].
  repeat eexists.
Qed.










Lemma actualizarTipo_before_inv (d : Dict) (rq : Request) :
  WsTipoAlimentacion.actualizarTipo_before d = inr (inr rq) ->
  exists id, Val.get d "Id" = Some id.
Proof.
  unfold WsTipoAlimentacion.actualizarTipo_before.
  destruct (WsTipoAlimentacion.has_required_keys d) eqn:Hk; [|discriminate].
  destruct (required_keys_items d Hk) as (id & nombre & fr & uf & ea & H1 & _).
  eauto.
Qed.

(** X15: [actualizarTipo], [eliminarTipo] and [reactivarTipo] on a parsed
    reply of status 200: without the result element both exito and
    resultado are false; with a result element that has no text the result
    is an error dict; with text, exito is true whatever the service
    answered, and resultado says whether the stripped text is true up to
    case. *)
Theorem tipo_mutators_reply (E : Env) (tipo_editado : Dict) (id_tipo : Atom)
    (c : Call Value) (name : string) (rq : Request) (k : Outcome -> Value)
    (r : Response) (root : Element) :
  In (c, name) (tipo_mutators E tipo_editado id_tipo) ->
  c = Post rq k ->
  status_code r = 200%Z ->
  fromstring E (text r) = inr root ->
  match ET.find_deep (ET.tem name) root with
  | None =>
      Val.field "exito" (k (Replied r)) = Some (VBool false) /\
      Val.field "resultado" (k (Replied r)) = Some (VBool false)
  | Some result_node =>
      match ET.text result_node with
      | None => Val.is_failure (k (Replied r)) = true
      | Some t =>
          Val.field "exito" (k (Replied r)) = Some (VBool true) /\
          Val.field "resultado" (k (Replied r))
          = Some (VBool (caseless_eq (Py.strip t) "true"))
      end
  end.
Proof.
  intros Hin Hc Hs Hroot. simpl in Hin.
  destruct Hin as [H|[H|[H|[]]]]; injection H as <- <-;
    apply try_post_inv in Hc as [Hb ->]; simpl;
    unfold WsTipoAlimentacion.actualizarTipo_after, WsTipoAlimentacion.eliminarTipo_after,
      WsTipoAlimentacion.reactivarTipo_after, Http.parse, Val.item;
    rewrite Hs, Hroot; cbn [Z.eqb Pos.eqb negb bind Monad_either];
    match goal with
    | |- context [ET.find_deep ?name root] =>
        destruct (ET.find_deep name root) as [result_node|]; [|split; reflexivity]
    end;
    (destruct (ET.text result_node) as [t|]; [|reflexivity]);
    cbn [Val.strip_opt bind Monad_either]; rewrite <- lower_eqb_true.
  - destruct (actualizarTipo_before_inv _ _ Hb) as (id & ->).
    split; reflexivity.
  - split; reflexivity.
  - split; reflexivity.
Qed.

Lemma tipo_mutators_reply_witness :
  Val.field "exito"
    (Http.run
       (Sample.always (Replied (Sample.ok (Sample.xml (Sample.result "eliminarTipo" "false")))))
       (WsTipoAlimentacion.eliminarTipo Sample.E (AInt 3)))
  = Some (VBool true) /\
  Val.field "resultado"
    (Http.run
       (Sample.always (Replied (Sample.ok (Sample.xml (Sample.result "eliminarTipo" "false")))))
       (WsTipoAlimentacion.eliminarTipo Sample.E (AInt 3)))
  = Some (VBool false).
Proof.
  exact (tipo_mutators_reply Sample.E Sample.tipo_3 (AInt 3) _ _ _ _
           (Sample.ok (Sample.xml (Sample.result "eliminarTipo" "false"))) _
           (or_intror (or_introl eq_refl)) eq_refl eq_refl eq_refl).
Defined.


(** ** Lists with a record that cannot be decoded *)






Lemma buscarHotelPorNombre_loop_fails (U : Py.Unicode) (nodes : list Element) (acc : list Value) :
  Exists (fun node => exists ex, WsHotel.hotel_of U node = inl ex) nodes ->
  exists ex, WsHotel.buscarHotelPorNombre_loop U nodes acc = inl ex.
Proof.
  intros H. revert acc. induction H as [node rest [ex Hex]|node rest _ IH]; intros acc.
  - exists ex. cbn [WsHotel.buscarHotelPorNombre_loop]. rewrite Hex. reflexivity.
  - cbn [WsHotel.buscarHotelPorNombre_loop].
    destruct (WsHotel.hotel_of U node) as [ex|hotel] eqn:Hh; [exists ex; reflexivity|].
    cbn [bind Monad_either]. rewrite (hotel_of_inr _ _ _ Hh).
    destruct (hotel_id hotel >? 0)%Z; apply IH.
Qed.

(** X17: [buscarHotelPorNombre] decodes its records without a [try] of
    their own: as soon as one node of the result does not decode, the whole
    result is an error dict and no list of hotels is returned. *)
Theorem buscarHotelPorNombre_fails_on_bad_record (E : Env) (nombre : Atom) (rq : Request)
    (k : Outcome -> Value) (r : Response) (root result_node : Element) :
  WsHotel.buscarHotelPorNombre E nombre = Post rq k ->
  status_code r = 200%Z ->
  fromstring E (text r) = inr root ->
  ET.find_deep (ET.tem "buscarHotelPorNombreResult") root = Some result_node ->
  Exists (fun node => exists ex, WsHotel.hotel_of (unicode E) node = inl ex)
    (ET.findall (ET.tem "Hotel") result_node) ->
  Val.is_failure (k (Replied r)) = true /\
  Val.field "hoteles" (k (Replied r)) = None.
Proof.
  intros Hc Hs Hroot Hnode Hbad.
  apply try_post_inv in Hc as [_ ->]. simpl.
  unfold WsHotel.buscarHotelPorNombre_after, Http.parse.
  rewrite Hs, Hroot. cbn [Z.eqb Pos.eqb negb bind Monad_either]. rewrite Hnode.
  destruct (buscarHotelPorNombre_loop_fails _ _ [] Hbad) as [ex ->].
  split; reflexivity.
Qed.

Lemma buscarHotelPorNombre_fails_on_bad_record_witness :
  Val.is_failure
    (Http.run
       (Sample.always
          (Replied (Sample.ok (Sample.xml (Sample.one_bad_hotel "buscarHotelPorNombre")))))
       (WsHotel.buscarHotelPorNombre Sample.E (AStr "a")))
  = true.
Proof.
  refine (proj1
           (buscarHotelPorNombre_fails_on_bad_record Sample.E (AStr "a") _ _
              (Sample.ok (Sample.xml (Sample.one_bad_hotel "buscarHotelPorNombre"))) _ _
              eq_refl eq_refl eq_refl eq_refl _)).
  apply Exists_cons_tl, Exists_cons_hd. eexists. reflexivity.
Defined.


(** ** The views *)

Lemma run_and_then {A B : Type} (remote : Request -> Outcome) (c : Call A) (f : A -> B) :
  Http.run remote (Views.and_then c f) = f (Http.run remote c).
Proof. destruct c; reflexivity. Qed.


Lemma seleccionarEspacios_run (E : Env) (remote : Request -> Outcome) :
  exists entries,
    Http.run remote (WsEspacios.seleccionarEspacios E) = VDict entries /\
    (exists exito, Val.lookup entries "exito" = Some (VBool exito)) /\
    (exists mensaje, Val.lookup entries "mensaje" = Some (VStr mensaje)) /\
    Val.lookup entries "error" = None.
Proof.
  unfold WsEspacios.seleccionarEspacios, Http.try_post, Http.send, Http.run.
  destruct (remote WsEspacios.seleccionarEspacios_request) as [r|cause];
    [|eexists; repeat split; try (eexists; reflexivity); reflexivity].
  cbn [Http.receive bind Monad_either].
  unfold WsEspacios.seleccionarEspacios_after, Http.parse.
  destruct (negb (status_code r =? 200)%Z);
    [eexists; repeat split; try (eexists; reflexivity); reflexivity|].
  destruct (fromstring E (text r)) as [msg|root];
    [eexists; repeat split; try (eexists; reflexivity); reflexivity|].
  cbn [bind Monad_either].
  destruct (ET.find_deep (ET.tem "seleccionarEspaciosResult") root) as [result_node|];
    [|eexists; repeat split; try (eexists; reflexivity); reflexivity].
  destruct (map WsEspacios.espacio_of (ET.findall (ET.tem "Espacios") result_node));
    eexists; repeat split; try (eexists; reflexivity); reflexivity.
Qed.

(** X18: the view [api_espacios_listar] answers a GET with the dict of
    [seleccionarEspacios] and status 200, and every other method with
    status 405 without calling the adapter; its payload always has the keys
    exito and mensaje and never the key error, whatever the service
    does. *)
Theorem api_espacios_listar_payload (E : Env) (remote : Request -> Outcome) (method : string) :
  (method = "GET" ->
   Http.run remote (Views.api_espacios_listar E method)
   = JsonResponse (Http.run remote (WsEspacios.seleccionarEspacios E)) 200) /\
  (method <> "GET" ->
   Views.api_espacios_listar E method
   = Done (JsonResponse
             (VDict [("exito", VBool false); ("mensaje", VStr "Método no permitido.")]) 405)) /\
  (exists payload status,
     Http.run remote (Views.api_espacios_listar E method) = JsonResponse payload status /\
     Val.has_key "exito" payload = true /\
     Val.has_key "mensaje" payload = true /\
     Val.is_failure payload = false).
Proof.
  unfold Views.api_espacios_listar.
  destruct (String.eqb_spec method "GET") as [->|Hm]; cbn [negb].
  - rewrite run_and_then.
    destruct (seleccionarEspacios_run E remote) as (entries & -> & [e He] & [m Hm] & Herr).
    split; [|split].
    + reflexivity.
    + congruence.
    + exists (VDict entries), 200%Z. unfold Val.is_failure, Val.has_key.
      rewrite He, Hm, Herr. repeat split.
  - split; [|split].
    + contradiction.
    + reflexivity.
    + eexists; eexists. repeat split.
Qed.

Lemma api_espacios_listar_payload_witness :
  Views.api_espacios_listar Sample.E "POST"
  = Done (JsonResponse
            (VDict [("exito", VBool false); ("mensaje", VStr "Método no permitido.")]) 405).
Proof.
  apply (proj1 (proj2 (api_espacios_listar_payload Sample.E
                         (Sample.always (Replied Sample.unavailable)) "POST"))).
  discriminate.
Defined.

Lemma eliminarReserva_run (E : Env) (reserva_id : Atom) (remote : Request -> Outcome) :
  exists entries, Http.run remote (WsReservas.eliminarReserva E reserva_id) = VDict entries.
Proof.
  unfold WsReservas.eliminarReserva, Http.try_post, Http.send, Http.run.
  destruct (remote (WsReservas.eliminarReserva_request reserva_id)) as [r|cause];
    [|eexists; reflexivity].
  cbn [Http.receive bind Monad_either].
  unfold WsReservas.eliminarReserva_after, Http.parse.
  destruct (negb (status_code r =? 200)%Z); [eexists; reflexivity|].
  destruct (fromstring E (text r)) as [msg|root]; [eexists; reflexivity|].
  cbn [bind Monad_either].
  destruct (ET.find_deep (ET.tem "eliminarReservaResult") root) as [result_node|];
    [|eexists; reflexivity].
  destruct (ET.text result_node) as [t|]; [|eexists; reflexivity].
  cbn [Val.strip_opt bind Monad_either].
  destruct (Py.lower (Py.strip t) =? "true")%string; eexists; reflexivity.
Qed.

(** X19: the view [api_reservas_eliminar] answers a DELETE with the dict
    of [eliminarReserva] and status 200, also when that dict reports a
    failure; every other method gets the 405 of [require_http_methods]; the
    status 500 of its handler never occurs. *)
Theorem api_reservas_eliminar_status (E : Env) (id : Atom) (remote : Request -> Outcome)
    (method : string) :
  (method = "DELETE" ->
   Http.run remote (Views.api_reservas_eliminar E method id)
   = JsonResponse (Http.run remote (WsReservas.eliminarReserva E id)) 200) /\
  (method <> "DELETE" ->
   Views.api_reservas_eliminar E method id = Done (HttpResponseNotAllowed ["DELETE"])) /\
  (forall payload,
     Http.run remote (Views.api_reservas_eliminar E method id) <> JsonResponse payload 500).
Proof.
  unfold Views.api_reservas_eliminar.
  destruct (String.eqb_spec method "DELETE") as [->|Hm]; cbn [negb].
  - rewrite run_and_then.
    destruct (eliminarReserva_run E id remote) as (entries & ->).
    split; [|split]; [reflexivity | congruence | discriminate].
  - split; [|split]; [contradiction | reflexivity | discriminate].
Qed.

Lemma api_reservas_eliminar_status_witness :
  Http.run (Sample.always (Replied Sample.unavailable))
    (Views.api_reservas_eliminar Sample.E "DELETE" (AInt 5))
  = JsonResponse (Http.http_error Sample.unavailable) 200.
Proof.
  exact (proj1 (api_reservas_eliminar_status Sample.E (AInt 5)
                  (Sample.always (Replied Sample.unavailable)) "DELETE") eq_refl).
Defined.


Lemma truthy_param (value : option string) :
  Val.truthy (Views.param value) = true <-> exists s, value = Some s /\ s <> EmptyString.
Proof.
  destruct value as [s|]; simpl.
  - rewrite negb_true_iff. split.
    + intros H. exists s. split; [reflexivity|]. now apply String.eqb_neq.
    + intros (s' & Hs & Hne). inversion Hs. subst. now apply String.eqb_neq.
  - split; [discriminate | intros (s & Hs & _); discriminate].
Qed.


Lemma verificar_disponibilidad_complete (E : Env) (GET : string -> option string)
    (n : Z) (fi ff : string) :
  complete_query (unicode E) GET n fi ff ->
  Views.verificar_disponibilidad E GET
  = Views.and_then
      (WsIntegracion.verificarDisponibilidad E (AInt n) (AStr fi) (AStr ff))
      (fun resultado =>
         match Views.verificar_disponibilidad_reply resultado with
         | inl ex => Views.verificar_disponibilidad_handler ex
         | inr response => response
         end).
Proof.
  intros ((s & Hs & Hn) & Hn0 & (Hfi & Hfine) & (Hff & Hffne)).
  unfold Views.verificar_disponibilidad, Views.int_param, Val.int.
  rewrite Hs, Hn, Hfi, Hff. cbn [forallb Views.param Val.truthy].
  apply Z.eqb_neq in Hn0. apply String.eqb_neq in Hfine, Hffne.
  rewrite Hn0, Hfine, Hffne. reflexivity.
Qed.

Lemma verificar_disponibilidad_cases (E : Env) (GET : string -> option string) :
  (exists n fi ff, complete_query (unicode E) GET n fi ff) \/
  (exists msg,
     Views.verificar_disponibilidad E GET
     = Done (JsonResponse (VDict [("success", VBool false); ("error", VStr msg)]) 200)).
Proof.
  unfold Views.verificar_disponibilidad, Views.int_param, Val.int.
  destruct (GET "espacioId") as [s|] eqn:Hs; [|right; eexists; reflexivity].
  destruct (Py.parse_int (unicode E) s) as [n|] eqn:Hn; [|right; eexists; reflexivity].
  destruct (forallb Val.truthy
              [AInt n; Views.param (GET "fechaInicio"); Views.param (GET "fechaFin")]) eqn:Hall;
    cbn [negb]; [|right; eexists; reflexivity].
  left. cbn [forallb] in Hall. rewrite andb_true_r in Hall.
  apply andb_true_iff in Hall as [Hn0 Hall]. apply andb_true_iff in Hall as [Hfi Hff].
  apply truthy_param in Hfi as (fi & Hfi & Hfine).
  apply truthy_param in Hff as (ff & Hff & Hffne).
  exists n, fi, ff. repeat split; eauto.
  simpl in Hn0. apply negb_true_iff in Hn0. now apply Z.eqb_neq.
Qed.




Lemma verificarDisponibilidad_run (E : Env) (espacioId fechaInicio fechaFin : Atom)
    (remote : Request -> Outcome) :
  let resultado :=
    Http.run remote (WsIntegracion.verificarDisponibilidad E espacioId fechaInicio fechaFin) in
  (exists msg rest, resultado = VDict (("error", VStr msg) :: rest)) \/
  (exists disponible,
     resultado = VDict [("espacioId", Val.of_atom espacioId);
                        ("fechaInicio", Val.of_atom fechaInicio);
                        ("fechaFin", Val.of_atom fechaFin);
                        ("disponible", VBool disponible)]).
Proof.
  unfold WsIntegracion.verificarDisponibilidad, Http.try_post, Http.send, Http.run.
  destruct (remote _) as [r|cause]; [|left; eexists; eexists; reflexivity].
  cbn [Http.receive bind Monad_either].
  unfold WsIntegracion.verificarDisponibilidad_after, Http.parse.
  destruct (negb (status_code r =? 200)%Z); [left; eexists; eexists; reflexivity|].
  destruct (fromstring E (text r)) as [msg|root]; [left; eexists; eexists; reflexivity|].
  cbn [bind Monad_either].
  destruct (ET.find_deep (ET.tem "verificarDisponibilidadResult") root) as [result_node|];
    [|left; eexists; eexists; reflexivity].
  destruct (ET.text result_node) as [t|]; [|left; eexists; eexists; reflexivity].
  right. eexists. reflexivity.
Qed.

(** X21: whatever the query and the service, [verificar_disponibilidad]
    answers status 200 with one of two payloads: success false and an error
    text, or success true with the integer read from [espacioId] and a
    boolean disponible. *)
Theorem verificar_disponibilidad_payload (E : Env) (GET : string -> option string)
    (remote : Request -> Outcome) :
  exists payload,
    Http.run remote (Views.verificar_disponibilidad E GET) = JsonResponse payload 200 /\
    ((exists msg, payload = VDict [("success", VBool false); ("error", VStr msg)]) \/
     (exists n disponible,
        payload = VDict [("success", VBool true); ("espacioId", VInt n);
                         ("disponible", VBool disponible)] /\
        exists s, GET "espacioId" = Some s /\ Py.parse_int (unicode E) s = Some n)).
Proof.
  destruct (verificar_disponibilidad_cases E GET) as [(n & fi & ff & Hq)|[msg ->]].
  - rewrite (verificar_disponibilidad_complete E _ _ _ _ Hq), run_and_then.
    destruct (verificarDisponibilidad_run E (AInt n) (AStr fi) (AStr ff) remote)
      as [(msg & rest & ->)|(d & ->)].
    + eexists. split; [reflexivity|]. left. eexists. reflexivity.
    + eexists. split; [reflexivity|]. right. exists n, d. split; [reflexivity|].
      apply Hq.
  - eexists. split; [reflexivity|]. left. eexists. reflexivity.
Qed.




